(** * XSpreadsheet: the Excel library of the MCP server, embedded in Rocq

    The development follows [src/excel_mcp_server/excel_library.py].  The
    eight operations of [ExcelLibrary] are embedded as computations of a
    small state-and-exception monad over the disk; the calls they make into
    openpyxl (worksheet indexing, cell creation, styles, loading and
    saving) are embedded in the first half of the file, after openpyxl 3.1.

    Conventions.
    - Python [str] is [string] (byte strings); numbers are [Z] (floats are
      left out); a Python object of any type is a [pyval].
    - A worksheet's [_cells] dictionary is a [gmap (Z * Z) Cell] keyed by
      (row, column).
    - The disk maps a path to a container.  [save] opens the file for
      writing, which empties it, and writes the workbook into it: when the
      writer refuses the workbook, the file is left without a workbook in
      it.  The file system itself takes every write.
    - A file holds numbers, texts, booleans and formulas under the 1900
      date system.  The reader gives a number as it is stored; a number
      under a date number format, which the reader presents as a date, is
      left out, and the properties on values that are written and read
      back are stated for number formats that cannot be date formats. *)

From Stdlib Require Import ZArith Ascii String Sorted.
From stdpp Require Import base option list gmap strings pretty.

Local Open Scope string_scope.
Local Open Scope Z_scope.

(** ** Python values *)

#[local] Unset Elimination Schemes.
Inductive pyval : Type :=
| PNone
| PBool (b : bool)
| PInt (n : Z)
| PStr (s : string)
| PList (l : list pyval)
| PDict (d : list (string * pyval)).
#[local] Set Elimination Schemes.

(** [v is None] *)
Definition is_None (v : pyval) : bool :=
  match v with PNone => true | _ => false end.

(** [d.get(k)] on a dictionary kept as an association list, and [d[k]] on a
    result record. *)
Fixpoint dict_get (k : string) (d : list (string * pyval)) : option pyval :=
  match d with
  | [] => None
  | (k', v) :: d' => if String.eqb k k' then Some v else dict_get k d'
  end.

(** ** Exceptions and the two monads *)

Inductive exn_kind :=
| FileNotFoundError | ValueError | TypeError | IndexError | AttributeError
| KeyError | InvalidFileException | BadZipFile | IllegalCharacterError
| UnboundLocalError.

Record exn := Exn { exn_kind_of : exn_kind; exn_msg : string }.

(** [str(e)] *)
Definition str_exn (e : exn) : string := exn_msg e.

Inductive outcome (A : Type) : Type :=
| Return (a : A)
| Raise (e : exn).
Arguments Return {A} a.
Arguments Raise {A} e.

Definition obind {A B} (m : outcome A) (k : A → outcome B) : outcome B :=
  match m with
  | Return a => k a
  | Raise e => Raise e
  end.

Notation "'do' x <- m ; k" := (obind m (λ x, k))
  (at level 10, x pattern, m at level 100, k at level 200,
   format "'[v' 'do'  x  <-  m ; '/' k ']'").

(** Monadic left fold: the body of a [for] loop that may raise. *)
Fixpoint ofold {A S} (f : S → A → outcome S) (l : list A) (s : S) : outcome S :=
  match l with
  | [] => Return s
  | a :: l' => do s' <- f s a; ofold f l' s'
  end.

(** ** Characters and strings *)

Definition code (c : ascii) : Z := Z.of_N (N_of_ascii c).

Definition is_digit (c : ascii) : bool := (48 <=? code c) && (code c <=? 57).
Definition is_upper (c : ascii) : bool := (65 <=? code c) && (code c <=? 90).
Definition is_lower (c : ascii) : bool := (97 <=? code c) && (code c <=? 122).
Definition is_alpha (c : ascii) : bool := is_upper c || is_lower c.
Definition is_hex (c : ascii) : bool :=
  is_digit c || ((65 <=? code c) && (code c <=? 70))
             || ((97 <=? code c) && (code c <=? 102)).

Definition upper_char (c : ascii) : ascii :=
  if is_lower c then ascii_of_N (N_of_ascii c - 32) else c.
Definition lower_char (c : ascii) : ascii :=
  if is_upper c then ascii_of_N (N_of_ascii c + 32) else c.

Fixpoint smap (f : ascii → ascii) (s : string) : string :=
  match s with
  | EmptyString => EmptyString
  | String c s' => String (f c) (smap f s')
  end.

Definition upper (s : string) : string := smap upper_char s.
Definition lower (s : string) : string := smap lower_char s.

Fixpoint sall (p : ascii → bool) (s : string) : bool :=
  match s with
  | EmptyString => true
  | String c s' => p c && sall p s'
  end.

Fixpoint sany (p : ascii → bool) (s : string) : bool :=
  match s with
  | EmptyString => false
  | String c s' => p c || sany p s'
  end.

(** [c in s] for a one-character [c] *)
Definition contains_char (c : ascii) (s : string) : bool :=
  sany (Ascii.eqb c) s.

(** Longest prefix of [s] whose characters satisfy [p], and the rest. *)
Fixpoint span (p : ascii → bool) (s : string) : string * string :=
  match s with
  | EmptyString => (EmptyString, EmptyString)
  | String c s' =>
      if p c then let '(a, b) := span p s' in (String c a, b)
      else (EmptyString, s)
  end.

Definition slen (s : string) : Z := Z.of_nat (String.length s).

(** [s[:n]] *)
Definition stake (n : nat) (s : string) : string := String.substring 0 n s.

(** [s[1:]] *)
Definition sdrop1 (s : string) : string :=
  match s with EmptyString => EmptyString | String _ s' => s' end.

Fixpoint srev_app (s acc : string) : string :=
  match s with
  | EmptyString => acc
  | String c s' => srev_app s' (String c acc)
  end.
Definition srev (s : string) : string := srev_app s EmptyString.

(** [str(n)] for an integer *)
Definition str_Z (n : Z) : string := pretty n.

(** Truthiness of [Optional[str]]: [None] and the empty string are false. *)
Definition truthy_str (o : option string) : bool :=
  match o with
  | Some s => negb (String.eqb s "")
  | None => false
  end.

Definition is_Some_b {A} (o : option A) : bool :=
  match o with Some _ => true | None => false end.

(** [x or y] on integers that may be [None]: [None] and [0] are false. *)
Definition or_default (x : option Z) (y : Z) : Z :=
  match x with
  | Some n => if n =? 0 then y else n
  | None => y
  end.

(** A pattern ending in [$] also matches just before a final newline. *)
Definition at_end (s : string) : bool :=
  String.eqb s "" || String.eqb s (String "010" EmptyString).

(** ** openpyxl.utils.cell: references *)

(** [int(s)] for a string of decimal digits *)
Fixpoint int_digits_acc (s : string) (acc : Z) : Z :=
  match s with
  | EmptyString => acc
  | String c s' => int_digits_acc s' (10 * acc + (code c - 48))
  end.
Definition int_digits (s : string) : Z := int_digits_acc s 0.

(** [column_index_from_string]: base 26 without a zero digit, on the
    upper-cased letters.  The table of openpyxl holds every name of one to
    three letters, which is all the reference grammar lets through. *)
Fixpoint col_index_acc (s : string) (acc : Z) : Z :=
  match s with
  | EmptyString => acc
  | String c s' => col_index_acc s' (26 * acc + (code c - 64))
  end.

Definition column_index_from_string (str_col : string) : outcome Z :=
  let u := upper str_col in
  if sall is_upper u && (1 <=? slen u) && (slen u <=? 3)
  then Return (col_index_acc u 0)
  else Raise (Exn ValueError (str_col ++ " is not a valid column name")).

(** [get_column_letter]: defined on 1..18278 ("A".."ZZZ"). *)
Fixpoint column_letters (fuel : nat) (col_idx : Z) (acc : string) : string :=
  match fuel with
  | O => acc
  | S fuel' =>
      if col_idx <=? 0 then acc
      else
        let q := col_idx / 26 in
        let r := col_idx mod 26 in
        if r =? 0
        then column_letters fuel' (q - 1) (String (ascii_of_N (Z.to_N (26 + 64))) acc)
        else column_letters fuel' q (String (ascii_of_N (Z.to_N (r + 64))) acc)
  end.

Definition get_column_letter (idx : Z) : outcome string :=
  if (1 <=? idx) && (idx <=? 18278)
  then Return (column_letters 3 idx EmptyString)
  else Raise (Exn ValueError ("Invalid column index " ++ str_Z idx)).

(** One corner of [RANGE_EXPR]: [[$]?([A-Za-z]{1,3})?[$]?(\d+)?].  The
    character classes are disjoint, so the longest match is the only one;
    a run of more than three letters matches nothing. *)
Definition opt_dollar (s : string) : string :=
  match s with
  | String "$" s' => s'
  | _ => s
  end.

Definition group (s : string) : option string :=
  if String.eqb s "" then None else Some s.

Definition corner (s : string) : option (option string * option string * string) :=
  let '(letters, s1) := span is_alpha (opt_dollar s) in
  if 3 <? slen letters then None
  else
    let '(digits, s2) := span is_digit (opt_dollar s1) in
    Some (group letters, group digits, s2).

(** The groups of [ABSOLUTE_RE.match(range_string)]:
    (min_col, min_row, sep, max_col, max_row). *)
Definition absolute_re (range_string : string)
  : option (option string * option string * bool * option string * option string) :=
  match corner range_string with
  | None => None
  | Some (min_col, min_row, rest) =>
      match rest with
      | String ":" rest' =>
          match corner rest' with
          | None => None
          | Some (max_col, max_row, rest'') =>
              if at_end rest'' then Some (min_col, min_row, true, max_col, max_row)
              else None
          end
      | _ =>
          if at_end rest then Some (min_col, min_row, false, None, None)
          else None
      end
  end.

Definition bounds : Type := option Z * option Z * option Z * option Z.

(** [range_boundaries]: (min_col, min_row, max_col, max_row); a bound that
    the string leaves out is [None].  The ends are taken as written: the
    function does not order them. *)
Definition range_boundaries (range_string : string) : outcome bounds :=
  let msg := range_string ++ " is not a valid coordinate or range" in
  match absolute_re range_string with
  | None => Raise (Exn ValueError msg)
  | Some (min_col, min_row, sep, max_col, max_row) =>
      let all_cols := is_Some_b min_col && is_Some_b max_col in
      let all_rows := is_Some_b min_row && is_Some_b max_row in
      let any_cols := is_Some_b min_col || is_Some_b max_col in
      let any_rows := is_Some_b min_row || is_Some_b max_row in
      if sep && negb ((all_cols && all_rows)
                      || (all_cols && negb any_rows)
                      || (all_rows && negb any_cols))
      then Raise (Exn ValueError msg)
      else
        do min_col' <- match min_col with
                       | Some s => do n <- column_index_from_string s; Return (Some n)
                       | None => Return None
                       end;
        let min_row' := int_digits <$> min_row in
        do max_col' <- match max_col with
                       | Some s => do n <- column_index_from_string s; Return (Some n)
                       | None => Return min_col'
                       end;
        let max_row' := match max_row with
                        | Some s => Some (int_digits s)
                        | None => min_row'
                        end in
        Return (min_col', min_row', max_col', max_row')
  end.


(** ** openpyxl.styles *)

Inductive Color :=
| RGB (rgb : string)
| Theme (n : Z).

Record Font := mkFont {
  f_name : option string;
  f_sz : option Z;
  f_b : bool;
  f_i : bool;
  f_color : option Color;
}.

Record PatternFill := mkFill {
  patternType : option string;
  fgColor : Color;
  bgColor : Color;
}.

#[global] Instance Color_eq_dec : EqDecision Color.
Proof. solve_decision. Defined.
#[global] Instance Font_eq_dec : EqDecision Font.
Proof. solve_decision. Defined.
#[global] Instance PatternFill_eq_dec : EqDecision PatternFill.
Proof. solve_decision. Defined.

(** The font, fill and number format of a cell that was never styled. *)
Definition DEFAULT_FONT : Font :=
  mkFont (Some "Calibri") (Some 11) false false (Some (Theme 1)).
Definition DEFAULT_EMPTY_FILL : PatternFill :=
  mkFill None (RGB "00000000") (RGB "00000000").
Definition General : string := "General".

(** [Color(rgb=value)]: [aRGB_REGEX] is
    [^([A-Fa-f0-9]{8}|[A-Fa-f0-9]{6})$]; six digits get the alpha "00". *)
Definition Color_rgb (value : string) : outcome Color :=
  let '(h, rest) := span is_hex value in
  if at_end rest && ((slen h =? 8) || (slen h =? 6))
  then Return (RGB (if slen value =? 6 then "00" ++ value else value))
  else Raise (Exn ValueError "Colors must be aRGB hex values").

(** The [Font] built from [font_kwargs], for the keywords the library passes: [bold],
    [italic], [size], [color]; a keyword left out keeps the constructor's
    default, which is unset. *)
Definition Font_init (bold italic : bool) (size : option Z) (color : option string)
  : outcome Font :=
  do c <- match color with
          | Some s => do c <- Color_rgb s; Return (Some c)
          | None => Return None
          end;
  Return (mkFont None size bold italic c).

(** [PatternFill(start_color=c, end_color=c, fill_type='solid')] *)
Definition PatternFill_solid (c : string) : outcome PatternFill :=
  do fg <- Color_rgb c;
  do bg <- Color_rgb c;
  Return (mkFill (Some "solid") fg bg).

(** ** openpyxl.cell *)

Inductive data_type := TYPE_NUMERIC | TYPE_STRING | TYPE_BOOL | TYPE_FORMULA.

#[global] Instance data_type_eq_dec : EqDecision data_type.
Proof. solve_decision. Defined.

Record Cell := mkCell {
  value : pyval;
  cell_type : data_type;
  font : Font;
  fill : PatternFill;
  number_format : string;
}.

(** [Cell(ws, row, column)]: no value, default style *)
Definition new_cell : Cell :=
  mkCell PNone TYPE_NUMERIC DEFAULT_FONT DEFAULT_EMPTY_FILL General.

(** [ILLEGAL_CHARACTERS_RE]: [[\000-\010]|[\013-\014]|[\016-\037]] *)
Definition illegal_char (c : ascii) : bool :=
  (code c <=? 8) || ((11 <=? code c) && (code c <=? 12))
                 || ((14 <=? code c) && (code c <=? 31)).

(** [Cell.check_string] *)
Definition check_string (s : string) : outcome string :=
  let s' := stake 32767 s in
  if sany illegal_char s'
  then Raise (Exn IllegalCharacterError (s' ++ " cannot be used in worksheets."))
  else Return s'.

(** [cell.value = v] ([Cell._bind_value]): the data type starts from
    numeric; [None], booleans, numbers and strings are stored; a string of more than one character that starts
    with "=" is a formula; any other object is refused. *)
Definition set_value (v : pyval) (c : Cell) : outcome Cell :=
  match v with
  | PNone => Return (mkCell PNone TYPE_NUMERIC (font c) (fill c) (number_format c))
  | PBool _ => Return (mkCell v TYPE_BOOL (font c) (fill c) (number_format c))
  | PInt _ => Return (mkCell v TYPE_NUMERIC (font c) (fill c) (number_format c))
  | PStr s =>
      do s' <- check_string s;
      let t := if (1 <? slen s') && String.prefix "=" s' then TYPE_FORMULA
               else TYPE_STRING in
      Return (mkCell (PStr s') t (font c) (fill c) (number_format c))
  | PList _ | PDict _ => Raise (Exn ValueError "Cannot convert value to Excel")
  end.

Definition set_font (f : Font) (c : Cell) : Cell :=
  mkCell (value c) (cell_type c) f (fill c) (number_format c).
Definition set_fill (f : PatternFill) (c : Cell) : Cell :=
  mkCell (value c) (cell_type c) (font c) f (number_format c).
Definition set_number_format (nf : string) (c : Cell) : Cell :=
  mkCell (value c) (cell_type c) (font c) (fill c) nf.

(** [cell.has_style] *)
Definition has_style (c : Cell) : bool :=
  negb (bool_decide (font c = DEFAULT_FONT))
  || negb (bool_decide (fill c = DEFAULT_EMPTY_FILL))
  || negb (String.eqb (number_format c) General).

(** ** openpyxl.chart (what the library keeps of a chart) *)

(** The blanks that [int] strips from a string: [str.isspace] on the
    characters of ASCII. *)
Definition is_space (c : ascii) : bool :=
  ((9 <=? code c) && (code c <=? 13)) || ((28 <=? code c) && (code c <=? 32)).

(** The digits of a decimal literal, [d(_?d)*], their value and what
    follows them; [after_us] says that the last character was "_". *)
Fixpoint literal_digits (s : string) (after_us : bool) (acc : Z) : option (Z * string) :=
  match s with
  | EmptyString => if after_us then None else Some (acc, EmptyString)
  | String c s' =>
      if is_digit c then literal_digits s' false (10 * acc + (code c - 48))
      else if Ascii.eqb c "_" then
             (if after_us then None else literal_digits s' true acc)
      else if after_us then None else Some (acc, s)
  end.

(** [int(s)] for a string that starts with a digit: a decimal literal,
    with blanks after it at most. *)
Definition py_int (s : string) : option Z :=
  match s with
  | String c _ =>
      if is_digit c
      then match literal_digits s false 0 with
           | Some (n, rest) => if sall is_space rest then Some n else None
           | None => None
           end
      else None
  | EmptyString => None
  end.

Fixpoint last_char (s : string) : string :=
  match s with
  | EmptyString => EmptyString
  | String c EmptyString => s
  | String _ s' => last_char s'
  end.

(** [coordinate_to_tuple(coordinate)]: (row, column).  The string is cut
    at its first digit, and at its last character when it has no digit;
    [int] is called on the second part before the first part is looked up
    among the column names "A" to "ZZZ".  In the messages, [repr] is taken
    to put a string between single quotes. *)
Definition coordinate_to_tuple (coordinate : string) : outcome (Z * Z) :=
  let '(col, row) := span (λ c, negb (is_digit c)) coordinate in
  match coordinate, row with
  | EmptyString, _ =>
      Raise (Exn UnboundLocalError
        "cannot access local variable 'idx' where it is not associated with a value")
  | _, EmptyString =>
      Raise (Exn ValueError ("invalid literal for int() with base 10: '"
                             ++ last_char coordinate ++ "'"))
  | _, _ =>
      match py_int row with
      | None => Raise (Exn ValueError ("invalid literal for int() with base 10: '"
                                       ++ row ++ "'"))
      | Some r =>
          if sall is_upper col && (1 <=? slen col) && (slen col <=? 3)
          then Return (r, col_index_acc col 0)
          else Raise (Exn KeyError ("'" ++ col ++ "'"))
      end
  end.

(** Where a chart is put: the text that [chart.anchor = position] sets, or
    the cell that the reader found in the file, with the row and the
    column counted from 0. *)
Inductive chart_anchor :=
| AnchorText (position : string)
| AnchorMarker (row col : Z).

Record Chart := mkChart {
  chart_type : string;
  chart_title : option string;
  series : list string;
  anchor : chart_anchor;
}.

(** [_check_anchor(chart)], which the writer calls on every chart of a
    sheet: a text is taken as the reference of a cell. *)
Definition _check_anchor (a : chart_anchor) : outcome (Z * Z) :=
  match a with
  | AnchorMarker row col => Return (row, col)
  | AnchorText position =>
      do (row, col) <- coordinate_to_tuple (upper position);
      Return (row - 1, col - 1)
  end.

(** ** openpyxl.worksheet *)

Abbreviation coord := (Z * Z)%type.

Record Worksheet := mkWorksheet {
  title : string;
  _cells : gmap coord Cell;
  _charts : list Chart;
}.

Definition max_of (l : list Z) : Z :=
  match l with
  | [] => 1
  | x :: l' => foldr Z.max x l'
  end.

(** [ws.max_row], [ws.max_column]: the largest row and column among the
    keys of [_cells]; 1 on a sheet without cells. *)
Definition max_row (ws : Worksheet) : Z :=
  max_of ((map_to_list (_cells ws)).*1.*1).
Definition max_column (ws : Worksheet) : Z :=
  max_of ((map_to_list (_cells ws)).*1.*2).

(** The cell at a coordinate, as [ws._cells[k]] after [_get_cell] created
    it when it was missing. *)
Definition cell_at (ws : Worksheet) (k : coord) : Cell :=
  default new_cell (_cells ws !! k).

(** [ws._get_cell(row, column)] *)
Definition _get_cell (row column : Z) (ws : Worksheet) : outcome Worksheet :=
  if (0 <? row) && (row <? 1048577)
  then Return (mkWorksheet (title ws)
                 (<[(row, column) := cell_at ws (row, column)]> (_cells ws))
                 (_charts ws))
  else Raise (Exn ValueError
         ("Row numbers must be between 1 and 1048576. Row number supplied was "
          ++ str_Z row)).

(** [ws.cell(row, column)] without a value *)
Definition cell (row column : Z) (ws : Worksheet) : outcome Worksheet :=
  if (row <? 1) || (column <? 1)
  then Raise (Exn ValueError "Row or column values must be at least 1")
  else _get_cell row column ws.

(** Replace the cell at [k] (an assignment through a cell object that the
    sheet holds). *)
Definition put_cell (k : coord) (c : Cell) (ws : Worksheet) : Worksheet :=
  mkWorksheet (title ws) (<[k := c]> (_cells ws)) (_charts ws).

(** [ws.cell(row, column, value)]: the value is bound only when it is not
    [None]. *)
Definition cell_set (row column : Z) (v : pyval) (ws : Worksheet) : outcome Worksheet :=
  do ws' <- cell row column ws;
  if is_None v then Return ws'
  else do c <- set_value v (cell_at ws' (row, column));
       Return (put_cell (row, column) c ws').

(** [range(lo, hi + 1)] *)
Definition zrange (lo hi : Z) : list Z := seqZ lo (hi + 1 - lo).

(** The coordinates of [ws._cells_by_row(min_col, min_row, max_col, max_row)]
    and of [_cells_by_col], one tuple per row (per column). *)
Definition coords_by_row (min_col min_row max_col max_row : Z) : list (list coord) :=
  (λ r, (λ c, (r, c)) <$> zrange min_col max_col) <$> zrange min_row max_row.
Definition coords_by_col (min_col min_row max_col max_row : Z) : list (list coord) :=
  (λ c, (λ r, (r, c)) <$> zrange min_row max_row) <$> zrange min_col max_col.

(** Forcing the generator: every cell of the tuples is fetched with
    [ws.cell], in order, which creates the missing ones. *)
Definition touch (kss : list (list coord)) (ws : Worksheet) : outcome Worksheet :=
  ofold (λ w k, cell k.1 k.2 w) (concat kss) ws.

(** [ws.iter_rows(min_row, max_row, min_col, max_col)] and [ws.iter_cols],
    forced into a tuple of tuples. *)
Definition iter_rows (min_row_ max_row_ min_col_ max_col_ : option Z) (ws : Worksheet)
  : outcome (Worksheet * list (list coord)) :=
  let kss := coords_by_row (or_default min_col_ 1) (or_default min_row_ 1)
               (or_default max_col_ (max_column ws)) (or_default max_row_ (max_row ws)) in
  do ws' <- touch kss ws;
  Return (ws', kss).

Definition iter_cols (min_col_ max_col_ min_row_ max_row_ : option Z) (ws : Worksheet)
  : outcome (Worksheet * list (list coord)) :=
  let kss := coords_by_col (or_default min_col_ 1) (or_default min_row_ 1)
               (or_default max_col_ (max_column ws)) (or_default max_row_ (max_row ws)) in
  do ws' <- touch kss ws;
  Return (ws', kss).

(** What [ws[key]] returns: one cell, a tuple of cells, or a tuple of tuples
    of cells.  The cells are those of the sheet, so they are given by their
    coordinates. *)
Inductive selection :=
| OneCell (k : coord)
| CellTuple (ks : list coord)
| TupleOfTuples (kss : list (list coord)).

(** [ws[key]] ([Worksheet.__getitem__]) for a string key *)
Definition ws_getitem (key : string) (ws : Worksheet) : outcome (Worksheet * selection) :=
  do (min_col_, min_row_, max_col_, max_row_) <- range_boundaries key;
  if (or_default min_col_ 0 =? 0) && (or_default min_row_ 0 =? 0)
     && (or_default max_col_ 0 =? 0) && (or_default max_row_ 0 =? 0)
  then Raise (Exn IndexError (key ++ " is not a valid coordinate or range"))
  else
    match min_row_, min_col_ with
    | None, _ =>
        do (ws', cols) <- iter_cols min_col_ max_col_ None None ws;
        if bool_decide (min_col_ = max_col_)
        then match cols with
             | col :: _ => Return (ws', CellTuple col)
             | [] => Raise (Exn IndexError "tuple index out of range")
             end
        else Return (ws', TupleOfTuples cols)
    | Some r, None =>
        do (ws', rows) <- iter_rows min_row_ max_row_ min_col_ (Some (max_column ws)) ws;
        if bool_decide (min_row_ = max_row_)
        then match rows with
             | row :: _ => Return (ws', CellTuple row)
             | [] => Raise (Exn IndexError "tuple index out of range")
             end
        else Return (ws', TupleOfTuples rows)
    | Some r, Some c =>
        if negb (contains_char ":" key)
        then do ws' <- _get_cell r c ws; Return (ws', OneCell (r, c))
        else do (ws', rows) <- iter_rows min_row_ max_row_ min_col_ max_col_ ws;
             Return (ws', TupleOfTuples rows)
    end.

Definition min_of (l : list Z) : Z :=
  match l with
  | [] => 1
  | x :: l' => foldr Z.min x l'
  end.

Definition min_column (ws : Worksheet) : Z :=
  min_of ((map_to_list (_cells ws)).*1.*2).
Definition min_row (ws : Worksheet) : Z :=
  min_of ((map_to_list (_cells ws)).*1.*1).

(** [ws.calculate_dimension()]: the range between the first and the last
    row and column among the keys of [_cells]. *)
Definition calculate_dimension (ws : Worksheet) : outcome string :=
  match map_to_list (_cells ws) with
  | [] => Return "A1:A1"
  | _ :: _ =>
      do first <- get_column_letter (min_column ws);
      do last_ <- get_column_letter (max_column ws);
      Return (first ++ str_Z (min_row ws) ++ ":" ++ last_ ++ str_Z (max_row ws))
  end.

Definition valid_row (r : Z) : bool := (0 <? r) && (r <? 1048577).

(** [ws._move_cells(min_row, offset=offset, row_or_col="row")]: every cell
    from row [min_row] on (every cell when [min_row] is 0) is fetched with
    [_get_cell] and moved by [offset] rows, in the order of the rows (from
    the last row backwards when [offset] is positive).  The method first
    fetches the cells of the rows from [min_row] to the last row; the one
    call below starts past the last row, where there are none. *)
Definition _move_cells (min_row_ offset : Z) (ws : Worksheet) : outcome Worksheet :=
  let moves (k : coord) : bool := (min_row_ =? 0) || (min_row_ <=? k.1) in
  let moved := filter (λ kc : coord * Cell, moves kc.1) (_cells ws) in
  let kept := filter (λ kc : coord * Cell, negb (moves kc.1)) (_cells ws) in
  let bad := filter (λ r, negb (valid_row r)) ((map_to_list moved).*1.*1) in
  match bad with
  | r :: bad' =>
      let first := if 0 <? offset then foldr Z.max r bad' else foldr Z.min r bad' in
      Raise (Exn ValueError
        ("Row numbers must be between 1 and 1048576. Row number supplied was "
         ++ str_Z first))
  | [] =>
      let shifted : gmap coord Cell :=
        if offset =? 0 then ∅
        else kmap (λ k : coord, (k.1 + offset, k.2)) moved in
      Return (mkWorksheet (title ws) (shifted ∪ kept) (_charts ws))
  end.

(** [ws.delete_rows(idx, amount)]: the rows below the deleted ones move up,
    then the rows left over at the bottom are emptied, over the columns the
    sheet uses. *)
Definition delete_rows (idx amount : Z) (ws : Worksheet) : outcome Worksheet :=
  let lo := Z.max (max_row ws + 1 - amount) idx in
  let hi := Z.min (idx + amount) (max_row ws) in
  do ws1 <- _move_cells (idx + amount) (- amount) ws;
  let min_col := min_column ws1 in
  let max_col := max_column ws1 in
  let gutter (k : coord) : bool :=
    (lo <=? k.1) && (k.1 <=? hi) && (min_col <=? k.2) && (k.2 <=? max_col) in
  Return (mkWorksheet (title ws1)
            (filter (λ kc : coord * Cell, negb (gutter kc.1)) (_cells ws1))
            (_charts ws1)).

(** ** openpyxl.workbook *)

Record Workbook := mkWorkbook {
  _sheets : list Worksheet;
  _active_sheet_index : nat;
}.

(** [Workbook()]: one empty sheet, "Sheet", active *)
Definition new_Workbook : Workbook :=
  mkWorkbook [mkWorksheet "Sheet" ∅ []] 0.

Definition sheetnames (wb : Workbook) : list string := title <$> _sheets wb.

(** [wb.active]: [None] when the index is out of range *)
Definition active (wb : Workbook) : option (nat * Worksheet) :=
  (λ ws, (_active_sheet_index wb, ws)) <$> _sheets wb !! _active_sheet_index wb.

(** [wb[name]]: the first sheet with that title, with its position *)
Definition wb_getitem (name : string) (wb : Workbook) : option (nat * Worksheet) :=
  list_find (λ ws, title ws = name) (_sheets wb).

(** The sheet at position [i] after it was changed through its object. *)
Definition update_sheet (i : nat) (ws : Worksheet) (wb : Workbook) : Workbook :=
  mkWorkbook (<[i := ws]> (_sheets wb)) (_active_sheet_index wb).

(** [wb.remove(wb[name])] *)
Definition remove_sheet (i : nat) (wb : Workbook) : Workbook :=
  mkWorkbook (delete i (_sheets wb)) (_active_sheet_index wb).

(** ** openpyxl.workbook.child: the title of a new sheet *)

(** [pattern] at the start of [s], compared without regard to case: the
    rest of [s]. *)
Fixpoint match_ci (pattern s : string) : option string :=
  match pattern, s with
  | EmptyString, _ => Some s
  | String a pattern', String b s' =>
      if Ascii.eqb (lower_char a) (lower_char b) then match_ci pattern' s' else None
  | String _ _, EmptyString => None
  end.

(** [sheet_title_regex.findall(names)]: the pattern, compiled with
    [re.I], is the title, then a group of any number of digits, then a
    comma at most.  The result is the group of digits of each occurrence,
    from left to right.  An occurrence takes the comma after its digits
    with it, and the search goes on after it: [skip] counts the
    characters still to pass. *)
Fixpoint find_counts (value_ names : string) (skip : nat) : list string :=
  match names with
  | EmptyString => []
  | String _ rest =>
      match skip with
      | S skip' => find_counts value_ rest skip'
      | O =>
          match match_ci value_ names with
          | None => find_counts value_ rest 0
          | Some after =>
              let '(count, after') := span is_digit after in
              let after'' := match after' with
                             | String "," r => r
                             | _ => after'
                             end in
              count :: find_counts value_ rest
                         (String.length names - String.length after'' - 1)
          end
      end
  end.

(** [max(counts)], and 0 without counts *)
Definition highest_of (counts : list Z) : Z :=
  match counts with
  | [] => 0
  | c :: counts' => foldr Z.max c counts'
  end.

(** [avoid_duplicate_name(names, value)]: a title that equals no name of
    the workbook, case left aside, is kept; otherwise the names are joined
    with commas, the numbers that follow the title in that string are
    collected, and the title gets the next number appended.  (The title is
    never empty.) *)
Definition avoid_duplicate_name (names : list string) (value_ : string) : string :=
  if existsb (λ n, String.eqb (lower n) (lower value_)) names
  then
    match find_counts value_ (String.concat "," names) 0 with
    | [] => value_
    | matches =>
        let counts :=
          int_digits <$> List.filter (λ idx, negb (String.eqb idx "")) matches in
        value_ ++ str_Z (highest_of counts + 1)
    end
  else value_.

(** [INVALID_TITLE_REGEX]: one of [\ * ? : / [ ]] *)
Definition invalid_title_char (c : ascii) : bool :=
  sany (Ascii.eqb c) "\*?:/[]".

Fixpoint first_char (p : ascii → bool) (s : string) : string :=
  match s with
  | EmptyString => EmptyString
  | String c s' => if p c then String c EmptyString else first_char p s'
  end.

(** ** The container on disk *)

Inductive stored_content :=
| Plain (v : pyval)
| Formula (text : string) (cached : option pyval).

Record stored_cell := mkStoredCell {
  sc_content : stored_content;
  sc_font : Font;
  sc_fill : PatternFill;
  sc_number_format : string;
}.

(** A chart of a file: it is anchored at a cell, given by its row and its
    column, counted from 0. *)
Record stored_chart := mkStoredChart {
  sch_type : string;
  sch_title : option string;
  sch_series : list string;
  sch_from : Z * Z;
}.

Record stored_worksheet := mkStoredWorksheet {
  s_title : string;
  s_cells : gmap coord stored_cell;
  s_charts : list stored_chart;
}.

Record stored_workbook := mkStoredWorkbook {
  s_sheets : list stored_worksheet;
  s_active : nat;
}.

Inductive container :=
| Corrupt
| Encoded (wb : stored_workbook).

Abbreviation disk := (gmap string container).

Definition type_of_value (v : pyval) : data_type :=
  match v with
  | PStr _ => TYPE_STRING
  | PBool _ => TYPE_BOOL
  | _ => TYPE_NUMERIC
  end.

(** Reading a cell.  A formula cell gives its text, with the "=" put back;
    with [data_only] it gives the value the file caches for it, and [None]
    when the file caches none.  A number is given as it is stored (what
    the reader makes of a number under a date number format is left
    out). *)
Definition load_cell (data_only : bool) (sc : stored_cell) : Cell :=
  match sc_content sc with
  | Plain v =>
      mkCell v (type_of_value v) (sc_font sc) (sc_fill sc) (sc_number_format sc)
  | Formula text cached =>
      if data_only
      then let v := default PNone cached in
           mkCell v (type_of_value v) (sc_font sc) (sc_fill sc) (sc_number_format sc)
      else mkCell (PStr ("=" ++ text)) TYPE_FORMULA
             (sc_font sc) (sc_fill sc) (sc_number_format sc)
  end.

(** Writing a cell.  A formula is written as its text, without a value. *)
Definition store_cell (c : Cell) : stored_cell :=
  let content :=
    match cell_type c, value c with
    | TYPE_FORMULA, PStr s => Formula (sdrop1 s) None
    | _, v => Plain v
    end in
  mkStoredCell content (font c) (fill c) (number_format c).

(** The writer leaves out a cell that has neither a value nor a style. *)
Definition written (c : Cell) : bool := negb (is_None (value c)) || has_style c.

(** Reading a chart: its anchor is the cell of the file. *)
Definition load_chart (sc : stored_chart) : Chart :=
  mkChart (sch_type sc) (sch_title sc) (sch_series sc)
    (AnchorMarker (sch_from sc).1 (sch_from sc).2).

(** Writing a chart whose anchor the writer has accepted. *)
Definition store_chart (c : Chart) : stored_chart :=
  mkStoredChart (chart_type c) (chart_title c) (series c)
    (match _check_anchor (anchor c) with
     | Return m => m
     | Raise _ => (0, 0)
     end).

Definition load_worksheet (data_only : bool) (sw : stored_worksheet) : Worksheet :=
  mkWorksheet (s_title sw) (load_cell data_only <$> s_cells sw)
    (load_chart <$> s_charts sw).

Definition store_worksheet (ws : Worksheet) : stored_worksheet :=
  mkStoredWorksheet (title ws)
    (store_cell <$> filter (λ kc : coord * Cell, written kc.2) (_cells ws))
    (store_chart <$> _charts ws).

(** What can stop the writer on a sheet, in the order of its steps: the
    dimension of the sheet, which it writes before the cells, and then the
    anchor of each chart. *)
Definition check_worksheet (ws : Worksheet) : outcome unit :=
  do _ <- calculate_dimension ws;
  ofold (λ _ c, do _ <- _check_anchor (anchor c); Return tt) (_charts ws) tt.

(** The writer goes through the sheets in their order. *)
Definition check_workbook (wb : Workbook) : outcome unit :=
  ofold (λ _ ws, check_worksheet ws) (_sheets wb) tt.

Definition decode (data_only : bool) (sw : stored_workbook) : Workbook :=
  mkWorkbook (load_worksheet data_only <$> s_sheets sw) (s_active sw).

Definition encode (wb : Workbook) : stored_workbook :=
  mkStoredWorkbook (store_worksheet <$> _sheets wb) (_active_sheet_index wb).

(** ** The monad of an operation: exceptions over the disk *)

Definition M (A : Type) : Type := disk → outcome A * disk.

Definition ret {A} (a : A) : M A := λ d, (Return a, d).
Definition raise {A} (e : exn) : M A := λ d, (Raise e, d).
Definition bind {A B} (m : M A) (k : A → M B) : M B :=
  λ d, match m d with
       | (Return a, d') => k a d'
       | (Raise e, d') => (Raise e, d')
       end.
Definition lift {A} (o : outcome A) : M A := λ d, (o, d).

(** [try: body except Exception as e: handler] *)
Definition try_except {A} (body : M A) (handler : exn → M A) : M A :=
  λ d, match body d with
       | (Return a, d') => (Return a, d')
       | (Raise e, d') => handler e d'
       end.

Notation "'run' x <- m ; k" := (bind m (λ x, k))
  (at level 10, x pattern, m at level 100, k at level 200,
   format "'[v' 'run'  x  <-  m ; '/' k ']'").

(** [os.path.exists(file_path)] *)
Definition os_path_exists (file_path : string) : M bool :=
  λ d, (Return (bool_decide (is_Some (d !! file_path))), d).

(** [os.path.splitext(filename)[-1].lower()], with "/" between the
    components of a path. *)
Definition file_format (filename : string) : string :=
  let '(rbase, _) := span (λ c, negb (Ascii.eqb c "/")) (srev filename) in
  let '(rext, rest) := span (λ c, negb (Ascii.eqb c ".")) rbase in
  match rest with
  | String "." rstem =>
      if sany (λ c, negb (Ascii.eqb c ".")) rstem
      then lower (String "." (srev rext))
      else ""
  | _ => ""
  end.

Definition SUPPORTED_FORMATS : list string := [".xlsx"; ".xlsm"; ".xltx"; ".xltm"].

(** [load_workbook(file_path, data_only=data_only)] *)
Definition load_workbook (file_path : string) (data_only : bool) : M Workbook :=
  λ d,
    if negb (bool_decide (file_format file_path ∈ SUPPORTED_FORMATS))
    then (Raise (Exn InvalidFileException
                   "openpyxl does not support this file format"), d)
    else match d !! file_path with
         | None => (Raise (Exn FileNotFoundError
                             ("No such file or directory: " ++ file_path)), d)
         | Some Corrupt => (Raise (Exn BadZipFile "File is not a zip file"), d)
         | Some (Encoded sw) => (Return (decode data_only sw), d)
         end.

(** [workbook.save(file_path)]: the file is opened for writing, which
    empties it, and the workbook is written into it.  When the writer
    raises, the file holds no workbook. *)
Definition save (wb : Workbook) (file_path : string) : M unit :=
  λ d, match check_workbook wb with
       | Return _ => (Return tt, <[file_path := Encoded (encode wb)]> d)
       | Raise e => (Raise e, <[file_path := Corrupt]> d)
       end.

(** ** excel_library.ExcelLibrary *)

(** [format_options], with the keys the library looks up.  A key that is
    left out is [None]. *)
Record format_options := mkOptions {
  bold : option bool;
  italic : option bool;
  font_size : option Z;
  font_color : option string;
  background_color : option string;
  number_format_option : option string;
}.

Definition truthy_bool (o : option bool) : bool := default false o.
Definition truthy_int (o : option Z) : bool :=
  match o with Some n => negb (n =? 0) | None => false end.

Definition opt_entry {A} (k : string) (f : A → pyval) (o : option A)
  : list (string * pyval) :=
  match o with Some a => [(k, f a)] | None => [] end.

Definition options_dict (o : format_options) : pyval :=
  PDict (opt_entry "bold" PBool (bold o) ++ opt_entry "italic" PBool (italic o)
         ++ opt_entry "font_size" PInt (font_size o)
         ++ opt_entry "font_color" PStr (font_color o)
         ++ opt_entry "background_color" PStr (background_color o)
         ++ opt_entry "number_format" PStr (number_format_option o)).

Definition opt_str (o : option string) : pyval :=
  match o with Some s => PStr s | None => PNone end.

(** [len(l)] *)
Definition len {A} (l : list A) : Z := Z.of_nat (length l).

(** [enumerate(l, start)] *)
Fixpoint enumerate {A} (l : list A) (start : Z) : list (Z * A) :=
  match l with
  | [] => []
  | a :: l' => (start, a) :: enumerate l' (start + 1)
  end.

Definition values_of (ws : Worksheet) (ks : list coord) : list pyval :=
  (λ k, value (cell_at ws k)) <$> ks.

(** [any(cell is not None for cell in row)] *)
Definition any_not_None (row : list pyval) : bool :=
  existsb (λ v, negb (is_None v)) row.

(** [self.chart_types] *)
Definition chart_types : list string := ["line"; "bar"; "pie"; "scatter"].

(** [s.title()] on a word of lower-case letters *)
Definition str_title (s : string) : string :=
  match s with
  | EmptyString => EmptyString
  | String c s' => String (upper_char c) (lower s')
  end.

Definition record : Type := list (string * pyval).

(** The [except Exception as e] branch of every operation but the first. *)
Definition failure (e : exn) : M record :=
  ret [("success", PBool false); ("error", PStr (str_exn e))].

(** The cells a [for row in ws[key]: for cell in row:] loop visits.  A
    single cell is not iterable, and neither are the cells of a flat
    tuple. *)
Definition cells_of_rows (sel : selection) : outcome (list coord) :=
  match sel with
  | TupleOfTuples kss => Return (concat kss)
  | CellTuple [] => Return []
  | CellTuple (_ :: _) | OneCell _ =>
      Raise (Exn TypeError "'Cell' object is not iterable")
  end.

(** The body of the formatting loop, on one cell. *)
Definition apply_format (font_ : option Font) (fill_ : option PatternFill)
    (format_options_ : format_options) (c : Cell) : Cell :=
  let c1 := match font_ with Some f => set_font f c | None => c end in
  let c2 := match fill_ with Some f => set_fill f c1 | None => c1 end in
  if truthy_str (number_format_option format_options_)
  then set_number_format (default "" (number_format_option format_options_)) c2
  else c2.

(** [ws[key] = v] ([Worksheet.__setitem__]): [ws[key].value = v] *)
Definition ws_setitem (key : string) (v : pyval) (ws : Worksheet) : outcome Worksheet :=
  do (ws', sel) <- ws_getitem key ws;
  match sel with
  | OneCell k => do c <- set_value v (cell_at ws' k); Return (put_cell k c ws')
  | _ => Raise (Exn AttributeError "'tuple' object has no attribute 'value'")
  end.

Section Library.

(** The operations are stated over two parts of openpyxl: the renaming
    that gives a new sheet a title, of which they use nothing but its
    result (it is [avoid_duplicate_name] above in every call of the
    library), and the series a chart gets from a sheet-qualified range
    ([Reference] and [add_data] with [titles_from_data=True]). *)
Variable avoid_duplicate_name : list string → string → string.
Variable chart_series : string → outcome (list string).

(** [wb.create_sheet(title)]: the new sheet goes last; an empty title
    becomes "Sheet". *)
Definition create_sheet (title_ : string) (wb : Workbook)
  : outcome (Workbook * nat * Worksheet) :=
  let value_ := if String.eqb title_ "" then "Sheet" else title_ in
  if sany invalid_title_char value_
  then Raise (Exn ValueError ("Invalid character "
                ++ first_char invalid_title_char value_ ++ " found in sheet title"))
  else
    let ws := mkWorksheet (avoid_duplicate_name (sheetnames wb) value_) ∅ [] in
    Return (mkWorkbook (_sheets wb ++ [ws]) (_active_sheet_index wb),
            length (_sheets wb), ws).

(** The named sheet, or the active one when no name is given
    ([read_excel_file], lines 63-69). *)
Definition select_sheet (sheet_name : option string) (workbook : Workbook)
  : outcome (Worksheet * string) :=
  if truthy_str sheet_name then
    let name := default "" sheet_name in
    if negb (bool_decide (name ∈ sheetnames workbook))
    then Raise (Exn ValueError ("Worksheet '" ++ name ++ "' not found"))
    else match wb_getitem name workbook with
         | Some (_, worksheet) => Return (worksheet, name)
         | None => Raise (Exn KeyError ("Worksheet " ++ name ++ " does not exist."))
         end
  else match active workbook with
       | Some (_, worksheet) => Return (worksheet, title worksheet)
       | None => Raise (Exn AttributeError
                          "'NoneType' object has no attribute 'title'")
       end.

(** The sheet of a required [sheet_name] (the operations from
    [update_cell] on), with its position in the workbook. *)
Definition require_sheet (sheet_name : string) (workbook : Workbook)
  : outcome (nat * Worksheet) :=
  if negb (bool_decide (sheet_name ∈ sheetnames workbook))
  then Raise (Exn ValueError ("Worksheet '" ++ sheet_name ++ "' not found"))
  else match wb_getitem sheet_name workbook with
       | Some iw => Return iw
       | None => Raise (Exn KeyError ("Worksheet " ++ sheet_name ++ " does not exist."))
       end.

(** The data of a read (lines 72-85). *)
Definition read_data (cell_range : option string) (worksheet : Worksheet)
  : outcome (Worksheet * list (list pyval)) :=
  if truthy_str cell_range then
    do (ws', cells) <- ws_getitem (default "" cell_range) worksheet;
    match cells with
    | TupleOfTuples rows => Return (ws', values_of ws' <$> rows)
    | CellTuple [] => Return (ws', [])
    | CellTuple (_ :: _) | OneCell _ =>
        Raise (Exn TypeError "'Cell' object is not iterable")
    end
  else
    do (ws', rows) <- iter_rows None None None None worksheet;
    Return (ws', List.filter any_not_None (values_of ws' <$> rows)).

Definition read_excel_file (file_path : string) (sheet_name cell_range : option string)
  : M record :=
  try_except
    (run exists_ <- os_path_exists file_path;
     if negb exists_
     then raise (Exn FileNotFoundError ("File not found: " ++ file_path))
     else
       run workbook <- load_workbook file_path true;
       run (worksheet, sheet_name') <- lift (select_sheet sheet_name workbook);
       run (worksheet', data) <- lift (read_data cell_range worksheet);
       run range_ <- lift (if truthy_str cell_range
                           then Return (default "" cell_range)
                           else do letter <- get_column_letter (max_column worksheet');
                                Return ("A1:" ++ letter ++ str_Z (max_row worksheet')));
       ret [("success", PBool true);
            ("data", PList (PList <$> data));
            ("sheet_name", PStr sheet_name');
            ("range", PStr range_);
            ("rows", PInt (len data));
            ("columns", PInt (match data with [] => 0 | row :: _ => len row end))])
    (λ e, ret [("success", PBool false); ("error", PStr (str_exn e));
               ("data", PList [])]).

(** The sheet a write goes to (lines 133-142): an existing named sheet is
    emptied, a missing one is created, and without a name the active sheet
    is taken as it is. *)
Definition target_sheet (sheet_name : option string) (workbook : Workbook)
  : outcome (Workbook * nat * Worksheet * string) :=
  if truthy_str sheet_name then
    let name := default "" sheet_name in
    if bool_decide (name ∈ sheetnames workbook)
    then match wb_getitem name workbook with
         | Some (i, worksheet) =>
             do worksheet' <- delete_rows 1 (max_row worksheet) worksheet;
             Return (workbook, i, worksheet', name)
         | None => Raise (Exn KeyError ("Worksheet " ++ name ++ " does not exist."))
         end
    else do (workbook', i, worksheet) <- create_sheet name workbook;
         Return (workbook', i, worksheet, name)
  else match active workbook with
       | Some (i, worksheet) => Return (workbook, i, worksheet, title worksheet)
       | None => Raise (Exn AttributeError
                          "'NoneType' object has no attribute 'title'")
       end.

Definition truthy_list {A} (o : option (list A)) : bool :=
  match o with Some (_ :: _) => true | _ => false end.

(** The two writing loops (lines 144-154). *)
Definition write_rows (data : list (list pyval)) (headers : option (list string))
    (worksheet : Worksheet) : outcome Worksheet :=
  do ws1 <- (if truthy_list headers
             then ofold (λ ws ch, cell_set 1 ch.1 (PStr ch.2) ws)
                    (enumerate (default [] headers) 1) worksheet
             else Return worksheet);
  let row_offset := if truthy_list headers then 1 else 0 in
  ofold (λ ws rr,
           ofold (λ ws' cv, cell_set rr.1 cv.1 cv.2 ws') (enumerate rr.2 1) ws)
    (enumerate data (1 + row_offset)) ws1.

Definition write_excel_file (file_path : string) (data : list (list pyval))
    (sheet_name : option string) (headers : option (list string)) : M record :=
  try_except
    (match data with
     | [] => raise (Exn ValueError "No data provided to write")
     | _ :: _ =>
       run exists_ <- os_path_exists file_path;
       run workbook <-
         (if exists_ then load_workbook file_path false
          else if truthy_str sheet_name
                  && bool_decide ("Sheet" ∈ sheetnames new_Workbook)
               then match wb_getitem "Sheet" new_Workbook with
                    | Some (i, _) => ret (remove_sheet i new_Workbook)
                    | None => raise (Exn KeyError "Worksheet Sheet does not exist.")
                    end
               else ret new_Workbook);
       run (workbook', i, worksheet, sheet_name') <-
         lift (target_sheet sheet_name workbook);
       run worksheet' <- lift (write_rows data headers worksheet);
       run _ <- save (update_sheet i worksheet' workbook') file_path;
       ret [("success", PBool true);
            ("file_path", PStr file_path);
            ("sheet_name", PStr sheet_name');
            ("rows_written", PInt (len data));
            ("columns_written", PInt (match data with [] => 0 | row :: _ => len row end));
            ("headers_added", PBool (truthy_list headers))]
     end)
    failure.

(** One entry of [worksheets] in [get_worksheet_info]. *)
Definition sheet_info (workbook : Workbook) (sheet_name : string) : outcome pyval :=
  match wb_getitem sheet_name workbook with
  | None => Raise (Exn KeyError ("Worksheet " ++ sheet_name ++ " does not exist."))
  | Some (i, worksheet) =>
      do letter <- get_column_letter (max_column worksheet);
      Return (PDict [("name", PStr sheet_name);
                     ("max_row", PInt (max_row worksheet));
                     ("max_column", PInt (max_column worksheet));
                     ("max_column_letter", PStr letter);
                     ("is_active", PBool (bool_decide (Some i = fst <$> active workbook)))])
  end.

Definition get_worksheet_info (file_path : string) : M record :=
  try_except
    (run exists_ <- os_path_exists file_path;
     if negb exists_
     then raise (Exn FileNotFoundError ("File not found: " ++ file_path))
     else
       run workbook <- load_workbook file_path true;
       run worksheets <- lift (ofold (λ acc sheet_name,
                                        do info <- sheet_info workbook sheet_name;
                                        Return (acc ++ [info])%list)
                                 (sheetnames workbook) []);
       ret [("success", PBool true);
            ("file_path", PStr file_path);
            ("total_worksheets", PInt (len worksheets));
            ("worksheets", PList worksheets)])
    failure.

Definition add_worksheet (file_path sheet_name : string) : M record :=
  try_except
    (run exists_ <- os_path_exists file_path;
     if negb exists_
     then raise (Exn FileNotFoundError ("File not found: " ++ file_path))
     else
       run workbook <- load_workbook file_path false;
       if bool_decide (sheet_name ∈ sheetnames workbook)
       then raise (Exn ValueError ("Worksheet '" ++ sheet_name ++ "' already exists"))
       else
         run (workbook', _, _) <- lift (create_sheet sheet_name workbook);
         run _ <- save workbook' file_path;
         ret [("success", PBool true);
              ("file_path", PStr file_path);
              ("sheet_name", PStr sheet_name);
              ("message", PStr ("Worksheet '" ++ sheet_name ++ "' added successfully"))])
    failure.

Definition update_cell (file_path sheet_name cell_ : string) (value_ : pyval) : M record :=
  try_except
    (run exists_ <- os_path_exists file_path;
     if negb exists_
     then raise (Exn FileNotFoundError ("File not found: " ++ file_path))
     else
       run workbook <- load_workbook file_path false;
       run (i, worksheet) <- lift (require_sheet sheet_name workbook);
       run worksheet' <- lift (ws_setitem cell_ value_ worksheet);
       run _ <- save (update_sheet i worksheet' workbook) file_path;
       ret [("success", PBool true);
            ("file_path", PStr file_path);
            ("sheet_name", PStr sheet_name);
            ("cell", PStr cell_);
            ("value", value_);
            ("message", PStr ("Cell " ++ cell_ ++ " updated successfully"))])
    failure.

Definition apply_formula (file_path sheet_name cell_ formula : string) : M record :=
  try_except
    (run exists_ <- os_path_exists file_path;
     if negb exists_
     then raise (Exn FileNotFoundError ("File not found: " ++ file_path))
     else
       let formula' := if negb (String.prefix "=" formula) then "=" ++ formula
                       else formula in
       run workbook <- load_workbook file_path false;
       run (i, worksheet) <- lift (require_sheet sheet_name workbook);
       run worksheet' <- lift (ws_setitem cell_ (PStr formula') worksheet);
       run _ <- save (update_sheet i worksheet' workbook) file_path;
       ret [("success", PBool true);
            ("file_path", PStr file_path);
            ("sheet_name", PStr sheet_name);
            ("cell", PStr cell_);
            ("formula", PStr formula');
            ("message", PStr ("Formula applied to cell " ++ cell_ ++ " successfully"))])
    failure.

(** The font style of lines 372-383: a font is built when at least one of
    the four font options is true, from those options alone. *)
Definition make_font (o : format_options) : outcome (option Font) :=
  if truthy_bool (bold o) || truthy_bool (italic o) || truthy_int (font_size o)
     || truthy_str (font_color o)
  then do f <- Font_init (truthy_bool (bold o)) (truthy_bool (italic o))
                 (if truthy_int (font_size o) then font_size o else None)
                 (if truthy_str (font_color o) then font_color o else None);
       Return (Some f)
  else Return None.

(** The fill style of lines 385-390. *)
Definition make_fill (o : format_options) : outcome (option PatternFill) :=
  if truthy_str (background_color o)
  then do f <- PatternFill_solid (default "" (background_color o)); Return (Some f)
  else Return None.

(** The body of the formatting loop, over the cells it visits. *)
Definition format_all (font_ : option Font) (fill_ : option PatternFill)
    (o : format_options) (ks : list coord) (worksheet : Worksheet) : Worksheet :=
  foldl (λ ws k, put_cell k (apply_format font_ fill_ o (cell_at ws k)) ws)
    worksheet ks.

(** The formatting loop of lines 392-400. *)
Definition format_range (cell_range : string) (font_ : option Font)
    (fill_ : option PatternFill) (o : format_options) (worksheet : Worksheet)
  : outcome Worksheet :=
  do (ws', sel) <- ws_getitem cell_range worksheet;
  do ks <- cells_of_rows sel;
  Return (format_all font_ fill_ o ks ws').

Definition format_cells (file_path sheet_name cell_range : string)
    (format_options_ : format_options) : M record :=
  try_except
    (run exists_ <- os_path_exists file_path;
     if negb exists_
     then raise (Exn FileNotFoundError ("File not found: " ++ file_path))
     else
       run workbook <- load_workbook file_path false;
       run (i, worksheet) <- lift (require_sheet sheet_name workbook);
       run font_ <- lift (make_font format_options_);
       run fill_ <- lift (make_fill format_options_);
       run worksheet' <- lift (format_range cell_range font_ fill_ format_options_ worksheet);
       run _ <- save (update_sheet i worksheet' workbook) file_path;
       ret [("success", PBool true);
            ("file_path", PStr file_path);
            ("sheet_name", PStr sheet_name);
            ("range", PStr cell_range);
            ("format_options", options_dict format_options_);
            ("message", PStr ("Formatting applied to range " ++ cell_range
                              ++ " successfully"))])
    failure.

Definition create_chart (file_path sheet_name data_range chart_type_ : string)
    (title_ position : option string) : M record :=
  try_except
    (run exists_ <- os_path_exists file_path;
     if negb exists_
     then raise (Exn FileNotFoundError ("File not found: " ++ file_path))
     else if negb (bool_decide (chart_type_ ∈ chart_types))
     then raise (Exn ValueError ("Unsupported chart type: " ++ chart_type_))
     else
       run workbook <- load_workbook file_path false;
       run (i, worksheet) <- lift (require_sheet sheet_name workbook);
       run ser <- lift (chart_series (sheet_name ++ "!" ++ data_range));
       let anchor_ := if truthy_str position then default "" position else "E5" in
       let chart := mkChart chart_type_
                      (if truthy_str title_ then title_ else None) ser
                      (AnchorText anchor_) in
       let worksheet' := mkWorksheet (title worksheet) (_cells worksheet)
                           (_charts worksheet ++ [chart]) in
       run _ <- save (update_sheet i worksheet' workbook) file_path;
       ret [("success", PBool true);
            ("file_path", PStr file_path);
            ("sheet_name", PStr sheet_name);
            ("data_range", PStr data_range);
            ("chart_type", PStr chart_type_);
            ("title", opt_str title_);
            ("position", PStr anchor_);
            ("message", PStr (str_title chart_type_ ++ " chart created successfully"))])
    failure.

(** The operations, as calls with their arguments. *)
Inductive operation :=
| ReadExcelFile (file_path : string) (sheet_name cell_range : option string)
| WriteExcelFile (file_path : string) (data : list (list pyval))
    (sheet_name : option string) (headers : option (list string))
| GetWorksheetInfo (file_path : string)
| AddWorksheet (file_path sheet_name : string)
| UpdateCell (file_path sheet_name cell_ : string) (value_ : pyval)
| ApplyFormula (file_path sheet_name cell_ formula : string)
| FormatCells (file_path sheet_name cell_range : string) (format_options_ : format_options)
| CreateChart (file_path sheet_name data_range chart_type_ : string)
    (title_ position : option string).

Definition call (op : operation) : M record :=
  match op with
  | ReadExcelFile p s r => read_excel_file p s r
  | WriteExcelFile p d s h => write_excel_file p d s h
  | GetWorksheetInfo p => get_worksheet_info p
  | AddWorksheet p s => add_worksheet p s
  | UpdateCell p s c v => update_cell p s c v
  | ApplyFormula p s c f => apply_formula p s c f
  | FormatCells p s r o => format_cells p s r o
  | CreateChart p s r t ti po => create_chart p s r t ti po
  end.

End Library.

(** ** Instances of the two parameters, example disks and observations *)

(** One series for the whole range, for the examples. *)
Definition whole_range_series (range_string : string) : outcome (list string) :=
  Return [range_string].

Definition plain_cell (v : pyval) : stored_cell :=
  mkStoredCell (Plain v) DEFAULT_FONT DEFAULT_EMPTY_FILL General.

Definition formula_cell (text : string) (cached : option pyval) : stored_cell :=
  mkStoredCell (Formula text cached) DEFAULT_FONT DEFAULT_EMPTY_FILL General.

(** A workbook "book.xlsx" with one sheet "S":
<<
      A   B   C
  1   1   2   =A1+B1   (no cached value)
  2   3   4   =A2+B2   (cached value 7)
>> *)
Definition sheet_S : stored_worksheet :=
  mkStoredWorksheet "S"
    (list_to_map [((1, 1), plain_cell (PInt 1)); ((1, 2), plain_cell (PInt 2));
                  ((2, 1), plain_cell (PInt 3)); ((2, 2), plain_cell (PInt 4));
                  ((1, 3), formula_cell "A1+B1" None);
                  ((2, 3), formula_cell "A2+B2" (Some (PInt 7)))])
    [].

Definition book_disk : disk :=
  {[ "book.xlsx" := Encoded (mkStoredWorkbook [sheet_S] 0) ]}.

(** The sheet of that title in the container of [path], as
    [load_workbook(path)] gives it. *)
Definition sheet_on_disk (d : disk) (path sheet : string) : option Worksheet :=
  match d !! path with
  | Some (Encoded sw) => snd <$> wb_getitem sheet (decode false sw)
  | _ => None
  end.

(** A result record of a success, and of a failure with its message. *)
Definition succeeded (r : record) : Prop :=
  dict_get "success" r = Some (PBool true).
Definition failed (r : record) : Prop :=
  dict_get "success" r = Some (PBool false)
  ∧ ∃ msg, dict_get "error" r = Some (PStr msg).

(** A computation that leaves the disk as it was. *)
Definition readonly {A} (m : M A) : Prop := ∀ d, (m d).2 = d.

(** The body of an operation on the file of [path] returns a record of
    success when it returns; when it raises, the disk is as it was, or the
    file of [path] holds no workbook any more and the rest is as it was. *)
Definition guarded (path : string) (m : M record) : Prop :=
  ∀ d, match m d with
       | (Return r, _) => succeeded r
       | (Raise _, d') => d' = d ∨ d' = <[path := Corrupt]> d
       end.

(** A coordinate a worksheet accepts: a row within the limit and a column
    from 1. *)
Definition valid_coord (k : coord) : Prop := (1 ≤ k.1 < 1048577) ∧ 1 ≤ k.2.

(** The rectangle that [iter_rows] and [iter_cols] visit for the bounds of
    a range, on a sheet with last row [mr] and last column [mc]. *)
Definition rect_of (b : bounds) (mr mc : Z) : Z * Z * Z * Z :=
  let '(min_col_, min_row_, max_col_, max_row_) := b in
  (or_default min_row_ 1, or_default max_row_ mr,
   or_default min_col_ 1, or_default max_col_ mc).

(** Whether a coordinate lies in a rectangle (rows, then columns). *)
Definition in_rect (R : Z * Z * Z * Z) (k : coord) : bool :=
  let '(rl, rh, cl, ch) := R in
  (rl <=? k.1) && (k.1 <=? rh) && (cl <=? k.2) && (k.2 <=? ch).

(** What a sheet looks like after the cells of a rectangle were fetched. *)
Definition fetched (R : Z * Z * Z * Z) (ws ws' : Worksheet) : Prop :=
  title ws' = title ws ∧ _charts ws' = _charts ws
  ∧ (∀ k, in_rect R k → valid_coord k)
  ∧ (∀ k, _cells ws' !! k = if in_rect R k then Some (cell_at ws k) else _cells ws !! k).

(** The formatting of a cell: font, fill and number format. *)
Definition style (c : Cell) : Font * PatternFill * string :=
  (font c, fill c, number_format c).

(** The font of a cell of a sheet, as the file holds it. *)
Definition font_on_disk (d : disk) (path sheet : string) (k : coord) : option Font :=
  (λ ws, font (cell_at ws k)) <$> sheet_on_disk d path sheet.

(** Two formatting requests: bold alone, and a font size alone. *)
Definition bold_only : format_options := mkOptions (Some true) None None None None None.
Definition size_14 : format_options := mkOptions None None (Some 14) None None None.

(** The example workbook after the first request, and after the second. *)
Definition after_bold : record * disk :=
  match format_cells "book.xlsx" "S" "A1:A1" bold_only book_disk with
  | (Return r, d) => (r, d)
  | (Raise _, d) => ([], d)
  end.

Definition after_bold_then_size : record * disk :=
  match format_cells "book.xlsx" "S" "A1:A1" size_14 after_bold.2 with
  | (Return r, d) => (r, d)
  | (Raise _, d) => ([], d)
  end.

(** The values of a rectangle of a sheet, row by row. *)
Definition row_major (ws : Worksheet) (R : Z * Z * Z * Z) : list (list pyval) :=
  let '(rl, rh, cl, ch) := R in
  (λ r, (λ c, value (cell_at ws (r, c))) <$> zrange cl ch) <$> zrange rl rh.

(** The stored sheet of that title in the container of [path]. *)
Definition stored_sheet (d : disk) (path sheet : string) : option stored_worksheet :=
  match d !! path with
  | Some (Encoded sw) => snd <$> list_find (λ x, s_title x = sheet) (s_sheets sw)
  | _ => None
  end.

(** The range that [get_worksheet_info] reports, or the one asked for. *)
Definition read_range (cell_range : option string) (ws : Worksheet) : outcome string :=
  if truthy_str cell_range then Return (default "" cell_range)
  else do letter <- get_column_letter (max_column ws);
       Return ("A1:" ++ letter ++ str_Z (max_row ws)).

(** The [data] entry of a result. *)
Definition data_of (x : outcome record * disk) : option pyval :=
  match x.1 with
  | Return r => dict_get "data" r
  | Raise _ => None
  end.

(** The [success] entry of a result. *)
Definition success_of (x : outcome record * disk) : option pyval :=
  match x.1 with
  | Return r => dict_get "success" r
  | Raise _ => None
  end.

(** A sheet whose cells are within the limits of the file format. *)
Definition within_limits (ws : Worksheet) : Prop :=
  ∀ k, is_Some (_cells ws !! k) → (1 ≤ k.1 ≤ 1048576) ∧ (1 ≤ k.2 ≤ 18278).

(** Row [r] of a sheet over the columns it uses. *)
Definition row_values (ws : Worksheet) (r : Z) : list pyval :=
  (λ c, value (cell_at ws (r, c))) <$> zrange 1 (max_column ws).

(** Row [r] holds a value in some cell. *)
Definition has_value (ws : Worksheet) (r : Z) : Prop :=
  ∃ c x, _cells ws !! (r, c) = Some x ∧ value x ≠ PNone.

(** Worksheet names are unique in every workbook on the disk. *)
Definition unique_names (d : disk) : Prop :=
  ∀ p sw, d !! p = Some (Encoded sw) → NoDup (s_title <$> s_sheets sw).

(** The path an operation is called on. *)
Definition file_path_of (op : operation) : string :=
  match op with
  | ReadExcelFile p _ _ | WriteExcelFile p _ _ _ | GetWorksheetInfo p
  | AddWorksheet p _ | UpdateCell p _ _ _ | ApplyFormula p _ _ _
  | FormatCells p _ _ _ | CreateChart p _ _ _ _ _ => p
  end.

(** Whether an operation is a write, which is the one that creates files. *)
Definition is_write (op : operation) : bool :=
  match op with WriteExcelFile _ _ _ _ => true | _ => false end.

(** The title that the renaming gives the sheet an operation creates is
    the title of no sheet of the workbook. *)
Definition gives_fresh_title (renaming : list string → string → string)
    (op : operation) (d : disk) : Prop :=
  ∀ sw, d !! file_path_of op = Some (Encoded sw) →
    match op with
    | AddWorksheet _ s =>
        s ∈ s_title <$> s_sheets sw
        ∨ renaming (s_title <$> s_sheets sw) (if String.eqb s "" then "Sheet" else s)
          ∉ s_title <$> s_sheets sw
    | WriteExcelFile _ _ sn _ =>
        truthy_str sn = true → default "" sn ∉ s_title <$> s_sheets sw →
        renaming (s_title <$> s_sheets sw) (default "" sn) ∉ s_title <$> s_sheets sw
    | _ => True
    end.

(** An operation asks for a new sheet under a name that is the title of a
    sheet of the workbook but for the case of its letters. *)
Definition clashes (op : operation) (names : list string) : Prop :=
  match op with
  | AddWorksheet _ s =>
      s ∉ names ∧ lower (if String.eqb s "" then "Sheet" else s) ∈ lower <$> names
  | WriteExcelFile _ _ sn _ =>
      truthy_str sn = true ∧ default "" sn ∉ names
      ∧ lower (default "" sn) ∈ lower <$> names
  | _ => False
  end.

(** The cells of a sheet lie in the columns that the file format has names
    for, "A" to "ZZZ". *)
Definition columns_in_grid (ws : Worksheet) : Prop :=
  ∀ k, is_Some (_cells ws !! k) → 1 ≤ k.2 ≤ 18278.

(** The writer accepts the anchor of every chart of a sheet. *)
Definition anchors_accepted (ws : Worksheet) : Prop :=
  Forall (λ c, ∃ m, _check_anchor (anchor c) = Return m) (_charts ws).

(** The cells of a file lie in those columns, as they do in every file
    that the reader loads. *)
Definition file_in_grid (sw : stored_workbook) : Prop :=
  ∀ sws k, sws ∈ s_sheets sw → is_Some (s_cells sws !! k) → 1 ≤ k.2 ≤ 18278.

(** The cells of every workbook of the disk lie in those columns. *)
Definition disk_in_grid (d : disk) : Prop :=
  ∀ p sw, d !! p = Some (Encoded sw) → file_in_grid sw.

(** The operations that hand the writer what the caller gave them without
    a check of their own: a write puts a cell for every value of a row,
    and [create_chart] passes the position on as it is. *)
Definition saves_unchecked (op : operation) : bool :=
  match op with
  | WriteExcelFile _ _ _ _ | CreateChart _ _ _ _ _ _ => true
  | _ => false
  end.

(** A row of 18279 values, one more than the file format has columns, and
    the write of that row to the example workbook. *)
Definition wide_row : list pyval := replicate 18279 (PInt 1).
Definition wide_write : outcome record * disk :=
  write_excel_file avoid_duplicate_name "book.xlsx" [wide_row] None None book_disk.

(** The workbook a write starts from. *)
Definition write_start (p : string) (sn : option string) (d : disk) : outcome Workbook :=
  match d !! p with
  | Some (Encoded sw) =>
      if bool_decide (file_format p ∈ SUPPORTED_FORMATS)
      then Return (decode false sw)
      else Raise (Exn InvalidFileException "openpyxl does not support this file format")
  | Some Corrupt =>
      if bool_decide (file_format p ∈ SUPPORTED_FORMATS)
      then Raise (Exn BadZipFile "File is not a zip file")
      else Raise (Exn InvalidFileException "openpyxl does not support this file format")
  | None => Return (if truthy_str sn then remove_sheet 0 new_Workbook else new_Workbook)
  end.

(** The titles of the sheets of the workbook of [path], in their order. *)
Definition titles_on_disk (d : disk) (path : string) : option (list string) :=
  match d !! path with
  | Some (Encoded sw) => Some (s_title <$> s_sheets sw)
  | _ => None
  end.

(** Four calls on a path that does not exist: a write to a sheet "a", and
    the sheets "a,a1", "A,A" and "a,a" added to the workbook. *)
Definition names_first : disk :=
  (write_excel_file avoid_duplicate_name "names.xlsx" [[PInt 1]] (Some "a") None ∅).2.
Definition names_second : disk :=
  (add_worksheet avoid_duplicate_name "names.xlsx" "a,a1" names_first).2.
Definition names_third : disk :=
  (add_worksheet avoid_duplicate_name "names.xlsx" "A,A" names_second).2.
Definition names_fourth : outcome record * disk :=
  add_worksheet avoid_duplicate_name "names.xlsx" "a,a" names_third.

(** Three rows written to a new file "book.xlsx" without a sheet name. *)
Definition three_rows_disk : disk :=
  (write_excel_file avoid_duplicate_name "book.xlsx" [[PInt 1]; [PInt 2]; [PInt 3]]
     None None ∅).2.

(** The second write without a sheet name. *)
Definition rewritten_unnamed : disk :=
  (write_excel_file avoid_duplicate_name "book.xlsx" [[PInt 9]] None None three_rows_disk).2.

(** The second write to the sheet by its name. *)
Definition rewritten_named : disk :=
  (write_excel_file avoid_duplicate_name "book.xlsx" [[PInt 9]] (Some "Sheet") None
     three_rows_disk).2.

(** Every stored cell of the disk has a row and a column of at least 1. *)
Definition coords_from_one (d : disk) : Prop :=
  ∀ p sw sws k,
    d !! p = Some (Encoded sw) → sws ∈ s_sheets sw → is_Some (s_cells sws !! k) →
    1 ≤ k.1 ∧ 1 ≤ k.2.

(** A cell as it comes back from the file. *)
Definition reloaded (c : Cell) : Cell := load_cell false (store_cell c).

(** ** Definitions for the further properties *)

(** [self.supported_formats] (line 35); no operation looks it up. *)
Definition supported_formats : list string := [".xlsx"; ".xls"].

(** The record of a failure with a message. *)
Definition failure_record (msg : string) : record :=
  [("success", PBool false); ("error", PStr msg)].

(** ** server.py: the tools (lines 121-191) *)

Module server.
Section Tools.
Variable avoid_duplicate_name : list string → string → string.
Variable chart_series : string → outcome (list string).

(** The body of every tool: the call into the library inside a [try], whose
    [except Exception] branch logs the error and raises it again. *)
Definition logged (body : M record) : M record :=
  try_except body (λ e, raise e).

Definition read_excel_file (file_path : string) (sheet_name range_ : option string)
  : M record :=
  logged (read_excel_file file_path sheet_name range_).

Definition write_excel_file (file_path : string) (data : list (list pyval))
    (sheet_name : option string) (headers : option (list string)) : M record :=
  logged (write_excel_file avoid_duplicate_name file_path data sheet_name headers).

Definition get_worksheet_info (file_path : string) : M record :=
  logged (get_worksheet_info file_path).

Definition add_worksheet (file_path sheet_name : string) : M record :=
  logged (add_worksheet avoid_duplicate_name file_path sheet_name).

Definition update_cell (file_path sheet_name cell_ : string) (value_ : pyval) : M record :=
  logged (update_cell file_path sheet_name cell_ value_).

Definition apply_formula (file_path sheet_name cell_ formula : string) : M record :=
  logged (apply_formula file_path sheet_name cell_ formula).

Definition format_cells (file_path sheet_name range_ : string)
    (format_options_ : format_options) : M record :=
  logged (format_cells file_path sheet_name range_ format_options_).

Definition create_chart (file_path sheet_name data_range chart_type_ : string)
    (title_ position : option string) : M record :=
  logged (create_chart chart_series file_path sheet_name data_range chart_type_
            title_ position).

(** A tool call with its arguments. *)
Definition call (op : operation) : M record :=
  match op with
  | ReadExcelFile p s r => read_excel_file p s r
  | WriteExcelFile p d s h => write_excel_file p d s h
  | GetWorksheetInfo p => get_worksheet_info p
  | AddWorksheet p s => add_worksheet p s
  | UpdateCell p s c v => update_cell p s c v
  | ApplyFormula p s c f => apply_formula p s c f
  | FormatCells p s r o => format_cells p s r o
  | CreateChart p s r t ti po => create_chart p s r t ti po
  end.

End Tools.
End server.

(** The formula [apply_formula] stores (lines 318-319): with "=" put in
    front unless it starts with it. *)
Definition with_equals (formula : string) : string :=
  if negb (String.prefix "=" formula) then "=" ++ formula else formula.

(** The cell at a coordinate of a sheet of a file, as [load_workbook(path)]
    gives it. *)
Definition cell_on_disk (d : disk) (path sheet : string) (k : coord) : option Cell :=
  (λ ws, cell_at ws k) <$> sheet_on_disk d path sheet.

(** A cell after it was saved and loaded again: a cell the writer leaves
    out comes back as a new cell. *)
Definition saved (c : Cell) : Cell :=
  if written c then reloaded c else new_cell.

(** The value a read gives for a cell of a sheet of a file: the cell as
    [load_workbook(path, data_only=True)] gives it. *)
Definition read_on_disk (d : disk) (path sheet : string) (k : coord) : option pyval :=
  (λ sws, value (cell_at (load_worksheet true sws) k)) <$> stored_sheet d path sheet.

(** What a read gives for a cell once its workbook was loaded and saved
    again without a change to the cell: what it gave before, but [None]
    where the cell holds a formula, whose cached value is not written. *)
Definition read_after_save (d : disk) (path sheet : string) (k : coord) : option pyval :=
  cell_on_disk d path sheet k ≫= λ cl,
    if bool_decide (cell_type cl = TYPE_FORMULA) then Some PNone
    else read_on_disk d path sheet k.

(** A cell of the second disk is the cell of the first one: a load gives
    the same cell, and a read gives what it gave, or [None] for a
    formula. *)
Definition cell_kept (d d' : disk) (path sheet : string) (k : coord) : Prop :=
  cell_on_disk d' path sheet k = cell_on_disk d path sheet k
  ∧ read_on_disk d' path sheet k = read_after_save d path sheet k.

(** A number format without the letters d, m, h, y and s, which the reader
    takes for no date format. *)
Definition date_letter (c : ascii) : bool :=
  existsb (Ascii.eqb c) (list_ascii_of_string "dmhysDMHYS").
Definition plain_format (fmt : string) : bool := negb (sany date_letter fmt).

(** A formatting request that turns no number of a cell into a date and
    no date into a number: it gives no number format, or the number format
    of the cell and the one it gives are plain. *)
Definition keeps_dates (o : format_options) (c : Cell) : Prop :=
  truthy_str (number_format_option o) = false
  ∨ (plain_format (number_format c) = true
     ∧ plain_format (default "" (number_format_option o)) = true).

(** A value that reads back as it is stored under a number format: an
    integer under a date format is left out. *)
Definition reads_as_stored (v : pyval) (fmt : string) : bool :=
  match v with
  | PInt _ => plain_format fmt
  | _ => true
  end.

(** A text that a file keeps as it is: not empty, of at most 32767
    characters, without control characters other than tab and line feed,
    and not starting with "=". *)
Definition kept_text (s : string) : bool :=
  negb (String.eqb s "") && (slen s <=? 32767)
  && sall (λ c, (32 <=? code c) || (code c =? 9) || (code c =? 10)) s
  && negb (String.prefix "=" s).

(** A value that a cell keeps as it is: [None], a boolean, an integer or
    such a text. *)
Definition kept_value (v : pyval) : bool :=
  match v with
  | PNone | PBool _ | PInt _ => true
  | PStr s => kept_text s
  | PList _ | PDict _ => false
  end.

(** The element of a list at a position counted from 1. *)
Definition nth1 {A} (l : list A) (i : Z) : option A :=
  if i <? 1 then None else l !! Z.to_nat (i - 1).

(** The value the two loops of a write put at a coordinate, if any: the
    headers go to row 1 and move the data down by one row. *)
Definition written_at (data : list (list pyval)) (headers : option (list string))
    (k : coord) : option pyval :=
  if truthy_list headers
  then if k.1 =? 1 then PStr <$> nth1 (default [] headers) k.2
       else nth1 data (k.1 - 1) ≫= λ row, nth1 row k.2
  else nth1 data k.1 ≫= λ row, nth1 row k.2.

(** The cell after [cell.value = v]. *)
Definition bound (v : pyval) (c : Cell) : Cell :=
  match set_value v c with
  | Return c' => c'
  | Raise _ => c
  end.

(** The cell after [ws.cell(row, column, value)]. *)
Definition cell_after (v : pyval) (c : Cell) : Cell :=
  if is_None v then c else bound v c.

(** The calls of [ws.cell] that the two loops make, in order. *)
Definition row_writes (r : Z) (row : list pyval) (start : Z) : list (coord * pyval) :=
  (λ cv : Z * pyval, ((r, cv.1), cv.2)) <$> enumerate row start.

Definition data_writes (data : list (list pyval)) (start : Z) : list (coord * pyval) :=
  concat ((λ rr : Z * list pyval, row_writes rr.1 rr.2 1) <$> enumerate data start).

Definition all_writes (data : list (list pyval)) (headers : option (list string))
  : list (coord * pyval) :=
  if truthy_list headers
  then row_writes 1 (PStr <$> default [] headers) 1 ++ data_writes data 2
  else data_writes data 1.

(** One of these calls. *)
Definition write_one (ws : Worksheet) (kv : coord * pyval) : outcome Worksheet :=
  cell_set kv.1.1 kv.1.2 kv.2 ws.

(** The rows a write puts on a sheet: the header row, if there is one, and
    the rows of the data. *)
Definition sheet_rows (data : list (list pyval)) (headers : option (list string))
  : list (list pyval) :=
  if truthy_list headers then (PStr <$> default [] headers) :: data else data.

(** A row of [n] values that a cell keeps, none of them [None]. *)
Definition full_row (n : nat) (row : list pyval) : Prop :=
  length row = n ∧ Forall (λ v, kept_value v = true ∧ v ≠ PNone) row.

(** One entry of the report of [get_worksheet_info], for the sheet at
    position [i] of the file. *)
Definition sheet_report (sw : stored_workbook) (i : nat) (sws : stored_worksheet) : pyval :=
  let ws := load_worksheet true sws in
  PDict [("name", PStr (s_title sws));
         ("max_row", PInt (max_row ws));
         ("max_column", PInt (max_column ws));
         ("max_column_letter", PStr (column_letters 3 (max_column ws) EmptyString));
         ("is_active", PBool (bool_decide (i = s_active sw)))].

(** References that [ws[key]] answers with one cell or with a flat tuple
    of cells: a cell, a column or a row. *)
Inductive single_reference (key : string) : Prop :=
| single_cell c r mc mr :
    contains_char ":" key = false →
    range_boundaries key = Return (Some c, Some r, mc, mr) →
    1 ≤ r ≤ 1048576 → single_reference key
| single_column c :
    range_boundaries key = Return (Some c, None, Some c, None) → single_reference key
| single_row r :
    range_boundaries key = Return (None, Some r, None, Some r) →
    1 ≤ r ≤ 1048576 → single_reference key.

(** ** Examples for the further properties *)

(** The record and the disk of a call that returned. *)
Definition result_of (x : outcome record * disk) : record * disk :=
  match x with
  | (Return r, d) => (r, d)
  | (Raise _, d) => ([], d)
  end.

(** Calls on the example workbook. *)
Definition after_update : record * disk :=
  result_of (update_cell "book.xlsx" "S" "B2" (PInt 9) book_disk).

Definition after_chart : record * disk :=
  result_of (create_chart whole_range_series "book.xlsx" "S" "A1:B2" "line"
               (Some "Totals") None book_disk).

Definition after_named_write : record * disk :=
  result_of (write_excel_file avoid_duplicate_name "book.xlsx" [[PInt 9]] (Some "S") None
               book_disk).

Definition after_unnamed_write : record * disk :=
  result_of (write_excel_file avoid_duplicate_name "book.xlsx" [[PInt 9]] None None book_disk).

(** The call of [verify.py]: two rows under the headers "Test" and "Data",
    written to the sheet "Test" of a file that does not exist. *)
Definition verify_rows : list (list pyval) :=
  [[PStr "Row1"; PInt 123]; [PStr "Row2"; PInt 456]].

Definition verify_write : record * disk :=
  result_of (write_excel_file avoid_duplicate_name "verification_test.xlsx" verify_rows
               (Some "Test") (Some ["Test"; "Data"]) ∅).

(** A file written under the extension ".xls". *)
Definition xls_disk : disk :=
  (write_excel_file avoid_duplicate_name "book.xls" [[PInt 1]] None None ∅).2.

(** A workbook with one sheet without cells. *)
Definition empty_book : disk :=
  {[ "empty.xlsx" := Encoded (mkStoredWorkbook [mkStoredWorksheet "Sheet" ∅ []] 0) ]}.

(** The formatting request of the server's examples. *)
Definition yellow_header : format_options :=
  mkOptions (Some true) None (Some 14) None (Some "yellow") None.
(** * Properties *)

(** ** The monad *)

Lemma readonly_ret {A} (a : A) : readonly (ret a).
Proof. by intros d. Qed.

Lemma readonly_raise {A} e : readonly (@raise A e).
Proof. by intros d. Qed.

Lemma readonly_lift {A} (o : outcome A) : readonly (lift o).
Proof. by intros d. Qed.

Lemma readonly_exists p : readonly (os_path_exists p).
Proof. by intros d. Qed.

Lemma readonly_load p b : readonly (load_workbook p b).
Proof.
  intros d. unfold load_workbook.
  destruct (negb _); [done|]. by destruct (d !! p) as [[|sw]|].
Qed.

Lemma guarded_raise p e : guarded p (raise e).
Proof. intros d. by left. Qed.

Lemma guarded_ret p r : succeeded r → guarded p (ret r).
Proof. by intros H d. Qed.

Lemma guarded_bind {A} p (m : M A) (k : A → M record) :
  readonly m → (∀ a, guarded p (k a)) → guarded p (bind m k).
Proof.
  intros Hm Hk d. unfold bind. specialize (Hm d).
  destruct (m d) as [[a|e] d1]; simpl in Hm; subst d1; [apply Hk|by left].
Qed.

Lemma guarded_save wb p r : succeeded r → guarded p (bind (save wb p) (λ _, ret r)).
Proof.
  intros H d. unfold bind, save. destruct (check_workbook wb); [done|by right].
Qed.

Lemma try_except_guarded p (body : M record) (handler : exn → M record) d :
  guarded p body →
  (∀ e d0, ∃ r, handler e d0 = (Return r, d0) ∧ failed r) →
  ∃ r d', try_except body handler d = (Return r, d')
          ∧ (succeeded r ∨ (failed r ∧ (d' = d ∨ d' = <[p := Corrupt]> d))).
Proof.
  intros Hb Hh. unfold try_except. specialize (Hb d).
  destruct (body d) as [[r|e] d1].
  - exists r, d1. auto.
  - destruct (Hh e d1) as (r & -> & Hr). exists r, d1. auto.
Qed.

Lemma failure_failed e d0 : ∃ r, failure e d0 = (Return r, d0) ∧ failed r.
Proof. eexists. split; [reflexivity|]. split; [done|]. by eexists. Qed.

Lemma read_failure_failed e d0 :
  ∃ r, ret [("success", PBool false); ("error", PStr (str_exn e)); ("data", PList [])] d0
       = (Return r, d0) ∧ failed r.
Proof. eexists. split; [reflexivity|]. split; [reflexivity|]. by eexists. Qed.

Ltac solve_readonly :=
  repeat match goal with
    | |- readonly (if ?b then _ else _) => destruct b
    | |- readonly (match ?x with _ => _ end) => destruct x
    | |- readonly _ =>
        first [ apply readonly_exists | apply readonly_load | apply readonly_lift
              | apply readonly_ret | apply readonly_raise ]
    end.

Ltac solve_guarded :=
  repeat first
    [ apply guarded_raise
    | apply guarded_save; reflexivity
    | apply guarded_ret; reflexivity
    | apply guarded_bind; [ solve [solve_readonly] | intros ? ]
    | match goal with
      | |- guarded _ (match ?x with _ => _ end) => destruct x
      | |- guarded _ (if ?b then _ else _) => destruct b
      end ].

Lemma elem_of_zrange x lo hi : x ∈ zrange lo hi ↔ lo ≤ x ≤ hi.
Proof. unfold zrange. rewrite elem_of_seqZ. lia. Qed.

Lemma elem_of_concat {A} (x : A) (ls : list (list A)) :
  x ∈ concat ls ↔ ∃ l, x ∈ l ∧ l ∈ ls.
Proof.
  induction ls as [|l ls IH]; simpl.
  - split; [by intros ?%elem_of_nil|]. by intros (l & _ & ?%elem_of_nil).
  - rewrite elem_of_app, IH. split.
    + intros [H|(l' & H1 & H2)]; [exists l; split; [done|left]|].
      exists l'. split; [done|by right].
    + intros (l' & H1 & H2). apply elem_of_cons in H2 as [->|H2]; [by left|].
      right. by exists l'.
Qed.

Lemma elem_of_coords_by_row (k : coord) cl rl ch rh :
  k ∈ concat (coords_by_row cl rl ch rh) ↔ (rl ≤ k.1 ≤ rh) ∧ (cl ≤ k.2 ≤ ch).
Proof.
  unfold coords_by_row. rewrite elem_of_concat. split.
  - intros (row & Hk & Hrow). apply list_elem_of_fmap in Hrow as (r & -> & Hr).
    apply list_elem_of_fmap in Hk as (c & -> & Hc).
    apply elem_of_zrange in Hr, Hc. done.
  - intros [Hr Hc]. exists ((λ c, (k.1, c)) <$> zrange cl ch). split.
    + apply list_elem_of_fmap. exists k.2. split; [by destruct k|].
      by apply elem_of_zrange.
    + apply list_elem_of_fmap. exists k.1. split; [done|]. by apply elem_of_zrange.
Qed.

Lemma elem_of_coords_by_col (k : coord) cl rl ch rh :
  k ∈ concat (coords_by_col cl rl ch rh) ↔ (rl ≤ k.1 ≤ rh) ∧ (cl ≤ k.2 ≤ ch).
Proof.
  unfold coords_by_col. rewrite elem_of_concat. split.
  - intros (col & Hk & Hcol). apply list_elem_of_fmap in Hcol as (c & -> & Hc).
    apply list_elem_of_fmap in Hk as (r & -> & Hr).
    apply elem_of_zrange in Hr, Hc. done.
  - intros [Hr Hc]. exists ((λ r, (r, k.2)) <$> zrange rl rh). split.
    + apply list_elem_of_fmap. exists k.1. split; [by destruct k|].
      by apply elem_of_zrange.
    + apply list_elem_of_fmap. exists k.2. split; [done|]. by apply elem_of_zrange.
Qed.

Lemma foldr_max_ge x l y : y = x ∨ y ∈ l → y ≤ foldr Z.max x l.
Proof.
  induction l as [|a l IH]; simpl.
  - intros [->|H]; [lia|]. by apply elem_of_nil in H.
  - intros [->|H]; [specialize (IH (or_introl eq_refl)); lia|].
    apply elem_of_cons in H as [->|H]; [lia|]. specialize (IH (or_intror H)). lia.
Qed.

Lemma foldr_max_le x l n : x ≤ n → (∀ y, y ∈ l → y ≤ n) → foldr Z.max x l ≤ n.
Proof.
  intros Hx. induction l as [|a l IH]; simpl; intros H; [done|].
  assert (a ≤ n) by (apply H; left).
  assert (foldr Z.max x l ≤ n) by (apply IH; intros; apply H; by right). lia.
Qed.

Lemma max_of_ge l y : y ∈ l → y ≤ max_of l.
Proof.
  destruct l as [|x l]; [by intros ?%elem_of_nil|]. simpl.
  intros H. apply foldr_max_ge. apply elem_of_cons in H. tauto.
Qed.

Lemma max_of_le l n : 1 ≤ n → (∀ y, y ∈ l → y ≤ n) → max_of l ≤ n.
Proof.
  destruct l as [|x l]; [done|]. simpl. intros _ H.
  apply foldr_max_le; [apply H; left|intros; apply H; by right].
Qed.

Lemma max_of_ge_1 l : (∀ y, y ∈ l → 1 ≤ y) → 1 ≤ max_of l.
Proof.
  destruct l as [|x l]; [done|]. intros H.
  etrans; [apply (H x); left|]. apply max_of_ge. left.
Qed.

Lemma max_row_ge ws k : is_Some (_cells ws !! k) → k.1 ≤ max_row ws.
Proof.
  intros [c Hc]. apply max_of_ge. apply list_elem_of_fmap. exists k. split; [done|].
  apply list_elem_of_fmap. exists (k, c). split; [done|]. by apply elem_of_map_to_list'.
Qed.

Lemma max_column_ge ws k : is_Some (_cells ws !! k) → k.2 ≤ max_column ws.
Proof.
  intros [c Hc]. apply max_of_ge. apply list_elem_of_fmap. exists k. split; [done|].
  apply list_elem_of_fmap. exists (k, c). split; [done|]. by apply elem_of_map_to_list'.
Qed.

Lemma max_row_le ws n :
  1 ≤ n → (∀ k, is_Some (_cells ws !! k) → k.1 ≤ n) → max_row ws ≤ n.
Proof.
  intros Hn H. apply max_of_le; [done|]. intros y Hy.
  apply list_elem_of_fmap in Hy as (k & -> & Hk).
  apply list_elem_of_fmap in Hk as ([k' c] & -> & Hkc).
  apply elem_of_map_to_list' in Hkc. apply H. by exists c.
Qed.

Lemma max_column_le ws n :
  1 ≤ n → (∀ k, is_Some (_cells ws !! k) → k.2 ≤ n) → max_column ws ≤ n.
Proof.
  intros Hn H. apply max_of_le; [done|]. intros y Hy.
  apply list_elem_of_fmap in Hy as (k & -> & Hk).
  apply list_elem_of_fmap in Hk as ([k' c] & -> & Hkc).
  apply elem_of_map_to_list' in Hkc. apply H. by exists c.
Qed.

Lemma cell_Return r c ws ws' :
  cell r c ws = Return ws' ↔
  valid_coord (r, c)
  ∧ ws' = mkWorksheet (title ws) (<[(r, c) := cell_at ws (r, c)]> (_cells ws)) (_charts ws).
Proof.
  unfold cell, _get_cell, valid_coord. simpl.
  destruct (r <? 1) eqn:Hr1; simpl.
  { split; [done|]. intros [[? ?] _]. lia. }
  destruct (c <? 1) eqn:Hc1; simpl.
  { split; [done|]. intros [[? ?] _]. lia. }
  destruct (0 <? r) eqn:Hr0; simpl; [|lia].
  destruct (r <? 1048577) eqn:Hr2; simpl.
  - split; [intros [= <-]; split; [lia|done]|]. by intros [_ ->].
  - split; [done|]. intros [[? ?] _]. lia.
Qed.

Lemma cell_at_touched ws k j :
  cell_at (mkWorksheet (title ws) (<[k := cell_at ws k]> (_cells ws)) (_charts ws)) j
  = cell_at ws j.
Proof.
  unfold cell_at. simpl. destruct (decide (k = j)) as [->|Hne].
  - by rewrite lookup_insert_eq.
  - by rewrite lookup_insert_ne.
Qed.

Lemma touch_list_spec ks ws ws' :
  ofold (λ w k, cell k.1 k.2 w) ks ws = Return ws' →
  title ws' = title ws ∧ _charts ws' = _charts ws ∧ Forall valid_coord ks
  ∧ (∀ k, _cells ws' !! k
          = if decide (k ∈ ks) then Some (cell_at ws k) else _cells ws !! k).
Proof.
  revert ws. induction ks as [|k0 ks IH]; intros ws; simpl.
  - intros [= <-]. split_and!; [done|done|constructor|done].
  - destruct (cell k0.1 k0.2 ws) as [ws1|e] eqn:Hc; simpl; [|done].
    apply cell_Return in Hc as [Hv ->]. intros H. apply IH in H as (Ht & Hch & Hf & Hl).
    simpl in *. split_and!; [done|done|constructor; [by destruct k0|done]|].
    intros k. rewrite Hl. replace (k0.1, k0.2) with k0 by by destruct k0.
    rewrite cell_at_touched. simpl.
    destruct (decide (k ∈ ks)) as [Hin|Hin].
    + rewrite decide_True; [done|by right].
    + destruct (decide (k = k0)) as [->|Hne].
      * rewrite lookup_insert_eq. rewrite decide_True; [done|left].
      * rewrite lookup_insert_ne by done. rewrite decide_False; [done|].
        intros [?|?]%elem_of_cons; done.
Qed.

Lemma touch_list_valid ks ws :
  Forall valid_coord ks → ∃ ws', ofold (λ w k, cell k.1 k.2 w) ks ws = Return ws'.
Proof.
  intros H. revert ws. induction H as [|k0 ks Hk _ IH]; intros ws; simpl.
  - by eexists.
  - destruct (cell k0.1 k0.2 ws) as [ws1|e] eqn:Hc; simpl; [apply IH|].
    exfalso. assert (Hs : ∃ w, cell k0.1 k0.2 ws = Return w).
    { eexists. apply cell_Return. split; [by destruct k0|done]. }
    destruct Hs as [w Hw]. congruence.
Qed.

Lemma cell_at_lookup ws ws' (ks : list coord) :
  (∀ k, _cells ws' !! k
        = if decide (k ∈ ks) then Some (cell_at ws k) else _cells ws !! k) →
  ∀ k, cell_at ws' k = cell_at ws k.
Proof.
  intros H k. unfold cell_at at 1. rewrite H. by case_decide.
Qed.

Lemma apply_format_idemp fo fi o c :
  apply_format fo fi o (apply_format fo fi o c) = apply_format fo fi o c.
Proof.
  unfold apply_format. destruct c, fo, fi; simpl;
    destruct (truthy_str (number_format_option o)); reflexivity.
Qed.

Lemma format_all_spec fo fi o ks ws :
  title (format_all fo fi o ks ws) = title ws
  ∧ _charts (format_all fo fi o ks ws) = _charts ws
  ∧ ∀ k, _cells (format_all fo fi o ks ws) !! k
         = if decide (k ∈ ks) then Some (apply_format fo fi o (cell_at ws k))
           else _cells ws !! k.
Proof.
  unfold format_all. revert ws. induction ks as [|k0 ks IH]; intros ws; simpl.
  - split_and!; done.
  - destruct (IH (put_cell k0 (apply_format fo fi o (cell_at ws k0)) ws)) as (Ht & Hc & Hl).
    split_and!; [by rewrite Ht|by rewrite Hc|]. intros k. rewrite Hl. simpl.
    unfold cell_at at 1. simpl.
    destruct (decide (k = k0)) as [->|Hne].
    + rewrite lookup_insert_eq. simpl. rewrite apply_format_idemp.
      rewrite (decide_True (P := k0 ∈ k0 :: ks)) by left. by case_decide.
    + rewrite lookup_insert_ne by done. fold (cell_at ws k).
      destruct (decide (k ∈ ks)) as [Hin|Hin].
      * rewrite decide_True; [done|by right].
      * rewrite decide_False; [done|]. intros [?|?]%elem_of_cons; done.
Qed.

Lemma in_rect_spec rl rh cl ch k :
  in_rect (rl, rh, cl, ch) k ↔ (rl ≤ k.1 ≤ rh) ∧ (cl ≤ k.2 ≤ ch).
Proof.
  unfold in_rect. rewrite !andb_True, !Is_true_true, !Z.leb_le. lia.
Qed.

Lemma absolute_re_nosep key g1 g2 g3 g4 :
  absolute_re key = Some (g1, g2, false, g3, g4) → g3 = None ∧ g4 = None.
Proof.
  unfold absolute_re. intros H. repeat case_match; simplify_eq; done.
Qed.

Lemma range_boundaries_shape key a b c d :
  range_boundaries key = Return (a, b, c, d) →
  (b = None → d = None) ∧ (a = None → c = None).
Proof.
  unfold range_boundaries.
  destruct (absolute_re key) as [[[[[g1 g2] sep] g3] g4]|] eqn:Habs; [|done].
  destruct sep.
  - destruct g1 as [s1|], g2 as [s2|], g3 as [s3|], g4 as [s4|]; simpl; try done;
      repeat match goal with
        | |- context [column_index_from_string ?s] =>
            destruct (column_index_from_string s); simpl; try done
        end; intros [= <- <- <- <-]; done.
  - apply absolute_re_nosep in Habs as [-> ->].
    destruct g1 as [s1|], g2 as [s2|]; simpl; try done;
      repeat match goal with
        | |- context [column_index_from_string ?s] =>
            destruct (column_index_from_string s); simpl; try done
        end; intros [= <- <- <- <-]; done.
Qed.

Lemma touch_fetched kss rl rh cl ch ws ws' :
  (∀ k, k ∈ concat kss ↔ in_rect (rl, rh, cl, ch) k) →
  touch kss ws = Return ws' → fetched (rl, rh, cl, ch) ws ws'.
Proof.
  intros Hin Ht. apply touch_list_spec in Ht as (H1 & H2 & H3 & H4).
  split_and!; [done|done| |].
  - intros k Hk. apply Hin in Hk. rewrite Forall_forall in H3. by apply H3.
  - intros k. rewrite H4. case_decide as Hk.
    + apply Hin in Hk. by destruct (in_rect _ k).
    + destruct (in_rect _ k) eqn:E; [|done]. exfalso. apply Hk, Hin. by rewrite E.
Qed.

Lemma iter_rows_spec a b c d ws ws' kss :
  iter_rows a b c d ws = Return (ws', kss) →
  kss = coords_by_row (or_default c 1) (or_default a 1)
          (or_default d (max_column ws)) (or_default b (max_row ws))
  ∧ fetched (or_default a 1, or_default b (max_row ws),
             or_default c 1, or_default d (max_column ws)) ws ws'.
Proof.
  unfold iter_rows. destruct (touch _ ws) as [w|e] eqn:Ht; simpl; [|done].
  intros [= <- <-]. split; [done|].
  eapply touch_fetched; [|done]. intros k.
  rewrite elem_of_coords_by_row, in_rect_spec. done.
Qed.

Lemma iter_cols_spec a b c d ws ws' kss :
  iter_cols a b c d ws = Return (ws', kss) →
  kss = coords_by_col (or_default a 1) (or_default c 1)
          (or_default b (max_column ws)) (or_default d (max_row ws))
  ∧ fetched (or_default c 1, or_default d (max_row ws),
             or_default a 1, or_default b (max_column ws)) ws ws'.
Proof.
  unfold iter_cols. destruct (touch _ ws) as [w|e] eqn:Ht; simpl; [|done].
  intros [= <- <-]. split; [done|].
  eapply touch_fetched; [|done]. intros k.
  rewrite elem_of_coords_by_col, in_rect_spec. done.
Qed.

Lemma in_rect_no_rows rl rh cl ch k : zrange rl rh = [] → in_rect (rl, rh, cl, ch) k = false.
Proof.
  intros H. destruct (in_rect _ k) eqn:E; [|done]. exfalso.
  assert (Hk : in_rect (rl, rh, cl, ch) k) by by rewrite E.
  apply in_rect_spec in Hk as [Hr _].
  apply elem_of_zrange in Hr. rewrite H in Hr. by apply elem_of_nil in Hr.
Qed.

Lemma in_rect_no_cols rl rh cl ch k : zrange cl ch = [] → in_rect (rl, rh, cl, ch) k = false.
Proof.
  intros H. destruct (in_rect _ k) eqn:E; [|done]. exfalso.
  assert (Hk : in_rect (rl, rh, cl, ch) k) by by rewrite E.
  apply in_rect_spec in Hk as [_ Hc].
  apply elem_of_zrange in Hc. rewrite H in Hc. by apply elem_of_nil in Hc.
Qed.

Lemma ws_getitem_rows key ws ws' sel ks :
  ws_getitem key ws = Return (ws', sel) → cells_of_rows sel = Return ks →
  ∃ b, range_boundaries key = Return b
       ∧ fetched (rect_of b (max_row ws) (max_column ws)) ws ws'
       ∧ (∀ k, k ∈ ks ↔ in_rect (rect_of b (max_row ws) (max_column ws)) k).
Proof.
  unfold ws_getitem.
  destruct (range_boundaries key) as [[[[a b] c] d]|e] eqn:Hb; simpl; [|done].
  destruct (range_boundaries_shape _ _ _ _ _ Hb) as [Hrow Hcol].
  destruct (_ && _); [done|].
  destruct b as [r|].
  - destruct a as [cc|].
    + destruct (negb (contains_char ":" key)).
      * destruct (_get_cell r cc ws); simpl; [|done]. by intros [= <- <-].
      * destruct (iter_rows _ _ _ _ ws) as [[w rows]|] eqn:Hi; simpl; [|done].
        intros [= <- <-] [= <-]. apply iter_rows_spec in Hi as [-> Hf].
        eexists. split; [done|]. split; [done|]. intros k.
        unfold rect_of. rewrite elem_of_coords_by_row, in_rect_spec. done.
    + rewrite (Hcol eq_refl) in *.
      destruct (iter_rows _ _ _ _ ws) as [[w rows]|] eqn:Hi; simpl; [|done].
      apply iter_rows_spec in Hi as [-> Hf].
      assert (HR : or_default (Some (max_column ws)) (max_column ws) = max_column ws).
      { unfold or_default. by destruct (max_column ws =? 0). }
      rewrite HR in *.
      case_bool_decide.
      * destruct (coords_by_row _ _ _ _) as [|row rows'] eqn:Hk; [done|].
        intros [= <- <-] Hks. destruct row as [|k0 row]; [|done].
        injection Hks as <-.
        unfold coords_by_row in Hk.
        destruct (zrange (or_default (Some r) 1) _) as [|r0 rs]; [done|].
        simpl in Hk. injection Hk as Hk _. apply fmap_nil_inv in Hk.
        eexists. split; [done|]. split; [done|]. intros k. unfold rect_of.
        rewrite in_rect_no_cols by done. split; [by intros ?%elem_of_nil|done].
      * intros [= <- <-] [= <-].
        eexists. split; [done|]. split; [done|]. intros k.
        unfold rect_of. rewrite elem_of_coords_by_row, in_rect_spec. done.
  - rewrite (Hrow eq_refl) in *.
    destruct (iter_cols _ _ _ _ ws) as [[w cols]|] eqn:Hi; simpl; [|done].
    apply iter_cols_spec in Hi as [-> Hf].
    case_bool_decide.
    + destruct (coords_by_col _ _ _ _) as [|col cols'] eqn:Hk; [done|].
      intros [= <- <-] Hks. destruct col as [|k0 col]; [|done].
      injection Hks as <-.
      unfold coords_by_col in Hk.
      destruct (zrange (or_default a 1) _) as [|c0 cs]; [done|].
      simpl in Hk. injection Hk as Hk _. apply fmap_nil_inv in Hk.
      eexists. split; [done|]. split; [done|]. intros k. unfold rect_of.
      rewrite in_rect_no_rows by done. split; [by intros ?%elem_of_nil|done].
    + intros [= <- <-] [= <-].
      eexists. split; [done|]. split; [done|]. intros k.
      unfold rect_of. rewrite elem_of_coords_by_col, in_rect_spec. done.
Qed.

Lemma format_range_spec key fo fi o ws ws2 :
  format_range key fo fi o ws = Return ws2 →
  ∃ b, range_boundaries key = Return b
       ∧ title ws2 = title ws ∧ _charts ws2 = _charts ws
       ∧ (∀ k, in_rect (rect_of b (max_row ws) (max_column ws)) k → valid_coord k)
       ∧ (∀ k, _cells ws2 !! k
               = if in_rect (rect_of b (max_row ws) (max_column ws)) k
                 then Some (apply_format fo fi o (cell_at ws k))
                 else _cells ws !! k).
Proof.
  unfold format_range.
  destruct (ws_getitem key ws) as [[ws' sel]|] eqn:Hg; simpl; [|done].
  destruct (cells_of_rows sel) as [ks|] eqn:Hks; simpl; [|done].
  intros [= <-].
  destruct (ws_getitem_rows _ _ _ _ _ Hg Hks) as (b & Hb & (Ht & Hc & Hv & Hl) & Hin).
  exists b. split; [done|].
  destruct (format_all_spec fo fi o ks ws') as (Ht' & Hc' & Hl').
  unfold format_all in *. split_and!; [congruence|congruence|done|].
  intros k. rewrite Hl'. case_decide as Hk.
  - apply Hin in Hk. destruct (in_rect _ k); [|done].
    unfold cell_at at 1. rewrite Hl. by destruct (in_rect _ k).
  - destruct (in_rect _ k) eqn:E.
    + exfalso. apply Hk, Hin. by rewrite E.
    + rewrite Hl. by rewrite E.
Qed.

Lemma has_style_false c : has_style c = false → style c = style new_cell.
Proof.
  unfold has_style, style. destruct c as [v t f fl nf]; simpl.
  intros H. apply orb_false_iff in H as [H Hnf]. apply orb_false_iff in H as [Hf Hfl].
  apply negb_false_iff in Hf, Hfl, Hnf.
  apply bool_decide_eq_true in Hf, Hfl. apply String.eqb_eq in Hnf. by subst.
Qed.

Lemma style_load_store c : style (load_cell false (store_cell c)) = style c.
Proof.
  unfold load_cell, store_cell. destruct c as [v t f fl nf]; simpl.
  destruct t; try done. by destruct v.
Qed.

Lemma lookup_reload ws k :
  _cells (load_worksheet false (store_worksheet ws)) !! k
  = match _cells ws !! k with
    | Some c => if written c then Some (load_cell false (store_cell c)) else None
    | None => None
    end.
Proof.
  unfold load_worksheet, store_worksheet. simpl.
  rewrite !lookup_fmap, map_lookup_filter.
  destruct (_cells ws !! k) as [c|]; simpl; [|done].
  case_guard as Hw; simpl.
  - apply Is_true_true in Hw. by rewrite Hw.
  - apply Is_true_false in Hw. by rewrite Hw.
Qed.

Lemma style_reload ws k :
  style (cell_at (load_worksheet false (store_worksheet ws)) k) = style (cell_at ws k).
Proof.
  unfold cell_at. rewrite lookup_reload.
  destruct (_cells ws !! k) as [c|]; simpl; [|done].
  destruct (written c) eqn:E; simpl; [apply style_load_store|].
  symmetry. apply has_style_false. unfold written in E.
  by apply orb_false_iff in E as [_ ?].
Qed.

Lemma wb_getitem_update s wb i ws ws2 :
  wb_getitem s wb = Some (i, ws) → title ws2 = s →
  wb_getitem s (update_sheet i ws2 wb) = Some (i, ws2).
Proof.
  unfold wb_getitem, update_sheet. simpl. intros H Ht.
  apply list_find_Some in H as (Hi & HP & Hlt).
  apply list_find_Some. split_and!; [|done|].
  - apply list_lookup_insert_eq. by eapply lookup_lt_Some.
  - intros j y Hj Hji. rewrite list_lookup_insert_ne in Hj by lia. by eapply Hlt.
Qed.

Lemma wb_getitem_reload s wb :
  wb_getitem s (decode false (encode wb))
  = (λ iw, (iw.1, load_worksheet false (store_worksheet iw.2))) <$> wb_getitem s wb.
Proof.
  unfold wb_getitem, decode, encode. simpl.
  rewrite <- list_fmap_compose. rewrite list_find_fmap.
  destruct (list_find _ (_sheets wb)) as [[i ws]|]; by simpl.
Qed.

Lemma require_sheet_Return s wb i ws :
  require_sheet s wb = Return (i, ws) → wb_getitem s wb = Some (i, ws).
Proof.
  unfold require_sheet. destruct (negb _); [done|].
  destruct (wb_getitem s wb) as [iw|]; [|done]. by intros [= ->].
Qed.

Lemma wb_getitem_title s wb i ws :
  wb_getitem s wb = Some (i, ws) → title ws = s ∧ _sheets wb !! i = Some ws.
Proof.
  unfold wb_getitem. intros H. apply list_find_Some in H as (Hi & HP & _). done.
Qed.

Lemma bind_Return {A B} (m : M A) (k : A → M B) d r d' :
  bind m k d = (Return r, d') → ∃ a d1, m d = (Return a, d1) ∧ k a d1 = (Return r, d').
Proof.
  unfold bind. destruct (m d) as [[a|e] d1]; [|done]. intros H. by exists a, d1.
Qed.

Lemma try_except_succeeded (body : M record) d r d' :
  try_except body failure d = (Return r, d') → succeeded r → body d = (Return r, d').
Proof.
  unfold try_except. destruct (body d) as [[a|e] d1]; [done|].
  unfold failure, ret. intros [= <- <-]. done.
Qed.

Lemma lift_Return {A} (o : outcome A) d a d1 :
  lift o d = (Return a, d1) → o = Return a ∧ d1 = d.
Proof. unfold lift. by intros [= -> ->]. Qed.

Lemma exists_Return p d b d1 :
  os_path_exists p d = (Return b, d1) → b = bool_decide (is_Some (d !! p)) ∧ d1 = d.
Proof. unfold os_path_exists. by intros [= <- <-]. Qed.

Lemma load_Return p b d wb d1 :
  load_workbook p b d = (Return wb, d1) →
  d1 = d ∧ file_format p ∈ SUPPORTED_FORMATS
  ∧ ∃ sw, d !! p = Some (Encoded sw) ∧ wb = decode b sw.
Proof.
  unfold load_workbook. case_bool_decide as Hf; simpl; [|done].
  destruct (d !! p) as [[|sw]|]; try done. intros [= <- <-]. eauto.
Qed.

Lemma save_Return wb p d u d1 :
  save wb p d = (Return u, d1) → d1 = <[p := Encoded (encode wb)]> d.
Proof. unfold save. destruct (check_workbook wb); [|done]. by intros [= <-]. Qed.

Lemma ret_Return {A} (a b : A) d d1 : ret a d = (Return b, d1) → b = a ∧ d1 = d.
Proof. unfold ret. by intros [= <- <-]. Qed.

Ltac invert_run :=
  repeat match goal with
    | H : bind _ _ _ = (Return _, _) |- _ =>
        apply bind_Return in H as (? & ? & ? & H)
    | H : lift _ _ = (Return _, _) |- _ => apply lift_Return in H as [H ->]
    | H : os_path_exists _ _ = (Return _, _) |- _ => apply exists_Return in H as [-> ->]
    | H : load_workbook _ _ _ = (Return _, _) |- _ =>
        apply load_Return in H as (-> & ? & ? & ? & ->)
    | H : save _ _ _ = (Return _, _) |- _ => apply save_Return in H as ->
    | H : ret _ _ = (Return _, _) |- _ => apply ret_Return in H as [-> ->]
    | H : raise _ _ = (Return _, _) |- _ => discriminate H
    | H : (if ?b then _ else _) _ = (Return _, _) |- _ => destruct b eqn:?
    | H : (let '(_, _) := ?x in _) _ = (Return _, _) |- _ => destruct x
    | H : (match ?x with _ => _ end) _ = (Return _, _) |- _ => destruct x eqn:?
    end.

Lemma format_cells_inv p s key o d r d' :
  format_cells p s key o d = (Return r, d') → succeeded r →
  ∃ sw i ws fo fi ws2,
    d !! p = Some (Encoded sw)
    ∧ require_sheet s (decode false sw) = Return (i, ws)
    ∧ make_font o = Return fo ∧ make_fill o = Return fi
    ∧ format_range key fo fi o ws = Return ws2
    ∧ d' = <[p := Encoded (encode (update_sheet i ws2 (decode false sw)))]> d.
Proof.
  unfold format_cells. intros H Hs. apply try_except_succeeded in H; [|done].
  invert_run. do 6 eexists. split_and!; done.
Qed.

Lemma style_apply_format fo fi o c :
  style (apply_format fo fi o c)
  = (default (font c) fo, default (fill c) fi,
     if truthy_str (number_format_option o)
     then default "" (number_format_option o) else number_format c).
Proof.
  unfold apply_format, style. destruct c, fo, fi; simpl;
    destruct (truthy_str (number_format_option o)); reflexivity.
Qed.

Lemma format_cells_applied p s key o d r d' :
  format_cells p s key o d = (Return r, d') → succeeded r →
  ∃ ws ws2 b fo fi,
    sheet_on_disk d p s = Some ws ∧ sheet_on_disk d' p s = Some ws2
    ∧ range_boundaries key = Return b
    ∧ make_font o = Return fo ∧ make_fill o = Return fi
    ∧ ∀ k, in_rect (rect_of b (max_row ws) (max_column ws)) k →
           style (cell_at ws2 k) = style (apply_format fo fi o (cell_at ws k)).
Proof.
  intros H Hs.
  destruct (format_cells_inv _ _ _ _ _ _ _ H Hs)
    as (sw & i & ws & fo & fi & ws2 & Hd & Hreq & Hfo & Hfi & Hfmt & ->).
  apply require_sheet_Return in Hreq.
  destruct (wb_getitem_title _ _ _ _ Hreq) as [Ht _].
  destruct (format_range_spec _ _ _ _ _ _ Hfmt) as (b & Hb & Ht2 & _ & _ & Hl).
  exists ws, (load_worksheet false (store_worksheet ws2)), b, fo, fi.
  split_and!; try done.
  - unfold sheet_on_disk. by rewrite Hd, Hreq.
  - unfold sheet_on_disk. rewrite lookup_insert_eq, wb_getitem_reload.
    erewrite wb_getitem_update; [done|done|congruence].
  - intros k Hk. rewrite style_reload. unfold cell_at at 1. rewrite Hl.
    by destruct (in_rect _ k).
Qed.

Lemma make_font_spec o fo :
  make_font o = Return fo →
  (fo = None
   ↔ truthy_bool (bold o) || truthy_bool (italic o) || truthy_int (font_size o)
     || truthy_str (font_color o) = false)
  ∧ ∀ f, fo = Some f →
      f_name f = None
      ∧ f_b f = truthy_bool (bold o) ∧ f_i f = truthy_bool (italic o)
      ∧ f_sz f = (if truthy_int (font_size o) then font_size o else None)
      ∧ (truthy_str (font_color o) = false → f_color f = None).
Proof.
  unfold make_font. destruct (_ || _) eqn:E.
  - unfold Font_init.
    destruct (truthy_str (font_color o)) eqn:Ec.
    + destruct (font_color o) as [c|]; [|done]. simpl.
      destruct (Color_rgb c); simpl; [|done]. intros [= <-].
      split; [done|]. intros f [= <-]. simpl. done.
    + simpl. intros [= <-]. split; [done|]. intros f [= <-]. simpl. done.
  - intros [= <-]. split; [done|]. done.
Qed.




(** ** Every operation returns a record, and a failure keeps the disk *)

Section Operations.
Variable avoid_duplicate_name : list string → string → string.
Variable chart_series : string → outcome (list string).
Lemma call_outcome (op : operation) (d : disk) :
  ∃ r d', call avoid_duplicate_name chart_series op d = (Return r, d')
          ∧ (succeeded r
             ∨ (failed r ∧ (d' = d ∨ d' = <[file_path_of op := Corrupt]> d))).
Proof.
  destruct op; simpl.
  - unfold read_excel_file. apply try_except_guarded; [|apply read_failure_failed].
    solve_guarded.
  - unfold write_excel_file. apply try_except_guarded; [|apply failure_failed].
    solve_guarded.
  - unfold get_worksheet_info. apply try_except_guarded; [|apply failure_failed].
    solve_guarded.
  - unfold add_worksheet. apply try_except_guarded; [|apply failure_failed].
    solve_guarded.
  - unfold update_cell. apply try_except_guarded; [|apply failure_failed].
    solve_guarded.
  - unfold apply_formula. apply try_except_guarded; [|apply failure_failed].
    solve_guarded.
  - unfold format_cells. apply try_except_guarded; [|apply failure_failed].
    solve_guarded.
  - unfold create_chart. apply try_except_guarded; [|apply failure_failed].
    solve_guarded.
Qed.
(** C4: every operation returns a result record, never an exception; the
    record says [success: true], or [success: false] with an [error]
    message. *)
Theorem operations_return_uniform_result (op : operation) (d : disk) :
  ∃ r d', call avoid_duplicate_name chart_series op d = (Return r, d')
          ∧ (succeeded r ∨ failed r).
Proof.
  destruct (call_outcome op d) as (r & d' & H & [Hs|[Hf _]]); eauto.
Qed.

End Operations.


Lemma read_excel_file_run p sn cr d sw ws name ws' data range_ :
  d !! p = Some (Encoded sw) → file_format p ∈ SUPPORTED_FORMATS →
  select_sheet sn (decode true sw) = Return (ws, name) →
  read_data cr ws = Return (ws', data) →
  read_range cr ws' = Return range_ →
  read_excel_file p sn cr d
  = (Return [("success", PBool true);
             ("data", PList (PList <$> data));
             ("sheet_name", PStr name);
             ("range", PStr range_);
             ("rows", PInt (len data));
             ("columns", PInt (match data with [] => 0 | row :: _ => len row end))], d).
Proof.
  intros Hd Hf Hs Hr Hg.
  unfold read_excel_file, try_except, bind, os_path_exists, load_workbook, lift, ret.
  rewrite Hd. rewrite bool_decide_true by eauto. cbn [negb].
  rewrite bool_decide_true by done. cbn [negb]. rewrite Hd. cbn beta iota.
  rewrite Hs. cbn beta iota. rewrite Hr. cbn beta iota.
  unfold read_range in Hg. rewrite Hg. done.
Qed.

Lemma values_of_fetched R ws ws' ks :
  fetched R ws ws' → values_of ws' ks = (λ k, value (cell_at ws k)) <$> ks.
Proof.
  intros (_ & _ & _ & Hl). unfold values_of. apply list_fmap_ext. intros _ k _.
  unfold cell_at at 1. rewrite Hl. by destruct (in_rect R k).
Qed.

Lemma touch_rect kss rl rh cl ch ws :
  (∀ k, k ∈ concat kss ↔ in_rect (rl, rh, cl, ch) k) →
  (∀ k, in_rect (rl, rh, cl, ch) k → valid_coord k) →
  ∃ ws', touch kss ws = Return ws' ∧ fetched (rl, rh, cl, ch) ws ws'.
Proof.
  intros Hin Hv. destruct (touch_list_valid (concat kss) ws) as [ws' Hw].
  { apply Forall_forall. intros k Hk. by apply Hv, Hin. }
  exists ws'. split; [done|]. by eapply touch_fetched.
Qed.

Lemma iter_rows_run a b c d ws :
  (∀ k, in_rect (or_default a 1, or_default b (max_row ws),
                 or_default c 1, or_default d (max_column ws)) k → valid_coord k) →
  ∃ ws', iter_rows a b c d ws
         = Return (ws', coords_by_row (or_default c 1) (or_default a 1)
                          (or_default d (max_column ws)) (or_default b (max_row ws)))
         ∧ fetched (or_default a 1, or_default b (max_row ws),
                    or_default c 1, or_default d (max_column ws)) ws ws'.
Proof.
  intros Hv. unfold iter_rows.
  edestruct touch_rect as (ws' & Ht & Hf); [|exact Hv|].
  - intros k. rewrite elem_of_coords_by_row, in_rect_spec. done.
  - exists ws'. rewrite Ht. done.
Qed.

Lemma coords_row_major cl rl ch rh ws :
  (λ ks : list coord, (λ k, value (cell_at ws k)) <$> ks) <$> coords_by_row cl rl ch rh
  = row_major ws (rl, rh, cl, ch).
Proof.
  unfold coords_by_row, row_major. rewrite <- list_fmap_compose.
  apply list_fmap_ext. intros _ r _. simpl. by rewrite <- list_fmap_compose.
Qed.

Lemma col_index_acc_ge s acc :
  sall is_upper s = true → 0 ≤ acc → acc ≤ col_index_acc s acc.
Proof.
  revert acc. induction s as [|c s IH]; intros acc; simpl; [lia|].
  intros [Hc Hs]%andb_true_iff Hacc.
  unfold is_upper in Hc. apply andb_true_iff in Hc as [?%Z.leb_le ?%Z.leb_le].
  etrans; [|apply IH; [done|lia]]. lia.
Qed.

Lemma column_index_pos s n : column_index_from_string s = Return n → 1 ≤ n.
Proof.
  unfold column_index_from_string.
  destruct (sall is_upper (upper s)) eqn:Hu; simpl; [|done].
  destruct (1 <=? slen (upper s)) eqn:Hl; simpl; [|done].
  destruct (_ <=? 3); [|done]. intros [= <-].
  destruct (upper s) as [|c u]; [done|]. simpl in *.
  apply andb_true_iff in Hu as [Hc Hs].
  unfold is_upper in Hc. apply andb_true_iff in Hc as [?%Z.leb_le ?%Z.leb_le].
  etrans; [|apply col_index_acc_ge; [done|lia]]. lia.
Qed.

Lemma range_boundaries_cols key a b c d :
  range_boundaries key = Return (a, b, c, d) →
  (∀ x, a = Some x → 1 ≤ x) ∧ (∀ x, c = Some x → 1 ≤ x).
Proof.
  unfold range_boundaries.
  destruct (absolute_re key) as [[[[[g1 g2] sep] g3] g4]|] eqn:Habs; [|done].
  destruct (sep && _); [done|].
  destruct g1 as [s1|], g3 as [s3|]; simpl;
    repeat match goal with
      | |- context [column_index_from_string ?s] =>
          let E := fresh "E" in
          destruct (column_index_from_string s) eqn:E; simpl; try done;
          apply column_index_pos in E
      end; intros [= <- <- <- <-]; split; intros x [= <-]; done.
Qed.

Lemma truthy_contains c key : contains_char c key = true → truthy_str (Some key) = true.
Proof. by destruct key. Qed.

Lemma read_data_two_corner key ws c1 r1 c2 r2 :
  range_boundaries key = Return (Some c1, Some r1, Some c2, Some r2) →
  contains_char ":" key = true →
  (∀ k, in_rect (rect_of (Some c1, Some r1, Some c2, Some r2)
                   (max_row ws) (max_column ws)) k → valid_coord k) →
  ∃ ws', read_data (Some key) ws
         = Return (ws', row_major ws (rect_of (Some c1, Some r1, Some c2, Some r2)
                                        (max_row ws) (max_column ws))).
Proof.
  intros Hb Hc Hv. unfold read_data. rewrite (truthy_contains _ _ Hc).
  change (default "" (Some key)) with key.
  unfold ws_getitem. rewrite Hb. cbn [obind].
  destruct (range_boundaries_cols _ _ _ _ _ Hb) as [H1 _].
  specialize (H1 c1 eq_refl).
  assert (Hc1 : (or_default (Some c1) 0 =? 0) = false).
  { unfold or_default. destruct (c1 =? 0) eqn:E; lia. }
  rewrite Hc1. cbn [andb]. rewrite Hc. cbn [negb].
  destruct (iter_rows_run (Some r1) (Some r2) (Some c1) (Some c2) ws Hv) as (ws' & -> & Hf).
  cbn [obind]. exists ws'. f_equal. f_equal.
  unfold rect_of. rewrite <- coords_row_major. apply list_fmap_ext. intros _ ks _.
  by eapply values_of_fetched.
Qed.

Lemma select_sheet_stored b sw s i sws :
  truthy_str (Some s) = true →
  list_find (λ x, s_title x = s) (s_sheets sw) = Some (i, sws) →
  select_sheet (Some s) (decode b sw) = Return (load_worksheet b sws, s).
Proof.
  intros Ht Hfind. unfold select_sheet. rewrite Ht.
  change (default "" (Some s)) with s.
  assert (Hg : wb_getitem s (decode b sw) = Some (i, load_worksheet b sws)).
  { unfold wb_getitem, decode. simpl. rewrite list_find_fmap.
    unfold compose. simpl. by rewrite Hfind. }
  rewrite Hg. rewrite bool_decide_true; [done|].
  apply list_find_Some in Hfind as (Hi & Ht' & _).
  unfold sheetnames, decode. simpl. apply list_elem_of_fmap.
  exists (load_worksheet b sws). split; [done|].
  apply list_elem_of_fmap. exists sws. split; [done|].
  by eapply list_elem_of_lookup_2.
Qed.

Lemma stored_sheet_Some d p s sws :
  stored_sheet d p s = Some sws →
  ∃ sw i, d !! p = Some (Encoded sw)
          ∧ list_find (λ x, s_title x = s) (s_sheets sw) = Some (i, sws).
Proof.
  unfold stored_sheet. destruct (d !! p) as [[|sw]|]; try done.
  destruct (list_find _ _) as [[i x]|] eqn:E; [|done]. simpl. intros [= <-]. eauto.
Qed.

Lemma zrange_one r : zrange r r = [r].
Proof. unfold zrange. replace (r + 1 - r) with 1 by lia. reflexivity. Qed.

Lemma zrange_empty lo hi : hi < lo → zrange lo hi = [].
Proof.
  intros H. unfold zrange. destruct (seqZ lo (hi + 1 - lo)) as [|x l] eqn:E; [done|].
  assert (Hx : x ∈ seqZ lo (hi + 1 - lo)) by (rewrite E; left).
  apply elem_of_seqZ in Hx. lia.
Qed.

Lemma or_default_nonzero n y : n ≠ 0 → or_default (Some n) y = n.
Proof. intros H. unfold or_default. destruct (n =? 0) eqn:E; [lia|done]. Qed.

Lemma read_two_corner p s key d sws c1 r1 c2 r2 :
  file_format p ∈ SUPPORTED_FORMATS →
  stored_sheet d p s = Some sws → s ≠ "" →
  range_boundaries key = Return (Some c1, Some r1, Some c2, Some r2) →
  contains_char ":" key = true →
  r1 ≠ 0 → r2 ≠ 0 →
  (∀ k, in_rect (r1, r2, c1, c2) k → valid_coord k) →
  ∃ rec, read_excel_file p (Some s) (Some key) d = (Return rec, d)
         ∧ succeeded rec
         ∧ dict_get "data" rec
           = Some (PList (PList <$> row_major (load_worksheet true sws) (r1, r2, c1, c2))).
Proof.
  intros Hf Hs Hne Hb Hc Hr1 Hr2 Hv.
  apply stored_sheet_Some in Hs as (sw & i & Hd & Hfind).
  destruct (range_boundaries_cols _ _ _ _ _ Hb) as [H1 H2].
  specialize (H1 c1 eq_refl). specialize (H2 c2 eq_refl).
  assert (HR : rect_of (Some c1, Some r1, Some c2, Some r2)
                 (max_row (load_worksheet true sws)) (max_column (load_worksheet true sws))
               = (r1, r2, c1, c2)).
  { unfold rect_of. rewrite !or_default_nonzero by lia. done. }
  destruct (read_data_two_corner key (load_worksheet true sws) c1 r1 c2 r2 Hb Hc)
    as [ws' Hrd].
  { by rewrite HR. }
  rewrite HR in Hrd.
  eexists. split; [|split].
  - eapply read_excel_file_run; [done|done| |exact Hrd|].
    + eapply select_sheet_stored; [|done]. destruct s; [done|done].
    + unfold read_range. by rewrite (truthy_contains _ _ Hc).
  - reflexivity.
  - reflexivity.
Qed.

Lemma value_formula_data_only sws k sc text cached :
  s_cells sws !! k = Some sc → sc_content sc = Formula text cached →
  value (cell_at (load_worksheet true sws) k) = default PNone cached.
Proof.
  intros Hk Hc. unfold cell_at, load_worksheet. simpl.
  rewrite lookup_fmap, Hk. simpl. unfold load_cell. by rewrite Hc.
Qed.

(** C3, as amended: a read loads the workbook with [data_only=True], so a
    cell that holds a formula is returned as the value the file caches for
    it when there is one, and as an empty cell ([None]) otherwise; the
    formula text is not returned, and nothing is computed.  Here for a read
    of one cell of a named sheet through a two-corner range. *)
Theorem read_formula_cell_gives_cached_or_none p s key d sws r c sc text cached :
  file_format p ∈ SUPPORTED_FORMATS →
  stored_sheet d p s = Some sws → s ≠ "" →
  s_cells sws !! (r, c) = Some sc → sc_content sc = Formula text cached →
  range_boundaries key = Return (Some c, Some r, Some c, Some r) →
  contains_char ":" key = true →
  1 ≤ r < 1048577 →
  ∃ rec, read_excel_file p (Some s) (Some key) d = (Return rec, d)
         ∧ succeeded rec
         ∧ dict_get "data" rec = Some (PList [PList [default PNone cached]]).
Proof.
  intros Hf Hs Hne Hk Hc Hb Hcol Hr.
  destruct (range_boundaries_cols _ _ _ _ _ Hb) as [H1 _]. specialize (H1 c eq_refl).
  destruct (read_two_corner p s key d sws c r c r) as (rec & Hrun & Hsucc & Hdata);
    try done; try lia.
  { intros k Hin. apply in_rect_spec in Hin. unfold valid_coord. lia. }
  exists rec. split; [done|]. split; [done|]. rewrite Hdata.
  unfold row_major. rewrite !zrange_one. simpl.
  by erewrite value_formula_data_only.
Qed.

Lemma read_formula_cell_gives_cached_or_none_witness :
  ∃ rec, read_excel_file "book.xlsx" (Some "S") (Some "C2:C2") book_disk
         = (Return rec, book_disk)
         ∧ succeeded rec
         ∧ dict_get "data" rec = Some (PList [PList [PInt 7]]).
Proof.
  apply (read_formula_cell_gives_cached_or_none "book.xlsx" "S" "C2:C2" book_disk
           sheet_S 2 3 (formula_cell "A2+B2" (Some (PInt 7))) "A2+B2" (Some (PInt 7)));
    [apply (bool_decide_unpack _); by vm_compute|by vm_compute|done|by vm_compute|done
    |by vm_compute|done|lia].
Defined.

(** C3 fails as stated: the cell C1 of the example holds the formula
    "=A1+B1" and the file caches no value for it; a read returns [None]
    for it, not the formula text. *)
Lemma read_formula_text_counterexample :
  stored_sheet book_disk "book.xlsx" "S" = Some sheet_S
  ∧ s_cells sheet_S !! (1, 3) = Some (formula_cell "A1+B1" None)
  ∧ success_of (read_excel_file "book.xlsx" (Some "S") (Some "C1:C1") book_disk)
    = Some (PBool true)
  ∧ data_of (read_excel_file "book.xlsx" (Some "S") (Some "C1:C1") book_disk)
    = Some (PList [PList [PNone]])
  ∧ data_of (read_excel_file "book.xlsx" (Some "S") (Some "C1:C1") book_disk)
    ≠ Some (PList [PList [PStr "=A1+B1"]]).
Proof.
  split_and!; [by vm_compute|by vm_compute|by vm_compute|by vm_compute|].
  vm_compute. intros [=].
Qed.

(** C6, as amended: a two-corner reference written end-before-start is
    accepted, and its ends are taken as written: the rectangle it resolves
    to has no cell.  A read with such a range succeeds and returns no cell
    value: a row without cells for every row of the span when the columns
    are inverted, and no row when the rows are inverted. *)
Theorem inverted_range_reads_no_cell p s key d sws c1 r1 c2 r2 :
  file_format p ∈ SUPPORTED_FORMATS →
  stored_sheet d p s = Some sws → s ≠ "" →
  range_boundaries key = Return (Some c1, Some r1, Some c2, Some r2) →
  contains_char ":" key = true →
  r1 ≠ 0 → r2 ≠ 0 →
  c2 < c1 ∨ r2 < r1 →
  ∃ rec, read_excel_file p (Some s) (Some key) d = (Return rec, d)
         ∧ succeeded rec
         ∧ dict_get "data" rec = Some (PList ((λ _, PList []) <$> zrange r1 r2)).
Proof.
  intros Hf Hs Hne Hb Hc Hr1 Hr2 Hinv.
  destruct (read_two_corner p s key d sws c1 r1 c2 r2) as (rec & Hrun & Hsucc & Hdata);
    try done.
  { intros k Hin. apply in_rect_spec in Hin. lia. }
  exists rec. split; [done|]. split; [done|]. rewrite Hdata. do 2 f_equal.
  unfold row_major. destruct Hinv as [Hcol|Hrow].
  - rewrite (zrange_empty c1 c2) by done. rewrite <- list_fmap_compose.
    by apply list_fmap_ext.
  - by rewrite (zrange_empty r1 r2).
Qed.

Lemma inverted_range_reads_no_cell_witness :
  ∃ rec, read_excel_file "book.xlsx" (Some "S") (Some "C1:A1") book_disk
         = (Return rec, book_disk)
         ∧ succeeded rec
         ∧ dict_get "data" rec = Some (PList ((λ _, PList []) <$> zrange 1 1)).
Proof.
  apply (inverted_range_reads_no_cell "book.xlsx" "S" "C1:A1" book_disk sheet_S 3 1 1 1);
    [apply (bool_decide_unpack _); by vm_compute|by vm_compute|done|by vm_compute
    |done|done|done|lia].
Defined.

(** C6 fails as stated: on the example, "C1:A1" reads one row without
    cells, and "A1:C1" reads the three cells of row 1. *)
Lemma inverted_range_counterexample :
  data_of (read_excel_file "book.xlsx" (Some "S") (Some "C1:A1") book_disk)
  = Some (PList [PList []])
  ∧ data_of (read_excel_file "book.xlsx" (Some "S") (Some "A1:C1") book_disk)
    = Some (PList [PList [PInt 1; PInt 2; PNone]])
  ∧ data_of (read_excel_file "book.xlsx" (Some "S") (Some "C1:A1") book_disk)
    ≠ data_of (read_excel_file "book.xlsx" (Some "S") (Some "A1:C1") book_disk).
Proof.
  split_and!; [by vm_compute|by vm_compute|]. vm_compute. intros [=].
Qed.

(** C10 at its failing input: the column band "A:B" of the example is
    read as one list per column, [[1, 3], [2, 4]], where the rows of the
    same cells are [[1, 2], [3, 4]]; and the single-cell reference "A1"
    is not read at all. *)
Theorem read_column_band_is_column_major :
  success_of (read_excel_file "book.xlsx" (Some "S") (Some "A:B") book_disk)
  = Some (PBool true)
  ∧ data_of (read_excel_file "book.xlsx" (Some "S") (Some "A:B") book_disk)
    = Some (PList [PList [PInt 1; PInt 3]; PList [PInt 2; PInt 4]])
  ∧ data_of (read_excel_file "book.xlsx" (Some "S") (Some "A1:B2") book_disk)
    = Some (PList [PList [PInt 1; PInt 2]; PList [PInt 3; PInt 4]])
  ∧ (read_excel_file "book.xlsx" (Some "S") (Some "A1") book_disk).1
    = Return [("success", PBool false);
              ("error", PStr "'Cell' object is not iterable");
              ("data", PList [])].
Proof. split_and!; by vm_compute. Qed.

Lemma max_row_bounds ws : within_limits ws → 1 ≤ max_row ws ≤ 1048576.
Proof.
  intros Hw. split.
  - apply max_of_ge_1. intros y Hy.
    apply list_elem_of_fmap in Hy as (k & -> & Hk).
    apply list_elem_of_fmap in Hk as ([k' c] & -> & Hkc).
    apply elem_of_map_to_list' in Hkc. simpl in *.
    destruct (Hw k') as [? _]; [by exists c|lia].
  - apply max_row_le; [lia|]. intros k Hk. destruct (Hw k Hk). lia.
Qed.

Lemma max_column_bounds ws : within_limits ws → 1 ≤ max_column ws ≤ 18278.
Proof.
  intros Hw. split.
  - apply max_of_ge_1. intros y Hy.
    apply list_elem_of_fmap in Hy as (k & -> & Hk).
    apply list_elem_of_fmap in Hk as ([k' c] & -> & Hkc).
    apply elem_of_map_to_list' in Hkc. simpl in *.
    destruct (Hw k') as [_ ?]; [by exists c|lia].
  - apply max_column_le; [lia|]. intros k Hk. destruct (Hw k Hk). lia.
Qed.

Lemma filter_fmap {A B} (f : A → B) (p : B → bool) (l : list A) :
  List.filter p (f <$> l) = f <$> List.filter (λ a, p (f a)) l.
Proof.
  induction l as [|a l IH]; csimpl; [done|].
  destruct (p (f a)); csimpl; by rewrite IH.
Qed.

Lemma any_not_None_row ws r :
  within_limits ws → any_not_None (row_values ws r) = true ↔ has_value ws r.
Proof.
  intros Hw. unfold any_not_None, row_values. rewrite existsb_exists. split.
  - intros (v & Hin & Hv). apply list_elem_of_In in Hin.
    apply list_elem_of_fmap in Hin as (c & -> & Hc).
    unfold cell_at in Hv. destruct (_cells ws !! (r, c)) as [x|] eqn:E; [|done].
    exists c, x. split; [done|]. simpl in Hv. by destruct (value x).
  - intros (c & x & Hx & Hv). exists (value x). split.
    + apply list_elem_of_In, list_elem_of_fmap. exists c. split.
      * unfold cell_at. by rewrite Hx.
      * apply elem_of_zrange. destruct (Hw (r, c)) as [_ ?]; [by eexists|].
        pose proof (max_column_ge ws (r, c)) as Hge. simpl in *.
        split; [lia|]. apply Hge. by eexists.
    + by destruct (value x).
Qed.

Lemma filter_zrange_sorted p lo hi :
  StronglySorted Z.lt (List.filter p (zrange lo hi)).
Proof.
  unfold zrange. generalize (hi + 1 - lo). intros n.
  assert (Hs : StronglySorted Z.lt (seqZ lo n)).
  { apply Sorted_StronglySorted; [intros ???; lia|].
    unfold seqZ. generalize (Z.to_nat n) as m. intros m.
    generalize 0%nat at 1 as i. induction m as [|m IH]; intros i; simpl; [constructor|].
    constructor; [apply IH|]. destruct m; simpl; constructor. lia. }
  induction Hs as [|x l Hl IH Hx]; simpl; [constructor|].
  destruct (p x); [|done]. constructor; [done|].
  apply Forall_forall. intros y Hy. rewrite Forall_forall in Hx. apply Hx.
  apply list_elem_of_In in Hy. apply filter_In in Hy as [Hy _]. by apply list_elem_of_In.
Qed.

Lemma read_data_all cr ws :
  truthy_str cr = false → within_limits ws →
  ∃ ws', read_data cr ws
         = Return (ws', row_values ws
                          <$> List.filter (λ r, any_not_None (row_values ws r))
                                (zrange 1 (max_row ws)))
         ∧ within_limits ws'.
Proof.
  intros Hcr Hw. unfold read_data. rewrite Hcr.
  pose proof (max_row_bounds ws Hw) as Hmr.
  pose proof (max_column_bounds ws Hw) as Hmc.
  destruct (iter_rows_run None None None None ws) as (ws' & -> & Hf).
  { intros k Hk. apply in_rect_spec in Hk. simpl in Hk. unfold valid_coord. lia. }
  cbn [obind]. exists ws'. split.
  - do 2 f_equal. rewrite <- filter_fmap. f_equal.
    unfold coords_by_row. simpl or_default. rewrite <- list_fmap_compose.
    apply list_fmap_ext. intros _ r _. simpl.
    rewrite (values_of_fetched _ _ _ _ Hf). unfold row_values.
    by rewrite <- list_fmap_compose.
  - destruct Hf as (_ & _ & _ & Hl). intros k [x Hk]. rewrite Hl in Hk.
    destruct (in_rect _ k) eqn:E.
    + assert (Hin : in_rect (or_default None 1, or_default None (max_row ws),
                             or_default None 1, or_default None (max_column ws)) k)
        by by rewrite E.
      apply in_rect_spec in Hin. simpl in Hin. lia.
    + apply Hw. by exists x.
Qed.



(** C2 at its failing input: after three rows were written to the active
    sheet, writing one row without a sheet name leaves the rows 2 and 3 in
    place, and a read returns three rows; the same write with the name of
    the sheet clears it first, and a read returns the one row. *)
Theorem write_to_active_sheet_keeps_old_rows :
  data_of (read_excel_file "book.xlsx" None None three_rows_disk)
  = Some (PList [PList [PInt 1]; PList [PInt 2]; PList [PInt 3]])
  ∧ success_of (write_excel_file avoid_duplicate_name "book.xlsx" [[PInt 9]] None None
                  three_rows_disk) = Some (PBool true)
  ∧ data_of (read_excel_file "book.xlsx" None None rewritten_unnamed)
    = Some (PList [PList [PInt 9]; PList [PInt 2]; PList [PInt 3]])
  ∧ data_of (read_excel_file "book.xlsx" None None rewritten_named)
    = Some (PList [PList [PInt 9]]).
Proof. split_and!; by vm_compute. Qed.

Lemma sheetnames_decode b sw : sheetnames (decode b sw) = s_title <$> s_sheets sw.
Proof.
  unfold sheetnames, decode. simpl. rewrite <- list_fmap_compose. by apply list_fmap_ext.
Qed.

Lemma titles_encode wb : s_title <$> s_sheets (encode wb) = sheetnames wb.
Proof.
  unfold sheetnames, encode. simpl. rewrite <- list_fmap_compose. by apply list_fmap_ext.
Qed.

Lemma sheetnames_update i ws ws' wb :
  _sheets wb !! i = Some ws → title ws' = title ws →
  sheetnames (update_sheet i ws' wb) = sheetnames wb.
Proof.
  intros Hi Ht. unfold sheetnames, update_sheet. simpl.
  rewrite list_fmap_insert, Ht. apply list_insert_id. by rewrite list_lookup_fmap, Hi.
Qed.

Lemma unique_names_save d p wb :
  unique_names d → NoDup (sheetnames wb) →
  unique_names (<[p := Encoded (encode wb)]> d).
Proof.
  intros Hu Hn q sw Hq. destruct (decide (p = q)) as [->|Hne].
  - rewrite lookup_insert_eq in Hq. injection Hq as <-. by rewrite titles_encode.
  - rewrite lookup_insert_ne in Hq by done. by eapply Hu.
Qed.

Lemma unique_names_corrupt d p :
  unique_names d → unique_names (<[p := Corrupt]> d).
Proof.
  intros Hu q sw Hq. destruct (decide (p = q)) as [->|Hne].
  - by rewrite lookup_insert_eq in Hq.
  - rewrite lookup_insert_ne in Hq by done. by eapply Hu.
Qed.

Lemma _get_cell_title r c ws ws' : _get_cell r c ws = Return ws' → title ws' = title ws.
Proof. unfold _get_cell. destruct (_ && _); [|done]. by intros [= <-]. Qed.

Lemma cell_title r c ws ws' : cell r c ws = Return ws' → title ws' = title ws.
Proof. intros H. apply cell_Return in H as [_ ->]. done. Qed.

Lemma cell_set_title r c v ws ws' : cell_set r c v ws = Return ws' → title ws' = title ws.
Proof.
  unfold cell_set. destruct (cell r c ws) as [w|] eqn:E; simpl; [|done].
  apply cell_title in E. destruct (is_None v); [by intros [= <-]|].
  destruct (set_value _ _); simpl; [|done]. by intros [= <-].
Qed.

Lemma ofold_invariant {A S} (P : S → Prop) (f : S → A → outcome S) l s s' :
  (∀ x a y, P x → f x a = Return y → P y) →
  P s → ofold f l s = Return s' → P s'.
Proof.
  intros Hf. revert s. induction l as [|a l IH]; intros s Hs; simpl.
  - by intros [= <-].
  - destruct (f s a) as [y|] eqn:E; simpl; [|done]. apply IH. by eapply Hf.
Qed.

Lemma write_rows_title data headers ws ws' :
  write_rows data headers ws = Return ws' → title ws' = title ws.
Proof.
  unfold write_rows.
  destruct (if truthy_list headers then _ else _) as [ws1|] eqn:E1; simpl; [|done].
  assert (H1 : title ws1 = title ws).
  { destruct (truthy_list headers); [|by injection E1 as <-].
    eapply (ofold_invariant (λ w, title w = title ws)); [|done|exact E1].
    intros x a y Hx Hy. apply cell_set_title in Hy. congruence. }
  intros H. eapply (ofold_invariant (λ w, title w = title ws)); [|exact H1|exact H].
  intros x rr y Hx Hy.
  eapply (ofold_invariant (λ w, title w = title ws)); [|exact Hx|exact Hy].
  intros x' a y' Hx' Hy'. apply cell_set_title in Hy'. congruence.
Qed.

Lemma _move_cells_title m o ws ws' : _move_cells m o ws = Return ws' → title ws' = title ws.
Proof.
  unfold _move_cells. destruct (filter _ (_.*1.*1)); [|done]. by intros [= <-].
Qed.

Lemma delete_rows_title i a ws ws' : delete_rows i a ws = Return ws' → title ws' = title ws.
Proof.
  unfold delete_rows. destruct (_move_cells _ _ ws) as [w|] eqn:E; simpl; [|done].
  apply _move_cells_title in E. by intros [= <-].
Qed.

Lemma ws_getitem_title key ws ws' sel :
  ws_getitem key ws = Return (ws', sel) → title ws' = title ws.
Proof.
  unfold ws_getitem.
  destruct (range_boundaries key) as [[[[a b] c] d]|e]; simpl; [|done].
  destruct (_ && _); [done|].
  destruct b as [r|].
  - destruct a as [cc|].
    + destruct (negb _).
      * destruct (_get_cell r cc ws) eqn:E; simpl; [|done].
        apply _get_cell_title in E. by intros [= <- <-].
      * destruct (iter_rows _ _ _ _ ws) as [[w rows]|] eqn:Hi; simpl; [|done].
        apply iter_rows_spec in Hi as [_ (Ht & _)]. by intros [= <- <-].
    + destruct (iter_rows _ _ _ _ ws) as [[w rows]|] eqn:Hi; simpl; [|done].
      apply iter_rows_spec in Hi as [_ (Ht & _)].
      case_bool_decide; [destruct rows; [done|]|]; by intros [= <- <-].
  - destruct (iter_cols _ _ _ _ ws) as [[w cols]|] eqn:Hi; simpl; [|done].
    apply iter_cols_spec in Hi as [_ (Ht & _)].
    case_bool_decide; [destruct cols; [done|]|]; by intros [= <- <-].
Qed.

Lemma ws_setitem_title key v ws ws' :
  ws_setitem key v ws = Return ws' → title ws' = title ws.
Proof.
  unfold ws_setitem. destruct (ws_getitem key ws) as [[w sel]|] eqn:E; simpl; [|done].
  apply ws_getitem_title in E. destruct sel; try done.
  destruct (set_value _ _); simpl; [|done]. by intros [= <-].
Qed.

Lemma active_lookup wb i ws : active wb = Some (i, ws) → _sheets wb !! i = Some ws.
Proof.
  unfold active. destruct (_sheets wb !! _) eqn:E; [|done]. by intros [= <- <-].
Qed.

Lemma try_except_Return_succeeded (body : M record) (handler : exn → M record) d r d' :
  (∀ e d0 r0 d1, handler e d0 = (Return r0, d1) → ¬ succeeded r0) →
  try_except body handler d = (Return r, d') → succeeded r → body d = (Return r, d').
Proof.
  intros Hh. unfold try_except. destruct (body d) as [[a|e] d1]; [done|].
  intros H Hs. by apply Hh in H.
Qed.

Lemma failure_not_succeeded e d0 r0 d1 : failure e d0 = (Return r0, d1) → ¬ succeeded r0.
Proof. unfold failure, ret. by intros [= <- <-]. Qed.

Section Names.

Variable avoid_duplicate_name : list string → string → string.
Variable chart_series : string → outcome (list string).

Lemma create_sheet_names t wb wb' i ws :
  NoDup (sheetnames wb) →
  avoid_duplicate_name (sheetnames wb) (if String.eqb t "" then "Sheet" else t)
    ∉ sheetnames wb →
  create_sheet avoid_duplicate_name t wb = Return (wb', i, ws) →
  NoDup (sheetnames wb') ∧ _sheets wb' !! i = Some ws.
Proof.
  intros Hn Hfresh. unfold create_sheet. destruct (sany _ _); [done|]. intros [= <- <- <-].
  split.
  - unfold sheetnames. simpl. rewrite fmap_app. simpl. apply NoDup_app.
    split; [done|]. split; [|apply NoDup_singleton].
    intros x Hx ->%list_elem_of_singleton. by apply Hfresh.
  - simpl. rewrite lookup_app_r by done. by rewrite Nat.sub_diag.
Qed.

Lemma target_sheet_names sn wb wb' i ws name :
  NoDup (sheetnames wb) →
  (truthy_str sn = true → default "" sn ∉ sheetnames wb →
   avoid_duplicate_name (sheetnames wb) (default "" sn) ∉ sheetnames wb) →
  target_sheet avoid_duplicate_name sn wb = Return (wb', i, ws, name) →
  NoDup (sheetnames wb') ∧ ∃ ws0, _sheets wb' !! i = Some ws0 ∧ title ws = title ws0.
Proof.
  intros Hn Hfresh. unfold target_sheet. destruct (truthy_str sn) eqn:Etr.
  - case_bool_decide as Hin.
    + destruct (wb_getitem _ wb) as [[j w]|] eqn:E; [|done].
      destruct (delete_rows _ _ w) as [w'|] eqn:Ed; simpl; [|done].
      intros [= <- <- <- <-]. split; [done|]. exists w.
      apply wb_getitem_title in E as [_ E]. split; [done|]. by eapply delete_rows_title.
    + destruct (create_sheet _ _ wb) as [[[w1 j] w]|] eqn:E; simpl; [|done].
      intros [= <- <- <- <-]. apply create_sheet_names in E as [? ?]; [eauto|done|].
      assert (Hne : String.eqb (default "" sn) "" = false).
      { destruct sn as [x|]; [|done]. simpl in *. by apply negb_true_iff in Etr. }
      rewrite Hne. by apply Hfresh.
  - destruct (active wb) as [[j w]|] eqn:E; [|done]. intros [= <- <- <- <-].
    split; [done|]. exists w. split; [|done]. by apply active_lookup.
Qed.

Lemma require_sheet_lookup s wb i ws :
  require_sheet s wb = Return (i, ws) → _sheets wb !! i = Some ws.
Proof. intros H. apply require_sheet_Return, wb_getitem_title in H as [_ ?]. done. Qed.

Lemma call_keeps_unique_names op d :
  unique_names d → gives_fresh_title avoid_duplicate_name op d →
  unique_names (call avoid_duplicate_name chart_series op d).2.
Proof.
  intros Hu Hfresh. destruct (call_outcome avoid_duplicate_name chart_series op d)
    as (r & d' & H & [Hs|[_ [->| ->]]]); rewrite H; simpl;
    [|done|by apply unique_names_corrupt].
  destruct op; simpl in H; simpl in Hfresh.
  - unfold read_excel_file in H. apply try_except_Return_succeeded in H; [|intros ????; unfold ret; by intros [= <- <-]|done].
    invert_run. done.
  - unfold write_excel_file in H.
    apply try_except_Return_succeeded in H; [|apply failure_not_succeeded|done].
    destruct data as [|row data]; [done|]. invert_run.
    + (* the file exists *)
      match goal with Hd : d !! _ = Some (Encoded ?x) |- _ =>
        specialize (Hfresh x Hd) end.
      match goal with H : target_sheet _ _ _ = _ |- _ =>
        apply target_sheet_names in H as (Hn & ws0 & Hi & Ht) end.
      2:{ rewrite sheetnames_decode. by eapply Hu. }
      2:{ rewrite sheetnames_decode. exact Hfresh. }
      match goal with H : write_rows _ _ _ = _ |- _ => apply write_rows_title in H end.
      apply unique_names_save; [done|].
      erewrite sheetnames_update; [done|done|congruence].
    + match goal with H : target_sheet _ _ _ = _ |- _ =>
        apply target_sheet_names in H as (Hn & ws0 & Hi & Ht) end.
      2:{ match goal with H : wb_getitem "Sheet" new_Workbook = Some _ |- _ =>
            vm_compute in H; injection H as <- <- end.
          vm_compute. constructor. }
      2:{ match goal with H : wb_getitem "Sheet" new_Workbook = Some _ |- _ =>
            vm_compute in H; injection H as <- <- end.
          intros _ _. change (sheetnames (remove_sheet 0 new_Workbook)) with (@nil string).
          apply not_elem_of_nil. }
      match goal with H : write_rows _ _ _ = _ |- _ => apply write_rows_title in H end.
      apply unique_names_save; [done|].
      erewrite sheetnames_update; [done|done|congruence].
    + match goal with H : target_sheet _ _ _ = _ |- _ =>
        apply target_sheet_names in H as (Hn & ws0 & Hi & Ht) end.
      2:{ vm_compute. apply NoDup_singleton. }
      2:{ intros Htr. exfalso.
          match goal with H : truthy_str _ && _ = false |- _ =>
            rewrite Htr in H; vm_compute in H; discriminate H end. }
      match goal with H : write_rows _ _ _ = _ |- _ => apply write_rows_title in H end.
      apply unique_names_save; [done|].
      erewrite sheetnames_update; [done|done|congruence].
  - unfold get_worksheet_info in H.
    apply try_except_Return_succeeded in H; [|apply failure_not_succeeded|done].
    invert_run. done.
  - unfold add_worksheet in H.
    apply try_except_Return_succeeded in H; [|apply failure_not_succeeded|done].
    invert_run.
    match goal with Hd : d !! _ = Some (Encoded ?x) |- _ =>
      specialize (Hfresh x Hd) end.
    match goal with H : create_sheet _ _ _ = _ |- _ =>
      apply create_sheet_names in H as [Hn _] end.
    2:{ rewrite sheetnames_decode. by eapply Hu. }
    2:{ rewrite sheetnames_decode. destruct Hfresh as [Hin|Hf]; [|done].
        match goal with H : bool_decide (_ ∈ sheetnames _) = false |- _ =>
          apply bool_decide_eq_false in H; rewrite sheetnames_decode in H end.
        done. }
    by apply unique_names_save.
  - unfold update_cell in H.
    apply try_except_Return_succeeded in H; [|apply failure_not_succeeded|done].
    invert_run.
    match goal with H : require_sheet _ _ = _ |- _ => apply require_sheet_lookup in H end.
    match goal with H : ws_setitem _ _ _ = _ |- _ => apply ws_setitem_title in H end.
    apply unique_names_save; [done|].
    erewrite sheetnames_update; [|done|done]. rewrite sheetnames_decode. by eapply Hu.
  - unfold apply_formula in H.
    apply try_except_Return_succeeded in H; [|apply failure_not_succeeded|done].
    invert_run.
    match goal with H : require_sheet _ _ = _ |- _ => apply require_sheet_lookup in H end.
    match goal with H : ws_setitem _ _ _ = _ |- _ => apply ws_setitem_title in H end.
    apply unique_names_save; [done|].
    erewrite sheetnames_update; [|done|done]. rewrite sheetnames_decode. by eapply Hu.
  - apply format_cells_inv in H as (sw & i & ws & fo & fi & ws2 & Hd & Hreq & _ & _ & Hfmt & ->);
      [|done].
    apply require_sheet_lookup in Hreq.
    apply format_range_spec in Hfmt as (_ & _ & Ht & _).
    apply unique_names_save; [done|].
    erewrite sheetnames_update; [|done|done]. rewrite sheetnames_decode. by eapply Hu.
  - unfold create_chart in H.
    apply try_except_Return_succeeded in H; [|apply failure_not_succeeded|done].
    invert_run.
    match goal with H : require_sheet _ _ = _ |- _ => apply require_sheet_lookup in H end.
    apply unique_names_save; [done|].
    erewrite sheetnames_update; [|done|done]. rewrite sheetnames_decode. by eapply Hu.
Qed.

Lemma target_sheet_existing sn wb wb' i ws name :
  truthy_str sn = false ∨ default "" sn ∈ sheetnames wb →
  target_sheet avoid_duplicate_name sn wb = Return (wb', i, ws, name) →
  wb' = wb ∧ ∃ ws0, _sheets wb !! i = Some ws0 ∧ title ws = title ws0.
Proof.
  intros Hex. unfold target_sheet. destruct (truthy_str sn).
  - destruct Hex as [?|Hex]; [done|]. rewrite bool_decide_true by done.
    destruct (wb_getitem _ wb) as [[j w]|] eqn:E; [|done].
    destruct (delete_rows _ _ w) as [w'|] eqn:Ed; simpl; [|done].
    intros [= <- <- <- <-]. split; [done|]. exists w.
    apply wb_getitem_title in E as [_ E]. split; [done|]. by eapply delete_rows_title.
  - destruct (active wb) as [[j w]|] eqn:E; [|done]. intros [= <- <- <- <-].
    split; [done|]. exists w. split; [|done]. by apply active_lookup.
Qed.

Lemma add_worksheet_existing p s d sw :
  d !! p = Some (Encoded sw) → file_format p ∈ SUPPORTED_FORMATS →
  s ∈ s_title <$> s_sheets sw →
  add_worksheet avoid_duplicate_name p s d
  = (Return [("success", PBool false);
             ("error", PStr ("Worksheet '" ++ s ++ "' already exists"))], d).
Proof.
  intros Hd Hf Hs.
  unfold add_worksheet, try_except, bind, os_path_exists, load_workbook, raise, failure, ret.
  rewrite Hd. rewrite bool_decide_true by eauto. cbn [negb].
  rewrite bool_decide_true by done. cbn [negb]. rewrite Hd. cbn beta iota.
  rewrite bool_decide_true; [done|]. by rewrite sheetnames_decode.
Qed.

Lemma write_keeps_names p data sn headers d r d' sw sw' :
  write_excel_file avoid_duplicate_name p data sn headers d = (Return r, d') →
  succeeded r →
  d !! p = Some (Encoded sw) → d' !! p = Some (Encoded sw') →
  truthy_str sn = false ∨ default "" sn ∈ s_title <$> s_sheets sw →
  s_title <$> s_sheets sw' = s_title <$> s_sheets sw.
Proof.
  intros H Hs Hd Hd' Hex.
  unfold write_excel_file in H.
  apply try_except_Return_succeeded in H; [|apply failure_not_succeeded|done].
  destruct data as [|row data]; [done|]. invert_run.
  2,3: match goal with H : bool_decide (is_Some _) = false |- _ =>
         apply bool_decide_eq_false in H; exfalso; apply H; eauto end.
  match goal with H : d !! p = Some (Encoded ?x) |- _ =>
    rewrite Hd in H; injection H as <- end.
  match goal with H : target_sheet _ _ _ = _ |- _ =>
    apply target_sheet_existing in H as (-> & ws0 & Hi & Ht) end.
  2:{ by rewrite sheetnames_decode. }
  match goal with H : write_rows _ _ _ = _ |- _ => apply write_rows_title in H end.
  rewrite lookup_insert_eq in Hd'. injection Hd' as <-.
  rewrite titles_encode. erewrite sheetnames_update; [|done|congruence].
  by rewrite sheetnames_decode.
Qed.

End Names.

(** A title that is the name of no sheet, case left aside, is kept. *)
Lemma avoid_duplicate_name_kept names value_ :
  lower value_ ∉ lower <$> names → avoid_duplicate_name names value_ = value_.
Proof.
  intros Hn. unfold avoid_duplicate_name.
  assert (E : existsb (λ n, String.eqb (lower n) (lower value_)) names = false).
  { induction names as [|n names IH]; [done|]. simpl.
    rewrite fmap_cons in Hn. apply not_elem_of_cons in Hn as [Hne Hn].
    rewrite (IH Hn), orb_false_r. apply String.eqb_neq. congruence. }
  by rewrite E.
Qed.

Lemma no_clash_fresh op d :
  (∀ sw, d !! file_path_of op = Some (Encoded sw) → ¬ clashes op (s_title <$> s_sheets sw)) →
  gives_fresh_title avoid_duplicate_name op d.
Proof.
  intros H sw Hd. specialize (H sw Hd). destruct op; try done; simpl in *.
  - intros Htr Hin.
    destruct (decide (lower (default "" sheet_name)
                      ∈ lower <$> (s_title <$> s_sheets sw))) as [Hl|Hl].
    + exfalso. by apply H.
    + rewrite (avoid_duplicate_name_kept _ _ Hl). done.
  - destruct (decide (sheet_name ∈ s_title <$> s_sheets sw)) as [Hin|Hin]; [by left|].
    right.
    destruct (decide (lower (if String.eqb sheet_name "" then "Sheet" else sheet_name)
                      ∈ lower <$> (s_title <$> s_sheets sw))) as [Hl|Hl].
    + exfalso. by apply H.
    + rewrite (avoid_duplicate_name_kept _ _ Hl). intros Hx. apply Hl.
      apply list_elem_of_fmap. eexists. split; [reflexivity|done].
Qed.

Lemma unique_names_singleton p sw :
  NoDup (s_title <$> s_sheets sw) → unique_names {[ p := Encoded sw ]}.
Proof. intros Hn q sw' H. apply lookup_singleton_Some in H as [_ [= <-]]. done. Qed.

Lemma names_third_eq :
  names_third
  = {[ "names.xlsx" :=
         Encoded (mkStoredWorkbook
                    [mkStoredWorksheet "a" {[ (1, 1) := plain_cell (PInt 1) ]} [];
                     mkStoredWorksheet "a,a1" ∅ []; mkStoredWorksheet "A,A" ∅ []] 0) ]}.
Proof. by vm_compute. Qed.

(** C7 at its failing input, and what holds of the names.  A workbook is
    written with a sheet "a", and the sheets "a,a1" and "A,A" are added:
    its names are unique.  Then [add_worksheet] with the name "a,a", which
    no sheet has, reports a success, and the workbook it saved has two
    sheets under the title "a,a1": the name equals "A,A" but for the case,
    openpyxl renames the new sheet, and the number it appends is not the
    next free one.
    Apart from such a clash, every operation leaves the worksheet names of
    every workbook on the disk unique (compared exactly);
    [add_worksheet] with a name that the workbook has fails with
    "Worksheet '...' already exists" and leaves the disk as it was; and a
    write to a sheet that exists (named, or the active one) keeps the list
    of worksheet names as it was. *)
Theorem worksheet_names_stay_unique :
  (titles_on_disk names_third "names.xlsx" = Some ["a"; "a,a1"; "A,A"]
   ∧ unique_names names_third
   ∧ "a,a" ∉ ["a"; "a,a1"; "A,A"]
   ∧ success_of names_fourth = Some (PBool true)
   ∧ titles_on_disk names_fourth.2 "names.xlsx" = Some ["a"; "a,a1"; "A,A"; "a,a1"]
   ∧ ¬ unique_names names_fourth.2)
  ∧ (∀ chart_series op d,
       unique_names d →
       (∀ sw, d !! file_path_of op = Some (Encoded sw) →
              ¬ clashes op (s_title <$> s_sheets sw)) →
       unique_names (call avoid_duplicate_name chart_series op d).2)
  ∧ (∀ p s d sw,
       d !! p = Some (Encoded sw) → file_format p ∈ SUPPORTED_FORMATS →
       s ∈ s_title <$> s_sheets sw →
       add_worksheet avoid_duplicate_name p s d
       = (Return [("success", PBool false);
                  ("error", PStr ("Worksheet '" ++ s ++ "' already exists"))], d))
  ∧ (∀ p data sn headers d r d' sw sw',
       write_excel_file avoid_duplicate_name p data sn headers d = (Return r, d') →
       succeeded r →
       d !! p = Some (Encoded sw) → d' !! p = Some (Encoded sw') →
       truthy_str sn = false ∨ default "" sn ∈ s_title <$> s_sheets sw →
       s_title <$> s_sheets sw' = s_title <$> s_sheets sw).
Proof.
  split_and!.
  - by vm_compute.
  - rewrite names_third_eq. apply unique_names_singleton.
    apply (bool_decide_unpack _). by vm_compute.
  - apply (bool_decide_unpack _). by vm_compute.
  - by vm_compute.
  - by vm_compute.
  - intros Hu.
    assert (Hd : names_fourth.2 !! "names.xlsx"
                 = Some (Encoded (mkStoredWorkbook
                     [mkStoredWorksheet "a" {[ (1, 1) := plain_cell (PInt 1) ]} [];
                      mkStoredWorksheet "a,a1" ∅ []; mkStoredWorksheet "A,A" ∅ [];
                      mkStoredWorksheet "a,a1" ∅ []] 0))) by by vm_compute.
    specialize (Hu _ _ Hd). revert Hu. apply (bool_decide_unpack _). by vm_compute.
  - intros chart_series op d Hu Hc.
    apply call_keeps_unique_names; [done|]. by apply no_clash_fresh.
  - intros p s d sw. apply add_worksheet_existing.
  - intros p data sn headers d r d' sw sw'. apply write_keeps_names.
Qed.
(** ** The writer: when [save] succeeds *)

Lemma foldr_min_le x l y : y = x ∨ y ∈ l → foldr Z.min x l ≤ y.
Proof.
  induction l as [|a l IH]; simpl.
  - intros [->|?%elem_of_nil]; [lia|done].
  - intros [->|[->|Hin]%elem_of_cons]; [|lia|].
    + etrans; [apply Z.le_min_r|]. apply IH. by left.
    + etrans; [apply Z.le_min_r|]. apply IH. by right.
Qed.

Lemma min_of_le l y : y ∈ l → min_of l ≤ y.
Proof.
  destruct l as [|x l]; [by intros ?%elem_of_nil|]. simpl.
  intros [->|Hin]%elem_of_cons; apply foldr_min_le; [by left|by right].
Qed.

Lemma min_column_le ws k : is_Some (_cells ws !! k) → min_column ws ≤ k.2.
Proof.
  intros [c Hk]. apply min_of_le.
  apply list_elem_of_fmap. exists k. split; [done|].
  apply list_elem_of_fmap. exists (k, c). split; [done|].
  by apply elem_of_map_to_list.
Qed.

Lemma foldr_min_ge x l n : n ≤ x → (∀ y, y ∈ l → n ≤ y) → n ≤ foldr Z.min x l.
Proof.
  intros Hx. induction l as [|a l IH]; simpl; intros Hl; [done|].
  apply Z.min_glb; [apply Hl; by left|]. apply IH. intros y Hy. apply Hl. by right.
Qed.

Lemma min_of_ge_1 l : (∀ y, y ∈ l → 1 ≤ y) → 1 ≤ min_of l.
Proof.
  destruct l as [|x l]; [done|]. simpl. intros H.
  apply foldr_min_ge; [apply H; by left|]. intros y Hy. apply H. by right.
Qed.

Lemma min_column_ge_1 ws : (∀ k, is_Some (_cells ws !! k) → 1 ≤ k.2) → 1 ≤ min_column ws.
Proof.
  intros Hw. apply min_of_ge_1. intros y Hy.
  apply list_elem_of_fmap in Hy as (k & -> & Hk).
  apply list_elem_of_fmap in Hk as ([k' c] & -> & Hkc).
  apply elem_of_map_to_list' in Hkc. simpl in *. apply (Hw k'). by exists c.
Qed.

Lemma get_column_letter_Return n : (∃ s, get_column_letter n = Return s) ↔ 1 ≤ n ≤ 18278.
Proof.
  unfold get_column_letter. split.
  - intros [s H]. destruct (1 <=? n) eqn:E1; [|done].
    destruct (n <=? 18278) eqn:E2; [|done]. lia.
  - intros H. assert ((1 <=? n) && (n <=? 18278) = true) as -> by lia. by eexists.
Qed.

Lemma calculate_dimension_Return ws :
  (∃ s, calculate_dimension ws = Return s) ↔ columns_in_grid ws.
Proof.
  unfold calculate_dimension, columns_in_grid.
  destruct (map_to_list (_cells ws)) as [|kc l] eqn:E.
  - apply map_to_list_empty_iff in E. split; [|by eexists].
    intros _ k [c Hk]. by rewrite E in Hk.
  - assert (Hk0 : is_Some (_cells ws !! kc.1)).
    { exists kc.2. apply elem_of_map_to_list. rewrite E. destruct kc. by left. }
    split.
    + intros [s H].
      destruct (get_column_letter (min_column ws)) as [a|] eqn:Ea; [|done].
      destruct (get_column_letter (max_column ws)) as [b|] eqn:Eb; [|done].
      assert (Ha : 1 ≤ min_column ws ≤ 18278) by (apply get_column_letter_Return; eauto).
      assert (Hb : 1 ≤ max_column ws ≤ 18278) by (apply get_column_letter_Return; eauto).
      intros k Hk. pose proof (min_column_le ws k Hk). pose proof (max_column_ge ws k Hk).
      lia.
    + intros H.
      assert (Ha : 1 ≤ min_column ws ≤ 18278).
      { split; [apply min_column_ge_1; intros k Hk; by apply H|].
        pose proof (min_column_le ws _ Hk0). pose proof (H _ Hk0). lia. }
      assert (Hb : 1 ≤ max_column ws ≤ 18278).
      { split; [|apply max_column_le; [lia|intros k Hk; by apply H]].
        pose proof (max_column_ge ws _ Hk0). pose proof (H _ Hk0). lia. }
      apply get_column_letter_Return in Ha as [a ->].
      apply get_column_letter_Return in Hb as [b ->]. simpl. by eexists.
Qed.

Lemma check_anchors_Return charts :
  ofold (λ _ c, do _ <- _check_anchor (anchor c); Return tt) charts tt = Return tt
  ↔ Forall (λ c, ∃ m, _check_anchor (anchor c) = Return m) charts.
Proof.
  induction charts as [|c charts IH]; simpl; [by split|].
  destruct (_check_anchor (anchor c)) as [m|e] eqn:E; simpl.
  - rewrite IH. split; [intros H; constructor; eauto|by intros [_ ?]%Forall_cons_1].
  - split; [done|]. intros [[m Hm] _]%Forall_cons_1. congruence.
Qed.

Lemma check_worksheet_Return ws :
  check_worksheet ws = Return tt ↔ columns_in_grid ws ∧ anchors_accepted ws.
Proof.
  unfold check_worksheet, anchors_accepted. rewrite <- calculate_dimension_Return.
  destruct (calculate_dimension ws) as [s|e]; simpl.
  - rewrite check_anchors_Return. split; [by eauto|by intros [_ ?]].
  - split; [done|]. by intros [[s Hs] _].
Qed.

Lemma check_workbook_Return wb :
  check_workbook wb = Return tt ↔ Forall (λ ws, check_worksheet ws = Return tt) (_sheets wb).
Proof.
  unfold check_workbook. induction (_sheets wb) as [|ws l IH]; simpl; [by split|].
  destruct (check_worksheet ws) as [[]|e] eqn:E; simpl.
  - rewrite IH. split; [intros H; by constructor|by intros [_ ?]%Forall_cons_1].
  - split; [done|]. intros [? _]%Forall_cons_1. congruence.
Qed.

Lemma save_run wb p d :
  check_workbook wb = Return tt →
  save wb p d = (Return tt, <[p := Encoded (encode wb)]> d).
Proof. intros H. unfold save. by rewrite H. Qed.

Lemma save_checked wb p d u d1 :
  save wb p d = (Return u, d1) → check_workbook wb = Return tt.
Proof. unfold save. by destruct (check_workbook wb) as [[]|]. Qed.

Lemma save_Raise wb p d e d1 :
  save wb p d = (Raise e, d1) → check_workbook wb = Raise e ∧ d1 = <[p := Corrupt]> d.
Proof. unfold save. destruct (check_workbook wb); [done|]. by intros [= <- <-]. Qed.

(** A chart of a file is written back as it is. *)
Lemma store_load_chart sc : store_chart (load_chart sc) = sc.
Proof. destruct sc as [t ti ser [r c]]. reflexivity. Qed.

Lemma store_load_charts (l : list stored_chart) :
  store_chart <$> (load_chart <$> l) = l.
Proof.
  induction l as [|sc l IH]; [done|]. rewrite !fmap_cons, IH. f_equal.
  apply store_load_chart.
Qed.

Lemma anchors_accepted_loaded b sws : anchors_accepted (load_worksheet b sws).
Proof.
  unfold anchors_accepted, load_worksheet. simpl. apply Forall_fmap, Forall_true.
  intros sc. by eexists.
Qed.

Lemma columns_in_grid_loaded b sws :
  columns_in_grid (load_worksheet b sws)
  ↔ ∀ k, is_Some (s_cells sws !! k) → 1 ≤ k.2 ≤ 18278.
Proof.
  unfold columns_in_grid, load_worksheet. simpl.
  split; intros H k Hk; apply H; revert Hk; rewrite lookup_fmap, fmap_is_Some; done.
Qed.

(** A workbook whose cells lie in the columns of the file format is
    written back as it was loaded. *)
Lemma check_workbook_loaded b sw :
  file_in_grid sw → check_workbook (decode b sw) = Return tt.
Proof.
  intros H. apply check_workbook_Return. unfold decode. simpl.
  apply Forall_fmap, Forall_forall. intros sws Hin. simpl.
  apply check_worksheet_Return. split; [|apply anchors_accepted_loaded].
  apply columns_in_grid_loaded. intros k Hk. by eapply H.
Qed.

Lemma check_workbook_update i ws wb :
  check_workbook wb = Return tt → check_worksheet ws = Return tt →
  check_workbook (update_sheet i ws wb) = Return tt.
Proof.
  rewrite !check_workbook_Return. unfold update_sheet. simpl. intros H Hws.
  apply Forall_insert; done.
Qed.

Lemma check_workbook_lookup wb i ws :
  check_workbook wb = Return tt → _sheets wb !! i = Some ws → check_worksheet ws = Return tt.
Proof.
  rewrite check_workbook_Return, Forall_lookup. intros H Hi. by eapply H.
Qed.

(** ** The ways an operation ends

    Each operation that saves ends in one of three ways: it fails before
    the save and leaves the disk as it was; it saves and reports a
    success; or the writer refuses the workbook, the operation reports a
    failure, and the file holds no workbook any more. *)

Lemma load_cases p b d :
  (∃ e, load_workbook p b d = (Raise e, d))
  ∨ (∃ sw, d !! p = Some (Encoded sw) ∧ file_format p ∈ SUPPORTED_FORMATS
           ∧ load_workbook p b d = (Return (decode b sw), d)).
Proof.
  unfold load_workbook. case_bool_decide as Hf; cbn [negb]; [|left; by eexists].
  destruct (d !! p) as [[|sw]|]; [left; by eexists|right|left; by eexists].
  exists sw. done.
Qed.

Ltac fails_early :=
  eexists _, _; split; [reflexivity|left; split; [|done]; split; [done|by eexists]].

Ltac ends_in_save :=
  unfold save;
  match goal with
  | |- context [check_workbook ?wb] =>
      let Hc := fresh "Hc" in
      destruct (check_workbook wb) as [[]|?] eqn:Hc;
      (eexists _, _; split; [reflexivity|]; right; repeat eexists;
       try done; first [ left; by split_and!
                       | right; split_and!; [split; [done|by eexists]|by eexists|done] ])
  end.

Lemma format_cells_cases p s key o d :
  ∃ r d', format_cells p s key o d = (Return r, d')
    ∧ ((failed r ∧ d' = d)
       ∨ ∃ sw i ws fo fi ws2,
           d !! p = Some (Encoded sw) ∧ file_format p ∈ SUPPORTED_FORMATS
           ∧ require_sheet s (decode false sw) = Return (i, ws)
           ∧ make_font o = Return fo ∧ make_fill o = Return fi
           ∧ format_range key fo fi o ws = Return ws2
           ∧ ((succeeded r
               ∧ check_workbook (update_sheet i ws2 (decode false sw)) = Return tt
               ∧ d' = <[p := Encoded (encode (update_sheet i ws2 (decode false sw)))]> d)
              ∨ (failed r
                 ∧ (∃ e, check_workbook (update_sheet i ws2 (decode false sw)) = Raise e)
                 ∧ d' = <[p := Corrupt]> d))).
Proof.
  unfold format_cells, try_except, bind, os_path_exists.
  destruct (bool_decide (is_Some (d !! p))); cbn [negb]; [|fails_early].
  destruct (load_cases p false d) as [[e ->]|(sw & Hd & Hf & ->)]; [fails_early|].
  unfold lift.
  destruct (require_sheet s (decode false sw)) as [[i ws]|e] eqn:Hreq; [|fails_early].
  destruct (make_font o) as [fo|e] eqn:Hfo; [|fails_early].
  destruct (make_fill o) as [fi|e] eqn:Hfi; [|fails_early].
  destruct (format_range key fo fi o ws) as [ws2|e] eqn:Hfmt; [|fails_early].
  ends_in_save.
Qed.

Lemma update_cell_cases p s key v d :
  ∃ r d', update_cell p s key v d = (Return r, d')
    ∧ ((failed r ∧ d' = d)
       ∨ ∃ sw i ws ws2,
           d !! p = Some (Encoded sw) ∧ file_format p ∈ SUPPORTED_FORMATS
           ∧ require_sheet s (decode false sw) = Return (i, ws)
           ∧ ws_setitem key v ws = Return ws2
           ∧ ((succeeded r
               ∧ check_workbook (update_sheet i ws2 (decode false sw)) = Return tt
               ∧ d' = <[p := Encoded (encode (update_sheet i ws2 (decode false sw)))]> d)
              ∨ (failed r
                 ∧ (∃ e, check_workbook (update_sheet i ws2 (decode false sw)) = Raise e)
                 ∧ d' = <[p := Corrupt]> d))).
Proof.
  unfold update_cell, try_except, bind, os_path_exists.
  destruct (bool_decide (is_Some (d !! p))); cbn [negb]; [|fails_early].
  destruct (load_cases p false d) as [[e ->]|(sw & Hd & Hf & ->)]; [fails_early|].
  unfold lift.
  destruct (require_sheet s (decode false sw)) as [[i ws]|e] eqn:Hreq; [|fails_early].
  destruct (ws_setitem key v ws) as [ws2|e] eqn:Hset; [|fails_early].
  ends_in_save.
Qed.

Lemma apply_formula_cases p s key f d :
  ∃ r d', apply_formula p s key f d = (Return r, d')
    ∧ ((failed r ∧ d' = d)
       ∨ ∃ sw i ws ws2,
           d !! p = Some (Encoded sw) ∧ file_format p ∈ SUPPORTED_FORMATS
           ∧ require_sheet s (decode false sw) = Return (i, ws)
           ∧ ws_setitem key (PStr (with_equals f)) ws = Return ws2
           ∧ ((succeeded r
               ∧ check_workbook (update_sheet i ws2 (decode false sw)) = Return tt
               ∧ d' = <[p := Encoded (encode (update_sheet i ws2 (decode false sw)))]> d)
              ∨ (failed r
                 ∧ (∃ e, check_workbook (update_sheet i ws2 (decode false sw)) = Raise e)
                 ∧ d' = <[p := Corrupt]> d))).
Proof.
  unfold apply_formula, try_except, bind, os_path_exists.
  destruct (bool_decide (is_Some (d !! p))); cbn [negb]; [|fails_early].
  destruct (load_cases p false d) as [[e ->]|(sw & Hd & Hf & ->)]; [fails_early|].
  unfold lift.
  destruct (require_sheet s (decode false sw)) as [[i ws]|e] eqn:Hreq; [|fails_early].
  fold (with_equals f).
  destruct (ws_setitem key (PStr (with_equals f)) ws) as [ws2|e] eqn:Hset; [|fails_early].
  ends_in_save.
Qed.

Section Cases.
Variable avoid_duplicate_name : list string → string → string.
Variable chart_series : string → outcome (list string).

Lemma add_worksheet_cases p s d :
  ∃ r d', add_worksheet avoid_duplicate_name p s d = (Return r, d')
    ∧ ((failed r ∧ d' = d)
       ∨ ∃ sw wb2 i ws,
           d !! p = Some (Encoded sw) ∧ file_format p ∈ SUPPORTED_FORMATS
           ∧ s ∉ s_title <$> s_sheets sw
           ∧ create_sheet avoid_duplicate_name s (decode false sw) = Return (wb2, i, ws)
           ∧ ((succeeded r ∧ check_workbook wb2 = Return tt
               ∧ d' = <[p := Encoded (encode wb2)]> d)
              ∨ (failed r ∧ (∃ e, check_workbook wb2 = Raise e)
                 ∧ d' = <[p := Corrupt]> d))).
Proof.
  unfold add_worksheet, try_except, bind, os_path_exists.
  destruct (bool_decide (is_Some (d !! p))); cbn [negb]; [|fails_early].
  destruct (load_cases p false d) as [[e ->]|(sw & Hd & Hf & ->)]; [fails_early|].
  case_bool_decide as Hin; [fails_early|]. rewrite sheetnames_decode in Hin.
  unfold lift.
  destruct (create_sheet avoid_duplicate_name s (decode false sw)) as [[[wb2 i] ws]|e] eqn:Hcr;
    [|fails_early].
  ends_in_save.
Qed.

Lemma create_chart_cases p s key t ti po d :
  ∃ r d', create_chart chart_series p s key t ti po d = (Return r, d')
    ∧ ((failed r ∧ d' = d)
       ∨ ∃ sw i ws ser,
           d !! p = Some (Encoded sw) ∧ file_format p ∈ SUPPORTED_FORMATS
           ∧ t ∈ chart_types
           ∧ require_sheet s (decode false sw) = Return (i, ws)
           ∧ chart_series (s ++ "!" ++ key) = Return ser
           ∧ let ws2 := mkWorksheet (title ws) (_cells ws)
                          (_charts ws
                           ++ [mkChart t (if truthy_str ti then ti else None) ser
                                 (AnchorText (if truthy_str po then default "" po
                                              else "E5"))]) in
             ((succeeded r
               ∧ check_workbook (update_sheet i ws2 (decode false sw)) = Return tt
               ∧ d' = <[p := Encoded (encode (update_sheet i ws2 (decode false sw)))]> d)
              ∨ (failed r
                 ∧ (∃ e, check_workbook (update_sheet i ws2 (decode false sw)) = Raise e)
                 ∧ d' = <[p := Corrupt]> d))).
Proof.
  unfold create_chart, try_except, bind, os_path_exists.
  destruct (bool_decide (is_Some (d !! p))); cbn [negb]; [|fails_early].
  case_bool_decide as Ht; cbn [negb]; [|fails_early].
  destruct (load_cases p false d) as [[e ->]|(sw & Hd & Hf & ->)]; [fails_early|].
  unfold lift.
  destruct (require_sheet s (decode false sw)) as [[i ws]|e] eqn:Hreq; [|fails_early].
  destruct (chart_series (s ++ "!" ++ key)) as [ser|e] eqn:Hser; [|fails_early].
  ends_in_save.
Qed.

Lemma write_excel_file_cases p data sn headers d :
  ∃ r d', write_excel_file avoid_duplicate_name p data sn headers d = (Return r, d')
    ∧ ((failed r ∧ d' = d)
       ∨ ∃ wb wb2 i ws name ws2,
           data ≠ []
           ∧ write_start p sn d = Return wb
           ∧ target_sheet avoid_duplicate_name sn wb = Return (wb2, i, ws, name)
           ∧ write_rows data headers ws = Return ws2
           ∧ ((succeeded r
               ∧ check_workbook (update_sheet i ws2 wb2) = Return tt
               ∧ d' = <[p := Encoded (encode (update_sheet i ws2 wb2))]> d)
              ∨ (failed r
                 ∧ (∃ e, check_workbook (update_sheet i ws2 wb2) = Raise e)
                 ∧ d' = <[p := Corrupt]> d))).
Proof.
  unfold write_excel_file, try_except.
  destruct data as [|row data]; [fails_early|].
  unfold bind, os_path_exists.
  assert (Hstart :
    (∃ e, (if bool_decide (is_Some (d !! p)) then load_workbook p false
           else if truthy_str sn && bool_decide ("Sheet" ∈ sheetnames new_Workbook)
                then match wb_getitem "Sheet" new_Workbook with
                     | Some (i, _) => ret (remove_sheet i new_Workbook)
                     | None => raise (Exn KeyError "Worksheet Sheet does not exist.")
                     end
                else ret new_Workbook) d = (Raise e, d))
    ∨ (∃ wb, write_start p sn d = Return wb
             ∧ (if bool_decide (is_Some (d !! p)) then load_workbook p false
                else if truthy_str sn && bool_decide ("Sheet" ∈ sheetnames new_Workbook)
                     then match wb_getitem "Sheet" new_Workbook with
                          | Some (i, _) => ret (remove_sheet i new_Workbook)
                          | None => raise (Exn KeyError "Worksheet Sheet does not exist.")
                          end
                     else ret new_Workbook) d = (Return wb, d))).
  { unfold write_start, load_workbook. destruct (d !! p) as [[|sw]|] eqn:Hd.
    - rewrite bool_decide_true by eauto. left.
      destruct (bool_decide (file_format p ∈ SUPPORTED_FORMATS)); simpl;
        rewrite ?Hd; by eexists.
    - rewrite bool_decide_true by eauto.
      destruct (bool_decide (file_format p ∈ SUPPORTED_FORMATS)); simpl;
        rewrite ?Hd; [right|left]; by eexists.
    - rewrite bool_decide_false by by intros [? ?]. right.
      rewrite bool_decide_true by (apply (bool_decide_unpack _); by vm_compute).
      rewrite andb_true_r.
      change (wb_getitem "Sheet" new_Workbook)
        with (Some (0%nat, mkWorksheet "Sheet" ∅ [])).
      destruct (truthy_str sn); by eexists. }
  destruct Hstart as [[e ->]|(wb & Hst & ->)]; [fails_early|].
  unfold lift.
  destruct (target_sheet avoid_duplicate_name sn wb) as [[[[wb2 i] ws] name]|e] eqn:Ht;
    [|fails_early].
  destruct (write_rows (row :: data) headers ws) as [ws2|e] eqn:Hw; [|fails_early].
  ends_in_save.
Qed.

End Cases.

Lemma column_index_le s n : column_index_from_string s = Return n → n ≤ 18278.
Proof.
  unfold column_index_from_string.
  destruct (sall is_upper (upper s)) eqn:Hu; simpl; [|done].
  destruct (1 <=? slen (upper s)) eqn:Hl; simpl; [|done].
  destruct (_ <=? 3) eqn:H3; [|done]. intros [= <-].
  apply Z.leb_le in H3. unfold slen in H3.
  destruct (upper s) as [|a [|b [|c [|e u]]]]; simpl in *; try lia;
    unfold is_upper in Hu;
    repeat match goal with
      | H : _ && _ = true |- _ => apply andb_true_iff in H as [? ?]
      | H : (_ <=? _) = true |- _ => apply Z.leb_le in H
      end; lia.
Qed.

Lemma range_boundaries_cols_le key a b c d :
  range_boundaries key = Return (a, b, c, d) →
  (∀ x, a = Some x → x ≤ 18278) ∧ (∀ x, c = Some x → x ≤ 18278).
Proof.
  unfold range_boundaries.
  destruct (absolute_re key) as [[[[[g1 g2] sep] g3] g4]|] eqn:Habs; [|done].
  destruct (sep && _); [done|].
  destruct g1 as [s1|], g3 as [s3|]; simpl;
    repeat match goal with
      | |- context [column_index_from_string ?s] =>
          let E := fresh "E" in
          destruct (column_index_from_string s) eqn:E; simpl; try done;
          apply column_index_le in E
      end; intros [= <- <- <- <-]; split; intros x [= <-]; done.
Qed.

(** A sheet that the writer accepts still is accepted when cells were put
    in columns of the grid and its charts are the same. *)
Lemma check_worksheet_cells ws ws' :
  check_worksheet ws = Return tt → _charts ws' = _charts ws →
  (∀ k, is_Some (_cells ws' !! k) → is_Some (_cells ws !! k) ∨ 1 ≤ k.2 ≤ 18278) →
  check_worksheet ws' = Return tt.
Proof.
  rewrite !check_worksheet_Return. intros [Hg Ha] Hc Hk. split.
  - intros k Hs. destruct (Hk k Hs) as [?|?]; [by apply Hg|done].
  - unfold anchors_accepted. by rewrite Hc.
Qed.

(** The workbook of a file in the grid, with a cell put in a column of the
    grid, is accepted. *)
Lemma check_workbook_put sw i ws k cl :
  file_in_grid sw → _sheets (decode false sw) !! i = Some ws → 1 ≤ k.2 ≤ 18278 →
  check_workbook (update_sheet i (put_cell k cl ws) (decode false sw)) = Return tt.
Proof.
  intros Hg Hi Hk. pose proof (check_workbook_loaded false sw Hg) as Hwb.
  apply check_workbook_update; [done|].
  eapply check_worksheet_cells; [by eapply check_workbook_lookup|done|].
  intros k' Hs. unfold put_cell in Hs. simpl in Hs.
  destruct (decide (k' = k)) as [->|Hne]; [by right|].
  rewrite lookup_insert_ne in Hs by done. by left.
Qed.

Lemma store_reloaded c : store_cell (reloaded c) = store_cell c.
Proof.
  unfold reloaded, store_cell, load_cell. destruct c as [v t f fl nf]; simpl.
  destruct t, v; reflexivity.
Qed.

Lemma written_reloaded c : written (reloaded c) = written c.
Proof.
  unfold reloaded, written, has_style, store_cell, load_cell.
  destruct c as [v t f fl nf]; simpl. destruct t, v; reflexivity.
Qed.

Lemma store_format_reloaded fo fi o c :
  store_cell (apply_format fo fi o (reloaded c)) = store_cell (apply_format fo fi o c).
Proof.
  unfold reloaded, store_cell, load_cell, apply_format.
  destruct c as [v t f fl nf]; simpl.
  destruct t, v, fo, fi; simpl; destruct (truthy_str _); reflexivity.
Qed.

Lemma written_format_reloaded fo fi o c :
  written (apply_format fo fi o (reloaded c)) = written (apply_format fo fi o c).
Proof.
  unfold reloaded, written, has_style, store_cell, load_cell, apply_format.
  destruct c as [v t f fl nf]; simpl.
  destruct t, v, fo, fi; simpl; destruct (truthy_str _); reflexivity.
Qed.

Lemma written_format_new fo fi o c :
  written (apply_format fo fi o c) = false →
  written (apply_format fo fi o new_cell) = false.
Proof.
  unfold written, has_style, apply_format.
  destruct c as [v t f fl nf]; simpl.
  destruct fo, fi; simpl; destruct (truthy_str _); simpl;
    destruct (is_None v); simpl; try done;
    repeat match goal with
      | |- context [bool_decide ?P] => destruct (bool_decide P)
      | |- context [String.eqb ?a ?b] => destruct (String.eqb a b)
      end; simpl; done.
Qed.

Lemma store_load_store ws :
  store_worksheet (load_worksheet false (store_worksheet ws)) = store_worksheet ws.
Proof.
  unfold store_worksheet at 1 3. f_equal; [|apply store_load_charts].
  apply map_eq. intros k. rewrite !lookup_fmap, !map_lookup_filter, lookup_reload.
  destruct (_cells ws !! k) as [c|]; simpl; [|done].
  pose proof (written_reloaded c) as Hw. fold (reloaded c).
  destruct (written c) eqn:E; simpl; [|done].
  case_guard as Hg; simpl.
  - by rewrite store_reloaded.
  - by rewrite Hw in Hg.
Qed.

Lemma max_row_ge_1 ws : (∀ k, is_Some (_cells ws !! k) → 1 ≤ k.1) → 1 ≤ max_row ws.
Proof.
  intros Hw. apply max_of_ge_1. intros y Hy.
  apply list_elem_of_fmap in Hy as (k & -> & Hk).
  apply list_elem_of_fmap in Hk as ([k' c] & -> & Hkc).
  apply elem_of_map_to_list' in Hkc. simpl in *. apply (Hw k'). by exists c.
Qed.

Lemma max_column_ge_1 ws : (∀ k, is_Some (_cells ws !! k) → 1 ≤ k.2) → 1 ≤ max_column ws.
Proof.
  intros Hw. apply max_of_ge_1. intros y Hy.
  apply list_elem_of_fmap in Hy as (k & -> & Hk).
  apply list_elem_of_fmap in Hk as ([k' c] & -> & Hkc).
  apply elem_of_map_to_list' in Hkc. simpl in *. apply (Hw k'). by exists c.
Qed.

Lemma or_default_le x a b : (or_default x a = a → b ≤ a) → or_default x b ≤ or_default x a.
Proof.
  unfold or_default. destruct x as [n|]; [|auto]. destruct (n =? 0); [auto|lia].
Qed.

(** The rectangle of a reference does not grow when the sheet is formatted
    over it, saved and loaded again. *)
Lemma rect_shrinks b ws0 ws1 :
  (∀ k, is_Some (_cells ws0 !! k) → 1 ≤ k.1 ∧ 1 ≤ k.2) →
  (∀ k, is_Some (_cells ws1 !! k) →
        in_rect (rect_of b (max_row ws0) (max_column ws0)) k ∨ is_Some (_cells ws0 !! k)) →
  ∀ k, in_rect (rect_of b (max_row ws1) (max_column ws1)) k →
       in_rect (rect_of b (max_row ws0) (max_column ws0)) k.
Proof.
  intros Hw Hkeys k. destruct b as [[[a r] c] d]. unfold rect_of.
  rewrite !in_rect_spec. intros [Hr Hc].
  assert (or_default d (max_row ws1) ≤ or_default d (max_row ws0)).
  { apply or_default_le. intros Heq. apply max_row_le.
    - apply max_row_ge_1. intros k' Hk'. by apply Hw.
    - intros k' Hk'. destruct (Hkeys k' Hk') as [Hin|Hin].
      + unfold rect_of in Hin. apply in_rect_spec in Hin. lia.
      + by apply max_row_ge. }
  assert (or_default c (max_column ws1) ≤ or_default c (max_column ws0)).
  { apply or_default_le. intros Heq. apply max_column_le.
    - apply max_column_ge_1. intros k' Hk'. by apply Hw.
    - intros k' Hk'. destruct (Hkeys k' Hk') as [Hin|Hin].
      + unfold rect_of in Hin. apply in_rect_spec in Hin. lia.
      + by apply max_column_ge. }
  lia.
Qed.

Lemma lookup_stored ws k :
  s_cells (store_worksheet ws) !! k
  = match _cells ws !! k with
    | Some c => if written c then Some (store_cell c) else None
    | None => None
    end.
Proof.
  unfold store_worksheet. simpl. rewrite lookup_fmap, map_lookup_filter.
  destruct (_cells ws !! k) as [c|]; simpl; [|done].
  case_guard as Hw; simpl.
  - apply Is_true_true in Hw. by rewrite Hw.
  - apply Is_true_false in Hw. by rewrite Hw.
Qed.

Lemma reformat_stored key fo fi o ws0 ws0' ws1' :
  (∀ k, is_Some (_cells ws0 !! k) → 1 ≤ k.1 ∧ 1 ≤ k.2) →
  format_range key fo fi o ws0 = Return ws0' →
  format_range key fo fi o (load_worksheet false (store_worksheet ws0')) = Return ws1' →
  store_worksheet ws1' = store_worksheet ws0'.
Proof.
  intros Hw H0 H1.
  apply format_range_spec in H0 as (b & Hb & Ht0 & Hc0 & _ & Hl0).
  apply format_range_spec in H1 as (b' & Hb' & Ht1 & Hc1 & _ & Hl1).
  rewrite Hb in Hb'. injection Hb' as <-.
  set (ws1 := load_worksheet false (store_worksheet ws0')) in *.
  assert (Hmono : ∀ k, in_rect (rect_of b (max_row ws1) (max_column ws1)) k →
                       in_rect (rect_of b (max_row ws0) (max_column ws0)) k).
  { apply rect_shrinks; [done|]. intros k [c Hk]. unfold ws1 in Hk.
    rewrite lookup_reload, Hl0 in Hk.
    destruct (in_rect (rect_of b (max_row ws0) (max_column ws0)) k); [by left|].
    right. destruct (_cells ws0 !! k); [by eexists|done]. }
  unfold store_worksheet at 1 2.
  f_equal; [by rewrite Ht1|fold (store_worksheet ws1')
           |rewrite Hc1, Hc0; unfold ws1; cbn [_charts load_worksheet store_worksheet s_charts];
            rewrite store_load_charts, Hc0; done].
  fold (store_worksheet ws0').
  assert (Heq : ∀ k, s_cells (store_worksheet ws1') !! k = s_cells (store_worksheet ws0') !! k).
  { intros k. rewrite !lookup_stored, Hl1.
    assert (Hc1k : cell_at ws1 k
                   = match _cells ws0' !! k with
                     | Some c => if written c then reloaded c else new_cell
                     | None => new_cell
                     end).
    { unfold cell_at, ws1. rewrite lookup_reload.
      destruct (_cells ws0' !! k) as [c|]; [|done]. by destruct (written c). }
    destruct (in_rect (rect_of b (max_row ws1) (max_column ws1)) k) eqn:E1.
    - assert (E0 : in_rect (rect_of b (max_row ws0) (max_column ws0)) k = true).
      { apply Is_true_true, Hmono. by rewrite E1. }
      rewrite Hc1k, Hl0, E0.
      destruct (written (apply_format fo fi o (cell_at ws0 k))) eqn:Ew.
      + rewrite written_format_reloaded, apply_format_idemp, Ew.
        by rewrite store_format_reloaded, apply_format_idemp.
      + by rewrite (written_format_new _ _ _ _ Ew).
    - unfold ws1. rewrite lookup_reload.
      destruct (_cells ws0' !! k) as [c|]; [|done].
      destruct (written c) eqn:Ew; [|done]. fold (reloaded c).
      by rewrite written_reloaded, Ew, store_reloaded. }
  unfold store_worksheet in Heq. simpl in Heq. by apply map_eq.
Qed.

Lemma encode_update_reload i ws1' ws0' wb :
  _sheets wb !! i = Some ws0' →
  store_worksheet ws1' = store_worksheet ws0' →
  encode (update_sheet i ws1' (decode false (encode wb))) = encode wb.
Proof.
  intros Hi Heq. unfold encode, update_sheet, decode. simpl. f_equal.
  rewrite list_fmap_insert, <- !list_fmap_compose.
  rewrite (list_fmap_ext _ store_worksheet (_sheets wb)).
  2:{ intros j ws _. simpl. apply store_load_store. }
  rewrite Heq. apply list_insert_id. by rewrite list_lookup_fmap, Hi.
Qed.

Lemma load_worksheet_keys b sws k :
  is_Some (_cells (load_worksheet b sws) !! k) ↔ is_Some (s_cells sws !! k).
Proof.
  unfold load_worksheet. simpl. rewrite lookup_fmap. by rewrite fmap_is_Some.
Qed.

(** Formatting the range again does not take the sheet out of the
    columns of the file format. *)
Lemma reformat_checked key fo fi o ws0 ws0' ws1' :
  (∀ k, is_Some (_cells ws0 !! k) → 1 ≤ k.1 ∧ 1 ≤ k.2) →
  format_range key fo fi o ws0 = Return ws0' →
  format_range key fo fi o (load_worksheet false (store_worksheet ws0')) = Return ws1' →
  check_worksheet ws0' = Return tt → check_worksheet ws1' = Return tt.
Proof.
  intros Hw H0 H1 Hc.
  apply format_range_spec in H0 as (b & Hb & Ht0 & Hc0 & _ & Hl0).
  apply format_range_spec in H1 as (b' & Hb' & Ht1 & Hc1 & _ & Hl1).
  rewrite Hb in Hb'. injection Hb' as <-.
  set (ws1 := load_worksheet false (store_worksheet ws0')) in *.
  assert (Hmono : ∀ k, in_rect (rect_of b (max_row ws1) (max_column ws1)) k →
                       in_rect (rect_of b (max_row ws0) (max_column ws0)) k).
  { apply rect_shrinks; [done|]. intros k [c Hk]. unfold ws1 in Hk.
    rewrite lookup_reload, Hl0 in Hk.
    destruct (in_rect (rect_of b (max_row ws0) (max_column ws0)) k); [by left|].
    right. destruct (_cells ws0 !! k); [by eexists|done]. }
  apply check_worksheet_Return in Hc as [Hg _]. apply check_worksheet_Return. split.
  - intros k Hk. apply Hg. rewrite Hl1 in Hk. rewrite Hl0.
    destruct (in_rect (rect_of b (max_row ws1) (max_column ws1)) k) eqn:E1.
    + assert (E0 : in_rect (rect_of b (max_row ws0) (max_column ws0)) k = true).
      { apply Is_true_true, Hmono. by rewrite E1. }
      rewrite E0. by eexists.
    + unfold ws1 in Hk. rewrite lookup_reload in Hk. rewrite Hl0 in Hk.
      destruct (in_rect (rect_of b (max_row ws0) (max_column ws0)) k); [by eexists|].
      destruct (_cells ws0 !! k); [by eexists|]. by destruct Hk.
  - unfold anchors_accepted. rewrite Hc1. apply anchors_accepted_loaded.
Qed.

(** A workbook that the writer accepted is accepted again after it was
    loaded. *)
Lemma check_workbook_reloaded wb :
  check_workbook wb = Return tt → check_workbook (decode false (encode wb)) = Return tt.
Proof.
  intros H. apply check_workbook_loaded. intros sws k Hin Hk.
  unfold encode in Hin. simpl in Hin. apply list_elem_of_fmap in Hin as (ws & -> & Hin).
  apply list_elem_of_lookup in Hin as [i Hi].
  pose proof (check_workbook_lookup _ _ _ H Hi) as Hc.
  apply check_worksheet_Return in Hc as [Hg _]. apply Hg.
  rewrite lookup_stored in Hk. destruct (_cells ws !! k); [by eexists|]. by destruct Hk.
Qed.

Lemma format_cells_on_corrupt p s key o d r d' :
  d !! p = Some Corrupt → format_cells p s key o d = (Return r, d') → d' = d.
Proof.
  intros Hd H. destruct (format_cells_cases p s key o d) as (r0 & d0 & H0 & Hr).
  rewrite H in H0. injection H0 as <- <-.
  destruct Hr as [[_ ->]|(sw & ? & ? & ? & ? & ? & Hd' & _)]; [done|congruence].
Qed.

(** C9: on a disk whose cells have rows and columns from 1, calling
    [format_cells] a second time with the same arguments leaves the disk
    as the first call left it. *)
Theorem format_cells_idempotent p s key o d r1 d1 r2 d2 :
  coords_from_one d →
  format_cells p s key o d = (Return r1, d1) →
  format_cells p s key o d1 = (Return r2, d2) →
  d2 = d1.
Proof.
  intros Hw H1 H2.
  destruct (format_cells_cases p s key o d) as (r & d' & H & Hr).
  rewrite H1 in H. injection H as <- <-.
  destruct Hr as [[_ ->]|(sw & i & ws0 & fo & fi & ws0' & Hd & Hf & Hreq & Hfo & Hfi
                          & Hfmt & Hr)].
  { rewrite H1 in H2. by injection H2 as _ <-. }
  destruct Hr as [(Hs1 & Hc1 & ->)|(_ & _ & ->)].
  2:{ eapply format_cells_on_corrupt; [|exact H2]. apply lookup_insert_eq. }
  destruct (format_cells_cases p s key o
              (<[p := Encoded (encode (update_sheet i ws0' (decode false sw)))]> d))
    as (r & d' & H & Hr).
  rewrite H2 in H. injection H as <- <-.
  destruct Hr as [[_ ->]|(sw1 & i1 & ws1 & fo1 & fi1 & ws1' & Hd1 & _ & Hreq1 & Hfo1 & Hfi1
                          & Hfmt1 & Hr)]; [done|].
  rewrite lookup_insert_eq in Hd1. injection Hd1 as <-.
  rewrite Hfo in Hfo1. injection Hfo1 as <-. rewrite Hfi in Hfi1. injection Hfi1 as <-.
  apply require_sheet_Return in Hreq, Hreq1.
  destruct (wb_getitem_title _ _ _ _ Hreq) as [Ht Hi].
  destruct (format_range_spec _ _ _ _ _ _ Hfmt) as (_ & _ & Ht' & _).
  rewrite wb_getitem_reload in Hreq1.
  erewrite wb_getitem_update in Hreq1; [|done|congruence].
  simpl in Hreq1. injection Hreq1 as <- <-.
  assert (Hcells : ∀ k, is_Some (_cells ws0 !! k) → 1 ≤ k.1 ∧ 1 ≤ k.2).
  { intros k Hk. apply wb_getitem_title in Hreq as [_ Hreq].
    unfold decode in Hreq. simpl in Hreq. rewrite list_lookup_fmap in Hreq.
    destruct (s_sheets sw !! i) as [sws|] eqn:E; [|done]. injection Hreq as <-.
    apply load_worksheet_keys in Hk. eapply Hw; [done| |done].
    by eapply list_elem_of_lookup_2. }
  assert (Hi' : _sheets (update_sheet i ws0' (decode false sw)) !! i = Some ws0').
  { unfold update_sheet. simpl. apply list_lookup_insert_eq. by eapply lookup_lt_Some. }
  destruct Hr as [(_ & _ & ->)|(_ & [e He] & _)].
  - rewrite insert_insert_eq. f_equal. f_equal.
    apply (encode_update_reload i ws1' ws0'); [done|].
    by eapply reformat_stored.
  - exfalso.
    rewrite check_workbook_update in He; [done|by apply check_workbook_reloaded|].
    eapply reformat_checked; [done|done|done|].
    by eapply check_workbook_lookup.
Qed.

Lemma coords_from_one_book_disk : coords_from_one book_disk.
Proof.
  intros p sw sws k H Hin [x Hk]. unfold book_disk in H.
  apply lookup_singleton_Some in H as [_ [= <-]]. simpl in Hin.
  apply list_elem_of_singleton in Hin as ->.
  unfold sheet_S in Hk. cbn [s_cells] in Hk.
  apply elem_of_list_to_map_2, list_elem_of_In in Hk. simpl in Hk.
  destruct Hk as [E|[E|[E|[E|[E|[E|[]]]]]]]; injection E as <- _; simpl; lia.
Qed.

Lemma format_cells_idempotent_witness :
  (format_cells "book.xlsx" "S" "A1:A1" bold_only after_bold.2).2 = after_bold.2.
Proof.
  eapply (format_cells_idempotent "book.xlsx" "S" "A1:A1" bold_only book_disk
            after_bold.1 after_bold.2).
  - apply coords_from_one_book_disk.
  - vm_compute. reflexivity.
  - vm_compute. reflexivity.
Defined.

(** * Further properties of the operations *)

(** ** Files and sheets that are missing, extensions that are refused *)

Section Errors.
Variable avoid_duplicate_name : list string → string → string.
Variable chart_series : string → outcome (list string).

Lemma exists_missing p (d : disk) : d !! p = None → bool_decide (is_Some (d !! p)) = false.
Proof. intros ->. apply bool_decide_eq_false. by intros [? ?]. Qed.

Lemma exists_present p (d : disk) x : d !! p = Some x → bool_decide (is_Some (d !! p)) = true.
Proof. intros ->. apply bool_decide_eq_true. by eexists. Qed.

(** X1: every operation but the write, called on a path that does not
    exist, returns a failure with the error "File not found: <path>" and
    leaves the disk as it was. *)
Theorem missing_file_is_reported op d :
  d !! file_path_of op = None → is_write op = false →
  ∃ r, call avoid_duplicate_name chart_series op d = (Return r, d)
       ∧ dict_get "success" r = Some (PBool false)
       ∧ dict_get "error" r = Some (PStr ("File not found: " ++ file_path_of op)).
Proof.
  intros Hd Hw. destruct op; try done; simpl in Hd; simpl;
    unfold read_excel_file, get_worksheet_info, add_worksheet, update_cell,
      apply_formula, format_cells, create_chart, try_except, bind, os_path_exists;
    rewrite (exists_missing _ _ Hd); cbn [negb]; eexists; (split; [reflexivity|]);
    split; reflexivity.
Qed.

Lemma require_sheet_found s wb :
  s ∈ sheetnames wb → ∃ i ws, require_sheet s wb = Return (i, ws).
Proof.
  intros Hs. unfold require_sheet. rewrite bool_decide_true by done. cbn [negb].
  unfold wb_getitem. destruct (list_find _ (_sheets wb)) as [[i ws]|] eqn:E; [by eauto|].
  exfalso. apply list_find_None in E. unfold sheetnames in Hs.
  apply list_elem_of_fmap in Hs as (ws & -> & Hin). rewrite Forall_forall in E.
  by apply (E ws Hin).
Qed.

Lemma require_sheet_missing s wb :
  s ∉ sheetnames wb →
  require_sheet s wb = Raise (Exn ValueError ("Worksheet '" ++ s ++ "' not found")).
Proof. intros Hs. unfold require_sheet. by rewrite bool_decide_false. Qed.

Lemma load_run p b (d : disk) sw :
  d !! p = Some (Encoded sw) → file_format p ∈ SUPPORTED_FORMATS →
  load_workbook p b d = (Return (decode b sw), d).
Proof.
  intros Hd Hf. unfold load_workbook. rewrite bool_decide_true by done.
  cbn [negb]. by rewrite Hd.
Qed.

(** X3: on a workbook that loads, an operation that is given the name of
    a sheet the workbook does not have (a read with a name, [update_cell],
    [apply_formula], [format_cells], and [create_chart] with a supported
    chart type) returns a failure with the error "Worksheet '<name>' not
    found" and leaves the disk as it was. *)
Theorem missing_sheet_is_reported p s d sw :
  d !! p = Some (Encoded sw) → file_format p ∈ SUPPORTED_FORMATS →
  s ∉ s_title <$> s_sheets sw →
  (∀ cr, s ≠ "" →
     read_excel_file p (Some s) cr d
     = (Return [("success", PBool false);
                ("error", PStr ("Worksheet '" ++ s ++ "' not found"));
                ("data", PList [])], d))
  ∧ (∀ c v, update_cell p s c v d
            = (Return (failure_record ("Worksheet '" ++ s ++ "' not found")), d))
  ∧ (∀ c f, apply_formula p s c f d
            = (Return (failure_record ("Worksheet '" ++ s ++ "' not found")), d))
  ∧ (∀ key o, format_cells p s key o d
              = (Return (failure_record ("Worksheet '" ++ s ++ "' not found")), d))
  ∧ (∀ key t ti po, t ∈ chart_types →
       create_chart chart_series p s key t ti po d
       = (Return (failure_record ("Worksheet '" ++ s ++ "' not found")), d)).
Proof.
  intros Hd Hf Hs.
  assert (Hn : ∀ b, s ∉ sheetnames (decode b sw)).
  { intros b. by rewrite sheetnames_decode. }
  split_and!.
  - intros cr Hne. unfold read_excel_file, try_except, bind, os_path_exists.
    rewrite (exists_present _ _ _ Hd). cbn [negb]. rewrite (load_run _ _ _ _ Hd Hf).
    unfold lift, select_sheet.
    assert (Ht : truthy_str (Some s) = true) by by destruct s.
    rewrite Ht. change (default "" (Some s)) with s.
    rewrite bool_decide_false by apply Hn. reflexivity.
  - intros c v. unfold update_cell, try_except, bind, os_path_exists.
    rewrite (exists_present _ _ _ Hd). cbn [negb]. rewrite (load_run _ _ _ _ Hd Hf).
    unfold lift. rewrite require_sheet_missing by apply Hn. reflexivity.
  - intros c f. unfold apply_formula, try_except, bind, os_path_exists.
    rewrite (exists_present _ _ _ Hd). cbn [negb]. rewrite (load_run _ _ _ _ Hd Hf).
    unfold lift. rewrite require_sheet_missing by apply Hn. reflexivity.
  - intros key o. unfold format_cells, try_except, bind, os_path_exists.
    rewrite (exists_present _ _ _ Hd). cbn [negb]. rewrite (load_run _ _ _ _ Hd Hf).
    unfold lift. rewrite require_sheet_missing by apply Hn. reflexivity.
  - intros key t ti po Ht. unfold create_chart, try_except, bind, os_path_exists.
    rewrite (exists_present _ _ _ Hd). cbn [negb].
    rewrite bool_decide_true by done. cbn [negb].
    rewrite (load_run _ _ _ _ Hd Hf).
    unfold lift. rewrite require_sheet_missing by apply Hn. reflexivity.
Qed.

Lemma load_unsupported p b (d : disk) :
  file_format p ∉ SUPPORTED_FORMATS →
  load_workbook p b d
  = (Raise (Exn InvalidFileException "openpyxl does not support this file format"), d).
Proof. intros Hf. unfold load_workbook. by rewrite bool_decide_false. Qed.

(** X4: on a path that exists and whose extension is not one of .xlsx,
    .xlsm, .xltx and .xltm, every operation fails and leaves the disk as it
    was, the write included: such a file cannot be opened again. *)
Theorem unsupported_extension_is_refused op d :
  is_Some (d !! file_path_of op) → file_format (file_path_of op) ∉ SUPPORTED_FORMATS →
  ∃ r, call avoid_duplicate_name chart_series op d = (Return r, d) ∧ failed r.
Proof.
  intros [x Hd] Hf. destruct op; simpl in Hd, Hf; simpl.
  - unfold read_excel_file, try_except, bind, os_path_exists.
    rewrite (exists_present _ _ _ Hd). cbn [negb]. rewrite load_unsupported by done.
    apply read_failure_failed.
  - destruct data as [|row data]; [apply failure_failed|].
    unfold write_excel_file, try_except, bind, os_path_exists.
    rewrite (exists_present _ _ _ Hd). rewrite load_unsupported by done.
    apply failure_failed.
  - unfold get_worksheet_info, try_except, bind, os_path_exists.
    rewrite (exists_present _ _ _ Hd). cbn [negb]. rewrite load_unsupported by done.
    apply failure_failed.
  - unfold add_worksheet, try_except, bind, os_path_exists.
    rewrite (exists_present _ _ _ Hd). cbn [negb]. rewrite load_unsupported by done.
    apply failure_failed.
  - unfold update_cell, try_except, bind, os_path_exists.
    rewrite (exists_present _ _ _ Hd). cbn [negb]. rewrite load_unsupported by done.
    apply failure_failed.
  - unfold apply_formula, try_except, bind, os_path_exists.
    rewrite (exists_present _ _ _ Hd). cbn [negb]. rewrite load_unsupported by done.
    apply failure_failed.
  - unfold format_cells, try_except, bind, os_path_exists.
    rewrite (exists_present _ _ _ Hd). cbn [negb]. rewrite load_unsupported by done.
    apply failure_failed.
  - unfold create_chart, try_except, bind, os_path_exists.
    rewrite (exists_present _ _ _ Hd). cbn [negb].
    case_bool_decide; cbn [negb]; [|apply failure_failed].
    rewrite load_unsupported by done. apply failure_failed.
Qed.

End Errors.

Section ServerTools.
Variable avoid_duplicate_name : list string → string → string.
Variable chart_series : string → outcome (list string).

Lemma logged_Return (m : M record) d r d' :
  m d = (Return r, d') → server.logged m d = (Return r, d').
Proof. unfold server.logged, try_except. by intros ->. Qed.

(** X5: a tool of the server returns what the call of the library returns:
    a record, of a success or of a failure.  The [except] branch of a
    tool, which raises again, is never taken.  After a failure the disk is
    as it was, or, when it was the save that failed, the file of the call
    holds no workbook any more and the rest of the disk is as it was. *)
Theorem server_tools_never_raise op d :
  server.call avoid_duplicate_name chart_series op d
  = call avoid_duplicate_name chart_series op d
  ∧ ∃ r d', server.call avoid_duplicate_name chart_series op d = (Return r, d')
            ∧ (succeeded r
               ∨ (failed r ∧ (d' = d ∨ d' = <[file_path_of op := Corrupt]> d))).
Proof.
  destruct (call_outcome avoid_duplicate_name chart_series op d) as (r & d' & H & Hr).
  assert (Heq : server.call avoid_duplicate_name chart_series op d
                = call avoid_duplicate_name chart_series op d).
  { rewrite H. destruct op; simpl in *; by apply logged_Return. }
  split; [done|]. exists r, d'. by rewrite Heq.
Qed.

End ServerTools.

Lemma ws_setitem_Return key v ws ws' :
  ws_setitem key v ws = Return ws' →
  contains_char ":" key = false
  ∧ ∃ r c mc mr cl,
      range_boundaries key = Return (Some c, Some r, mc, mr)
      ∧ valid_row r = true
      ∧ set_value v (cell_at ws (r, c)) = Return cl
      ∧ ws' = put_cell (r, c) cl ws.
Proof.
  unfold ws_setitem, ws_getitem.
  destruct (range_boundaries key) as [[[[a b] c] d]|e] eqn:Hb; simpl; [|done].
  destruct (_ && _); [done|].
  destruct b as [r|].
  - destruct a as [cc|].
    + destruct (contains_char ":" key) eqn:Hc; simpl.
      * destruct (iter_rows _ _ _ _ ws) as [[w rows]|]; simpl; done.
      * unfold _get_cell. fold (valid_row r).
        destruct (valid_row r) eqn:Hv; simpl; [|done].
        rewrite cell_at_touched.
        destruct (set_value v (cell_at ws (r, cc))) as [cl|] eqn:Hs; simpl; [|done].
        intros [= <-]. split; [done|]. exists r, cc, c, d, cl.
        split_and!; try done. unfold put_cell. simpl. f_equal.
        by rewrite insert_insert_eq.
    + destruct (iter_rows _ _ _ _ ws) as [[w rows]|]; simpl; [|done].
      case_bool_decide; [|done]. by destruct rows.
  - destruct (iter_cols _ _ _ _ ws) as [[w cols]|]; simpl; [|done].
    case_bool_decide; [|done]. by destruct cols.
Qed.

Lemma update_cell_inv p s key v d r d' :
  update_cell p s key v d = (Return r, d') → succeeded r →
  ∃ sw i ws ws',
    d !! p = Some (Encoded sw) ∧ file_format p ∈ SUPPORTED_FORMATS
    ∧ require_sheet s (decode false sw) = Return (i, ws)
    ∧ ws_setitem key v ws = Return ws'
    ∧ d' = <[p := Encoded (encode (update_sheet i ws' (decode false sw)))]> d.
Proof.
  unfold update_cell. intros H Hs. apply try_except_succeeded in H; [|done].
  invert_run. do 4 eexists. split_and!; done.
Qed.

Lemma apply_formula_inv p s key f d r d' :
  apply_formula p s key f d = (Return r, d') → succeeded r →
  ∃ sw i ws ws',
    d !! p = Some (Encoded sw) ∧ file_format p ∈ SUPPORTED_FORMATS
    ∧ require_sheet s (decode false sw) = Return (i, ws)
    ∧ ws_setitem key (PStr (with_equals f)) ws = Return ws'
    ∧ d' = <[p := Encoded (encode (update_sheet i ws' (decode false sw)))]> d.
Proof.
  unfold apply_formula. intros H Hs. apply try_except_succeeded in H; [|done].
  invert_run. do 4 eexists. split_and!; done.
Qed.

(** ** What the operations on cells, formats, charts and sheets change *)

Lemma cell_at_reload ws k :
  cell_at (load_worksheet false (store_worksheet ws)) k = saved (cell_at ws k).
Proof.
  unfold cell_at at 1. rewrite lookup_reload. unfold cell_at, saved.
  destruct (_cells ws !! k) as [c|]; simpl; [|done]. by destruct (written c).
Qed.

Lemma saved_loaded sc : saved (load_cell false sc) = load_cell false sc.
Proof.
  unfold saved, written, reloaded, load_cell, store_cell, has_style.
  destruct sc as [[v|t c] f fl nf]; simpl.
  - destruct v; simpl; try done.
    destruct (bool_decide (f = DEFAULT_FONT)) eqn:Ef; simpl; [|done].
    destruct (bool_decide (fl = DEFAULT_EMPTY_FILL)) eqn:Efl; simpl; [|done].
    destruct (String.eqb nf General) eqn:En; simpl; [|done].
    apply bool_decide_eq_true in Ef, Efl. apply String.eqb_eq in En. by subst.
  - done.
Qed.

Lemma cell_at_loaded sws k :
  ∃ sc, cell_at (load_worksheet false sws) k = load_cell false sc.
Proof.
  unfold cell_at, load_worksheet. simpl. rewrite lookup_fmap.
  destruct (s_cells sws !! k) as [sc|]; simpl; [by eexists|].
  by exists (plain_cell PNone).
Qed.

Lemma saved_cell_at_loaded sws k :
  saved (cell_at (load_worksheet false sws) k) = cell_at (load_worksheet false sws) k.
Proof. destruct (cell_at_loaded sws k) as [sc ->]. apply saved_loaded. Qed.

Lemma check_string_Return s s' : check_string s = Return s' → s' = stake 32767 s.
Proof. unfold check_string. destruct (sany _ _); [done|]. by intros [= <-]. Qed.

Lemma prefix_eq_cons s : String.prefix "=" s = true → ∃ t, s = String "=" t.
Proof.
  destruct s as [|a s]; [intros H; cbv in H; done|].
  change (String.prefix "=" (String a s))
    with (if ascii_dec "=" a then String.prefix "" s else false).
  destruct (ascii_dec "=" a) as [<-|]; [|done]. intros _. by eexists.
Qed.

Lemma saved_set_value v sc cl :
  set_value v (load_cell false sc) = Return cl → saved cl = cl.
Proof.
  destruct v; simpl.
  - intros [= <-]. unfold saved, written, reloaded, load_cell, store_cell, has_style.
    destruct sc as [[v|t c] f fl nf]; simpl.
    + destruct (bool_decide (f = DEFAULT_FONT)) eqn:Ef; simpl; [|done].
      destruct (bool_decide (fl = DEFAULT_EMPTY_FILL)) eqn:Efl; simpl; [|done].
      destruct (String.eqb nf General) eqn:En; simpl; [|done].
      apply bool_decide_eq_true in Ef, Efl. apply String.eqb_eq in En. by subst.
    + destruct (bool_decide (f = DEFAULT_FONT)) eqn:Ef; simpl; [|done].
      destruct (bool_decide (fl = DEFAULT_EMPTY_FILL)) eqn:Efl; simpl; [|done].
      destruct (String.eqb nf General) eqn:En; simpl; [|done].
      apply bool_decide_eq_true in Ef, Efl. apply String.eqb_eq in En. by subst.
  - intros [= <-]. unfold saved, written, reloaded, load_cell, store_cell.
    by destruct sc as [[v|t c] f fl nf].
  - intros [= <-]. unfold saved, written, reloaded, load_cell, store_cell.
    by destruct sc as [[v|t c] f fl nf].
  - destruct (check_string s) as [s'|]; simpl; [|done]. intros [= <-].
    unfold saved, written, reloaded, load_cell, store_cell. simpl.
    destruct ((1 <? slen s') && String.prefix "=" s') eqn:E; simpl.
    + apply andb_true_iff in E as [_ E]. apply prefix_eq_cons in E as [t ->].
      by destruct sc as [[v|t' c] f fl nf].
    + by destruct sc as [[v|t' c] f fl nf].
  - done.
  - done.
Qed.

Lemma list_find_insert_other {A} (P : A → Prop) `{∀ x, Decision (P x)} (l : list A) i x y :
  l !! i = Some x → ¬ P x → ¬ P y → list_find P (<[i := y]> l) = list_find P l.
Proof.
  revert i. induction l as [|a l IH]; intros [|i] Hi Hx Hy; simpl in *; try done.
  - injection Hi as ->. rewrite !decide_False by done. done.
  - destruct (decide (P a)); [done|]. by rewrite (IH i).
Qed.

Lemma wb_getitem_update_other t wb i ws ws' :
  _sheets wb !! i = Some ws → title ws ≠ t → title ws' ≠ t →
  wb_getitem t (update_sheet i ws' wb) = wb_getitem t wb.
Proof.
  intros Hi H1 H2. unfold wb_getitem, update_sheet. simpl.
  by eapply list_find_insert_other.
Qed.

Lemma sheet_on_disk_loaded (d : disk) p s sw i ws :
  d !! p = Some (Encoded sw) → wb_getitem s (decode false sw) = Some (i, ws) →
  sheet_on_disk d p s = Some ws ∧ ∃ sws, ws = load_worksheet false sws.
Proof.
  intros Hd Hg. split; [unfold sheet_on_disk; by rewrite Hd, Hg|].
  apply wb_getitem_title in Hg as [_ Hi]. unfold decode in Hi. simpl in Hi.
  rewrite list_lookup_fmap in Hi. destruct (s_sheets sw !! i) as [sws|]; [|done].
  injection Hi as <-. by eexists.
Qed.

(** The sheets of a file after one sheet was changed and the workbook
    saved. *)
Lemma saved_sheet_changed (d : disk) p s sw i ws ws' k :
  wb_getitem s (decode false sw) = Some (i, ws) → title ws' = s →
  cell_on_disk (<[p := Encoded (encode (update_sheet i ws' (decode false sw)))]> d) p s k
  = Some (saved (cell_at ws' k)).
Proof.
  intros Hg Ht. unfold cell_on_disk, sheet_on_disk. rewrite lookup_insert_eq.
  rewrite wb_getitem_reload. erewrite wb_getitem_update; [|done|done]. simpl.
  by rewrite cell_at_reload.
Qed.

Lemma saved_sheet_other (d : disk) p s sw i ws ws' t k :
  d !! p = Some (Encoded sw) →
  wb_getitem s (decode false sw) = Some (i, ws) → title ws' = s → t ≠ s →
  cell_on_disk (<[p := Encoded (encode (update_sheet i ws' (decode false sw)))]> d) p t k
  = cell_on_disk d p t k.
Proof.
  intros Hd Hg Ht Hne. unfold cell_on_disk, sheet_on_disk.
  rewrite lookup_insert_eq, Hd. rewrite wb_getitem_reload.
  destruct (wb_getitem_title _ _ _ _ Hg) as [Hti Hi].
  rewrite (wb_getitem_update_other t _ i ws ws') by congruence.
  destruct (wb_getitem t (decode false sw)) as [[j w]|] eqn:E; simpl; [|done].
  rewrite cell_at_reload. f_equal.
  destruct (sheet_on_disk_loaded d p t sw j w Hd E) as [_ [sws ->]].
  apply saved_cell_at_loaded.
Qed.

Lemma cell_at_data_only ws k :
  cell_at (load_worksheet true (store_worksheet ws)) k
  = if written (cell_at ws k) then load_cell true (store_cell (cell_at ws k))
    else new_cell.
Proof.
  unfold cell_at at 1, load_worksheet. cbn [_cells]. rewrite lookup_fmap, lookup_stored.
  unfold cell_at. destruct (_cells ws !! k) as [c|]; simpl; [|done].
  by destruct (written c).
Qed.

(** The cell of a loaded sheet at a coordinate, from the stored cell. *)
Lemma cell_at_load b sws k :
  cell_at (load_worksheet b sws) k
  = load_cell b (default (plain_cell PNone) (s_cells sws !! k)).
Proof.
  unfold cell_at, load_worksheet. simpl. rewrite lookup_fmap.
  by destruct (s_cells sws !! k) as [sc|].
Qed.

(** A read of a cell that was loaded and saved. *)
Lemma read_saved_loaded sc :
  value (if written (load_cell false sc)
         then load_cell true (store_cell (load_cell false sc)) else new_cell)
  = if bool_decide (cell_type (load_cell false sc) = TYPE_FORMULA) then PNone
    else value (load_cell true sc).
Proof.
  unfold written, load_cell, store_cell.
  destruct sc as [[v|t c] f fl nf]; simpl.
  - rewrite bool_decide_false by by destruct v.
    destruct v; simpl; try done. by destruct (has_style _).
  - done.
Qed.

Lemma sheet_on_disk_stored (d : disk) p t :
  sheet_on_disk d p t = load_worksheet false <$> stored_sheet d p t.
Proof.
  unfold sheet_on_disk, stored_sheet. destruct (d !! p) as [[|sw]|]; try done.
  unfold wb_getitem, decode. cbn [_sheets]. rewrite list_find_fmap.
  destruct (list_find _ (s_sheets sw)) as [[i x]|]; done.
Qed.

Lemma stored_sheet_encode (d : disk) p wb t :
  stored_sheet (<[p := Encoded (encode wb)]> d) p t
  = (λ iw, store_worksheet iw.2) <$> wb_getitem t wb.
Proof.
  unfold stored_sheet. rewrite lookup_insert_eq. unfold encode, wb_getitem.
  cbn [s_sheets]. rewrite list_find_fmap.
  destruct (list_find _ (_sheets wb)) as [[i x]|]; done.
Qed.

(** A sheet of a saved workbook whose cell at a coordinate is the cell the
    load gave: the cell is kept. *)
Lemma cell_kept_saved (d : disk) p wb t k :
  match sheet_on_disk d p t with
  | Some w => ∃ j w', wb_getitem t wb = Some (j, w') ∧ cell_at w' k = cell_at w k
  | None => wb_getitem t wb = None
  end →
  cell_kept d (<[p := Encoded (encode wb)]> d) p t k.
Proof.
  unfold cell_kept, read_after_save, read_on_disk, cell_on_disk.
  rewrite stored_sheet_encode. rewrite !sheet_on_disk_stored.
  rewrite stored_sheet_encode.
  destruct (stored_sheet d p t) as [sws|]; simpl.
  - intros (j & w' & -> & Hk). simpl. rewrite cell_at_reload, cell_at_data_only, Hk.
    rewrite !cell_at_load. rewrite saved_loaded. split; [done|].
    rewrite read_saved_loaded. by case_bool_decide.
  - by intros ->.
Qed.

Lemma cell_kept_update (d : disk) p s sw i ws ws' t k :
  d !! p = Some (Encoded sw) →
  wb_getitem s (decode false sw) = Some (i, ws) → title ws' = s →
  (t = s → cell_at ws' k = cell_at ws k) →
  cell_kept d (<[p := Encoded (encode (update_sheet i ws' (decode false sw)))]> d) p t k.
Proof.
  intros Hd Hg Ht Hk. apply cell_kept_saved.
  unfold sheet_on_disk. rewrite Hd.
  destruct (decide (t = s)) as [->|Hne].
  - rewrite Hg. simpl. exists i, ws'. split; [by eapply wb_getitem_update|by apply Hk].
  - destruct (wb_getitem_title _ _ _ _ Hg) as [Hti Hi].
    rewrite (wb_getitem_update_other t _ i ws ws') by congruence.
    destruct (wb_getitem t (decode false sw)) as [[j w]|]; simpl; [|done]. by eauto.
Qed.

Lemma style_set_value v c cl : set_value v c = Return cl → style cl = style c.
Proof.
  destruct v; simpl; try done; try by intros [= <-].
  destruct (check_string s); simpl; [|done]. by intros [= <-].
Qed.


Lemma stored_sheet_saved (d : disk) p s wb i ws ws' :
  wb_getitem s wb = Some (i, ws) → title ws' = s →
  stored_sheet (<[p := Encoded (encode (update_sheet i ws' wb))]> d) p s
  = Some (store_worksheet ws').
Proof.
  intros Hg Ht. unfold stored_sheet. rewrite lookup_insert_eq.
  unfold encode. cbn [s_sheets]. rewrite list_find_fmap.
  change (list_find _ (_sheets (update_sheet i ws' wb)))
    with (wb_getitem s (update_sheet i ws' wb)).
  by rewrite (wb_getitem_update _ _ _ _ _ Hg Ht).
Qed.

Lemma substring_all n s : (String.length s ≤ n)%nat → String.substring 0 n s = s.
Proof.
  revert n. induction s as [|a s IH]; intros [|n] Hn; simpl in *; try done; try lia.
  f_equal. apply IH. lia.
Qed.

Lemma stake_kept s : kept_text s = true → stake 32767 s = s.
Proof.
  unfold kept_text, stake, slen. intros H.
  apply andb_true_iff in H as [H _]. apply andb_true_iff in H as [H _].
  apply andb_true_iff in H as [_ H%Z.leb_le].
  apply substring_all. apply Nat2Z.inj_le. etrans; [exact H|].
  apply Z.leb_le. by vm_compute.
Qed.

Lemma value_set_value v c cl :
  kept_value v = true → set_value v c = Return cl →
  value (if written cl then load_cell true (store_cell cl) else new_cell) = v.
Proof.
  destruct v; simpl; try done.
  - intros _ [= <-]. unfold written. simpl. by destruct (has_style _).
  - by intros _ [= <-].
  - by intros _ [= <-].
  - intros Hk. destruct (check_string s) as [s'|] eqn:Hs; simpl; [|done].
    apply check_string_Return in Hs as ->. rewrite (stake_kept _ Hk). intros [= <-].
    unfold kept_text in Hk. apply andb_true_iff in Hk as [_ Hp].
    apply negb_true_iff in Hp. rewrite Hp, andb_false_r.
    unfold written, load_cell, store_cell. simpl. done.
Qed.

(** After a successful [update_cell] with a value that a file keeps, a read
    of that cell through a two-corner range returns that value. *)
Lemma read_after_update p s key key2 v d rec d' r c :
  update_cell p s key v d = (Return rec, d') → succeeded rec → s ≠ "" →
  kept_value v = true →
  range_boundaries key = Return (Some c, Some r, Some c, Some r) →
  range_boundaries key2 = Return (Some c, Some r, Some c, Some r) →
  contains_char ":" key2 = true →
  ∃ rec2, read_excel_file p (Some s) (Some key2) d' = (Return rec2, d')
          ∧ succeeded rec2
          ∧ dict_get "data" rec2 = Some (PList [PList [v]]).
Proof.
  intros H Hs Hne Hk Hb Hb2 Hc2.
  apply update_cell_inv in H as (sw & i & ws & ws' & Hd & Hf & Hreq & Hset & ->); [|done].
  apply require_sheet_Return in Hreq.
  destruct (wb_getitem_title _ _ _ _ Hreq) as [Hti _].
  apply ws_setitem_Return in Hset as (Hc & r0 & c0 & mc & mr & cl & Hb' & Hv & Hsv & ->).
  rewrite Hb in Hb'. injection Hb' as <- <- <- <-.
  destruct (range_boundaries_cols _ _ _ _ _ Hb) as [H1 _]. specialize (H1 c eq_refl).
  unfold valid_row in Hv. apply andb_true_iff in Hv as [Hr0%Z.ltb_lt Hr1%Z.ltb_lt].
  destruct (read_two_corner p s key2
              (<[p := Encoded (encode (update_sheet i (put_cell (r, c) cl ws)
                                          (decode false sw)))]> d)
              (store_worksheet (put_cell (r, c) cl ws)) c r c r)
    as (rec2 & Hrun & Hsucc & Hdata); try done; try lia.
  { by eapply stored_sheet_saved. }
  { intros k Hin. apply in_rect_spec in Hin. unfold valid_coord. lia. }
  exists rec2. split; [done|]. split; [done|]. rewrite Hdata.
  unfold row_major. rewrite !zrange_one. simpl.
  rewrite cell_at_data_only.
  assert (Hcl : cell_at (put_cell (r, c) cl ws) (r, c) = cl).
  { unfold cell_at, put_cell. simpl. by rewrite lookup_insert_eq. }
  rewrite Hcl. by rewrite (value_set_value _ _ _ Hk Hsv).
Qed.

(** [ws[key] = v] on a reference of one cell whose value is accepted. *)
Lemma ws_setitem_run key v ws c r mc mr cl :
  contains_char ":" key = false →
  range_boundaries key = Return (Some c, Some r, mc, mr) → 1 ≤ r ≤ 1048576 →
  set_value v (cell_at ws (r, c)) = Return cl →
  ws_setitem key v ws = Return (put_cell (r, c) cl ws).
Proof.
  intros Hc Hb Hr Hs. unfold ws_setitem, ws_getitem. rewrite Hb. cbn [obind].
  destruct (range_boundaries_cols _ _ _ _ _ Hb) as [H1 _]. specialize (H1 c eq_refl).
  rewrite (or_default_nonzero c 0) by lia.
  assert (E : (c =? 0) = false) by lia. rewrite E. cbn [andb]. rewrite Hc. cbn [negb].
  unfold _get_cell. assert (Hv : (0 <? r) && (r <? 1048577) = true) by lia.
  rewrite Hv. cbn [obind]. rewrite cell_at_touched, Hs. cbn [obind].
  unfold put_cell. simpl. by rewrite insert_insert_eq.
Qed.

Lemma kept_text_legal s : kept_text s = true → sany illegal_char s = false.
Proof.
  unfold kept_text. intros H.
  apply andb_true_iff in H as [H _]. apply andb_true_iff in H as [_ H].
  induction s as [|c s IH]; simpl in *; [done|].
  apply andb_true_iff in H as [Hc Hs]. rewrite (IH Hs), orb_false_r.
  unfold illegal_char. lia.
Qed.

Lemma set_value_kept_run v c :
  kept_value v = true → ∃ cl, set_value v c = Return cl.
Proof.
  destruct v; simpl; try done; try by eexists.
  intros Hk. unfold check_string. rewrite (stake_kept _ Hk), (kept_text_legal _ Hk).
  simpl. by eexists.
Qed.

(** The run of [update_cell] on a sheet of the file and a reference of one
    cell whose value is accepted. *)
Lemma update_cell_run p s key v d sw i ws c r mc mr cl :
  d !! p = Some (Encoded sw) → file_format p ∈ SUPPORTED_FORMATS → file_in_grid sw →
  require_sheet s (decode false sw) = Return (i, ws) →
  contains_char ":" key = false →
  range_boundaries key = Return (Some c, Some r, mc, mr) → 1 ≤ r ≤ 1048576 →
  set_value v (cell_at ws (r, c)) = Return cl →
  update_cell p s key v d
  = (Return [("success", PBool true);
             ("file_path", PStr p);
             ("sheet_name", PStr s);
             ("cell", PStr key);
             ("value", v);
             ("message", PStr ("Cell " ++ key ++ " updated successfully"))],
     <[p := Encoded (encode (update_sheet i (put_cell (r, c) cl ws) (decode false sw)))]> d).
Proof.
  intros Hd Hf Hg Hreq Hc Hb Hr Hs.
  unfold update_cell, try_except, bind, os_path_exists.
  rewrite (exists_present _ _ _ Hd). cbn [negb]. rewrite (load_run _ _ _ _ Hd Hf).
  unfold lift. rewrite Hreq. cbn beta iota.
  rewrite (ws_setitem_run _ _ _ _ _ _ _ _ Hc Hb Hr Hs).
  rewrite save_run; [reflexivity|].
  apply require_sheet_Return, wb_getitem_title in Hreq as [_ Hi].
  apply check_workbook_put; [done|done|]. simpl.
  destruct (range_boundaries_cols _ _ _ _ _ Hb) as [H1 _].
  destruct (range_boundaries_cols_le _ _ _ _ _ Hb) as [H2 _].
  specialize (H1 c eq_refl). specialize (H2 c eq_refl). lia.
Qed.


Lemma with_equals_cons f : f ≠ "" → f ≠ "=" → ∃ a g, with_equals f = String "=" (String a g).
Proof.
  intros H1 H2. unfold with_equals. destruct f as [|a f]; [done|].
  change (String.prefix "=" (String a f))
    with (if ascii_dec "=" a then String.prefix "" f else false).
  destruct (ascii_dec "=" a) as [<-|Hne].
  - destruct f as [|b f]; [done|]. simpl. by eauto.
  - simpl. by eauto.
Qed.

Lemma stake_two a b g : ∃ g', stake 32767 (String a (String b g)) = String a (String b g').
Proof.
  unfold stake. assert (H : (2 ≤ 32767)%nat).
  { apply Nat.leb_le. by vm_compute. }
  revert H. generalize 32767%nat. intros [|[|n]] H; [lia|lia|]. simpl. by eexists.
Qed.

Lemma set_value_formula f c cl :
  f ≠ "" → f ≠ "=" → set_value (PStr (with_equals f)) c = Return cl →
  cell_type cl = TYPE_FORMULA ∧ value cl = PStr (stake 32767 (with_equals f))
  ∧ ∃ t, store_cell cl = mkStoredCell (Formula t None) (font c) (fill c) (number_format c).
Proof.
  intros H1 H2. unfold set_value.
  destruct (check_string _) as [s'|] eqn:Hs; cbn [obind]; [|done].
  apply check_string_Return in Hs as ->.
  destruct (with_equals_cons f H1 H2) as (a & g & ->).
  destruct (stake_two "=" a g) as [g' ->]. intros [= <-].
  assert (Hl : (1 <? slen (String "=" (String a g'))) = true).
  { apply Z.ltb_lt. unfold slen. simpl String.length. lia. }
  rewrite Hl.
  cbn [andb cell_type value]. split_and!; [done|done|].
  unfold store_cell. cbn [cell_type value font fill number_format sdrop1]. by eexists.
Qed.

(** After a successful [apply_formula] the cell holds the formula with "="
    in front, as a formula, and a read of that cell returns [None]. *)
Lemma read_after_formula p s key key2 f d rec d' r c :
  apply_formula p s key f d = (Return rec, d') → succeeded rec → s ≠ "" →
  f ≠ "" → f ≠ "=" →
  range_boundaries key = Return (Some c, Some r, Some c, Some r) →
  range_boundaries key2 = Return (Some c, Some r, Some c, Some r) →
  contains_char ":" key2 = true →
  (λ cl, (value cl, cell_type cl)) <$> cell_on_disk d' p s (r, c)
  = Some (PStr (stake 32767 (with_equals f)), TYPE_FORMULA)
  ∧ ∃ rec2, read_excel_file p (Some s) (Some key2) d' = (Return rec2, d')
            ∧ succeeded rec2
            ∧ dict_get "data" rec2 = Some (PList [PList [PNone]]).
Proof.
  intros H Hs Hne Hf1 Hf2 Hb Hb2 Hc2.
  apply apply_formula_inv in H as (sw & i & ws & ws' & Hd & Hf & Hreq & Hset & ->); [|done].
  apply require_sheet_Return in Hreq.
  destruct (wb_getitem_title _ _ _ _ Hreq) as [Hti _].
  destruct (sheet_on_disk_loaded d p s sw i ws Hd Hreq) as [Hon [sws ->]].
  apply ws_setitem_Return in Hset as (Hc & r0 & c0 & mc & mr & cl & Hb' & Hv & Hsv & ->).
  rewrite Hb in Hb'. injection Hb' as <- <- <- <-.
  assert (Hcl : cell_at (put_cell (r, c) cl (load_worksheet false sws)) (r, c) = cl).
  { unfold cell_at, put_cell. simpl. by rewrite lookup_insert_eq. }
  destruct (set_value_formula _ _ _ Hf1 Hf2 Hsv) as (Hty & Hval & t & Hst).
  split.
  - erewrite saved_sheet_changed; [|done|done]. simpl. rewrite Hcl.
    destruct (cell_at_loaded sws (r, c)) as [sc Hsc]. rewrite Hsc in Hsv.
    rewrite (saved_set_value _ _ _ Hsv). by rewrite Hty, Hval.
  - destruct (range_boundaries_cols _ _ _ _ _ Hb) as [H1 _]. specialize (H1 c eq_refl).
    unfold valid_row in Hv. apply andb_true_iff in Hv as [Hr0%Z.ltb_lt Hr1%Z.ltb_lt].
    destruct (read_two_corner p s key2
                (<[p := Encoded (encode (update_sheet i
                             (put_cell (r, c) cl (load_worksheet false sws))
                             (decode false sw)))]> d)
                (store_worksheet (put_cell (r, c) cl (load_worksheet false sws))) c r c r)
      as (rec2 & Hrun & Hsucc & Hdata); try done; try lia.
    { by eapply stored_sheet_saved. }
    { intros k Hin. apply in_rect_spec in Hin. unfold valid_coord. lia. }
    exists rec2. split; [done|]. split; [done|]. rewrite Hdata.
    unfold row_major. rewrite !zrange_one. simpl.
    rewrite cell_at_data_only, Hcl.
    assert (Hw : written cl = true).
    { unfold written. by rewrite Hval. }
    rewrite Hw. unfold load_cell. by rewrite Hst.
Qed.

(** The run of [apply_formula] on a sheet of the file and a reference of
    one cell. *)
Lemma apply_formula_run p s key f d sw i ws c r mc mr cl :
  d !! p = Some (Encoded sw) → file_format p ∈ SUPPORTED_FORMATS → file_in_grid sw →
  require_sheet s (decode false sw) = Return (i, ws) →
  contains_char ":" key = false →
  range_boundaries key = Return (Some c, Some r, mc, mr) → 1 ≤ r ≤ 1048576 →
  set_value (PStr (with_equals f)) (cell_at ws (r, c)) = Return cl →
  apply_formula p s key f d
  = (Return [("success", PBool true);
             ("file_path", PStr p);
             ("sheet_name", PStr s);
             ("cell", PStr key);
             ("formula", PStr (with_equals f));
             ("message", PStr ("Formula applied to cell " ++ key ++ " successfully"))],
     <[p := Encoded (encode (update_sheet i (put_cell (r, c) cl ws) (decode false sw)))]> d).
Proof.
  intros Hd Hf Hg Hreq Hc Hb Hr Hs.
  unfold apply_formula, try_except, bind, os_path_exists.
  rewrite (exists_present _ _ _ Hd). cbn [negb]. rewrite (load_run _ _ _ _ Hd Hf).
  unfold lift. rewrite Hreq. cbn beta iota. fold (with_equals f).
  rewrite (ws_setitem_run _ _ _ _ _ _ _ _ Hc Hb Hr Hs).
  rewrite save_run; [reflexivity|].
  apply require_sheet_Return, wb_getitem_title in Hreq as [_ Hi].
  apply check_workbook_put; [done|done|]. simpl.
  destruct (range_boundaries_cols _ _ _ _ _ Hb) as [H1 _].
  destruct (range_boundaries_cols_le _ _ _ _ _ Hb) as [H2 _].
  specialize (H1 c eq_refl). specialize (H2 c eq_refl). lia.
Qed.


Lemma saved_apply_format fo fi o sc :
  value (saved (apply_format fo fi o (load_cell false sc))) = value (load_cell false sc)
  ∧ cell_type (saved (apply_format fo fi o (load_cell false sc)))
    = cell_type (load_cell false sc).
Proof.
  unfold saved, written, reloaded, apply_format, load_cell, store_cell.
  destruct sc as [[v|t c] f fl nf]; simpl.
  - destruct fo, fi; simpl; destruct (truthy_str _); simpl;
      destruct v; simpl; try done; by destruct (has_style _).
  - destruct fo, fi; simpl; destruct (truthy_str _); simpl; done.
Qed.

(** A read of a cell that was loaded, formatted and saved. *)
Lemma read_apply_format fo fi o sc :
  value (if written (apply_format fo fi o (load_cell false sc))
         then load_cell true (store_cell (apply_format fo fi o (load_cell false sc)))
         else new_cell)
  = if bool_decide (cell_type (load_cell false sc) = TYPE_FORMULA) then PNone
    else value (load_cell true sc).
Proof.
  unfold written, apply_format, load_cell, store_cell.
  destruct sc as [[v|t c] f fl nf]; simpl.
  - rewrite bool_decide_false by by destruct v.
    destruct fo, fi; simpl; destruct (truthy_str _); simpl;
      destruct v; simpl; try done; by destruct (has_style _).
  - destruct fo, fi; simpl; destruct (truthy_str _); simpl; done.
Qed.

Lemma stored_sheet_of_getitem (d : disk) p sw s i ws :
  d !! p = Some (Encoded sw) → wb_getitem s (decode false sw) = Some (i, ws) →
  ∃ sws, stored_sheet d p s = Some sws ∧ ws = load_worksheet false sws.
Proof.
  intros Hd Hg. pose proof (sheet_on_disk_stored d p s) as H.
  unfold sheet_on_disk in H. rewrite Hd, Hg in H.
  destruct (stored_sheet d p s) as [sws|]; [|done]. injection H as ->. by eexists.
Qed.

Lemma read_after_save_stored (d : disk) p s sws k :
  stored_sheet d p s = Some sws →
  read_after_save d p s k
  = Some (if bool_decide (cell_type (load_cell false
                                       (default (plain_cell PNone) (s_cells sws !! k)))
                          = TYPE_FORMULA)
          then PNone
          else value (load_cell true (default (plain_cell PNone) (s_cells sws !! k)))).
Proof.
  intros H. unfold read_after_save, read_on_disk, cell_on_disk.
  rewrite sheet_on_disk_stored, H. simpl. rewrite !cell_at_load. by case_bool_decide.
Qed.

Lemma read_on_disk_saved (d : disk) p s wb i ws k :
  wb_getitem s wb = Some (i, ws) →
  read_on_disk (<[p := Encoded (encode wb)]> d) p s k
  = Some (value (if written (cell_at ws k) then load_cell true (store_cell (cell_at ws k))
                 else new_cell)).
Proof.
  intros H. unfold read_on_disk. rewrite stored_sheet_encode, H. simpl.
  by rewrite cell_at_data_only.
Qed.


Lemma Color_rgb_Raise c :
  (∀ x, Color_rgb c ≠ Return x) →
  Color_rgb c = Raise (Exn ValueError "Colors must be aRGB hex values").
Proof.
  unfold Color_rgb. destruct (span is_hex c) as [h rest].
  destruct (_ && _); [|done]. intros H. by edestruct H.
Qed.

(** X12: on a workbook that loads and has the sheet, [format_cells] with a
    [font_color] or a [background_color] that is not six or eight
    hexadecimal digits (a colour name, for one) returns a failure with the
    error "Colors must be aRGB hex values" and leaves the disk as it
    was. *)
Theorem format_cells_rejects_bad_colour p s key o d sw c :
  d !! p = Some (Encoded sw) → file_format p ∈ SUPPORTED_FORMATS →
  s ∈ s_title <$> s_sheets sw →
  font_color o = Some c ∨ background_color o = Some c → c ≠ "" →
  (∀ x, Color_rgb c ≠ Return x) →
  format_cells p s key o d
  = (Return (failure_record "Colors must be aRGB hex values"), d).
Proof.
  intros Hd Hf Hs Ho Hne Hc. apply Color_rgb_Raise in Hc.
  assert (Ht : truthy_str (Some c) = true) by by destruct c.
  unfold format_cells, try_except, bind, os_path_exists.
  rewrite (exists_present _ _ _ Hd). cbn [negb]. rewrite (load_run _ _ _ _ Hd Hf).
  unfold lift. destruct (require_sheet_found s (decode false sw)) as (i & ws & ->).
  { by rewrite sheetnames_decode. }
  cbn beta iota.
  assert (Hfont : make_font o = Raise (Exn ValueError "Colors must be aRGB hex values")
                  ∨ ∃ fo, make_font o = Return fo).
  { unfold make_font. destruct (_ || _); [|by eauto]. unfold Font_init.
    destruct (truthy_str (font_color o)) eqn:E; [|by eauto].
    destruct (font_color o) as [c'|]; [|done]. simpl.
    unfold Color_rgb. destruct (span is_hex c') as [h rest].
    destruct (_ && _); simpl; by eauto. }
  destruct Ho as [Ho|Ho].
  - unfold make_font, Font_init. rewrite Ho, Ht, !orb_true_r. simpl. rewrite Hc. done.
  - destruct Hfont as [->|[fo ->]]; [done|]. cbn beta iota.
    unfold make_fill. rewrite Ho, Ht. simpl. unfold PatternFill_solid. rewrite Hc. done.
Qed.

Lemma load_store_load_chart sc : load_chart (store_chart (load_chart sc)) = load_chart sc.
Proof. by rewrite store_load_chart. Qed.

(** The charts of a sheet of a saved workbook whose charts are those the
    load gave. *)
Lemma charts_kept_saved (d : disk) p wb t :
  match sheet_on_disk d p t with
  | Some w => ∃ j w', wb_getitem t wb = Some (j, w') ∧ _charts w' = _charts w
  | None => wb_getitem t wb = None
  end →
  _charts <$> sheet_on_disk (<[p := Encoded (encode wb)]> d) p t
  = _charts <$> sheet_on_disk d p t.
Proof.
  rewrite !sheet_on_disk_stored. rewrite stored_sheet_encode.
  destruct (stored_sheet d p t) as [sws|]; simpl.
  - intros (j & w' & -> & Hk). simpl. f_equal. rewrite Hk.
    unfold load_worksheet. simpl. by rewrite store_load_charts.
  - by intros ->.
Qed.

Lemma charts_kept_update (d : disk) p s sw i ws ws' t :
  d !! p = Some (Encoded sw) →
  wb_getitem s (decode false sw) = Some (i, ws) → title ws' = s →
  (t = s → _charts ws' = _charts ws) →
  _charts <$> sheet_on_disk
                (<[p := Encoded (encode (update_sheet i ws' (decode false sw)))]> d) p t
  = _charts <$> sheet_on_disk d p t.
Proof.
  intros Hd Hg Ht Hk. apply charts_kept_saved.
  unfold sheet_on_disk. rewrite Hd.
  destruct (decide (t = s)) as [->|Hne].
  - rewrite Hg. simpl. exists i, ws'. split; [by eapply wb_getitem_update|by apply Hk].
  - destruct (wb_getitem_title _ _ _ _ Hg) as [Hti Hi].
    rewrite (wb_getitem_update_other t _ i ws ws') by congruence.
    destruct (wb_getitem t (decode false sw)) as [[j w]|]; simpl; [|done]. by eauto.
Qed.

Lemma succeeded_not_failed r : succeeded r → ¬ failed r.
Proof. unfold succeeded, failed. intros H [H' _]. congruence. Qed.

Section Charts.
Variable chart_series : string → outcome (list string).

Lemma create_chart_inv p s key t ti po d r d' :
  create_chart chart_series p s key t ti po d = (Return r, d') → succeeded r →
  ∃ sw i ws ser,
    d !! p = Some (Encoded sw) ∧ t ∈ chart_types
    ∧ require_sheet s (decode false sw) = Return (i, ws)
    ∧ chart_series (s ++ "!" ++ key) = Return ser
    ∧ let ws2 := mkWorksheet (title ws) (_cells ws)
                   (_charts ws
                    ++ [mkChart t (if truthy_str ti then ti else None) ser
                          (AnchorText (if truthy_str po then default "" po else "E5"))]) in
      check_workbook (update_sheet i ws2 (decode false sw)) = Return tt
      ∧ d' = <[p := Encoded (encode (update_sheet i ws2 (decode false sw)))]> d.
Proof.
  intros H Hs.
  destruct (create_chart_cases chart_series p s key t ti po d)
    as (r0 & d0 & Hrun & [[Hfail _]|(sw & i & ws & ser & Hd & _ & Ht & Hreq & Hser & Hc)]);
    rewrite H in Hrun; injection Hrun as <- <-.
  { by destruct (succeeded_not_failed r). }
  exists sw, i, ws, ser. split_and!; try done.
  destruct Hc as [(_ & Hc & ->)|(Hfail & _)]; [done|].
  by destruct (succeeded_not_failed r).
Qed.


End Charts.

Lemma list_find_app_found {A} (P : A → Prop) `{∀ x, Decision (P x)} (l1 l2 : list A) x :
  x ∈ l1 → P x → list_find P (l1 ++ l2) = list_find P l1.
Proof.
  intros Hin HP. destruct (list_find P l1) as [[i y]|] eqn:E.
  - by apply list_find_app_l.
  - apply list_find_None in E. rewrite Forall_forall in E. by destruct (E x Hin).
Qed.

Section AddWorksheet.
Variable avoid_duplicate_name : list string → string → string.


End AddWorksheet.

(** ** Writing rows, and reading them back *)

Lemma ofold_fmap {A B S} (f : S → B → outcome S) (g : A → B) l s :
  ofold f (g <$> l) s = ofold (λ s a, f s (g a)) l s.
Proof.
  revert s. induction l as [|a l IH]; intros s; simpl; [done|].
  destruct (f s (g a)); simpl; [apply IH|done].
Qed.

Lemma ofold_app {A S} (f : S → A → outcome S) l1 l2 s :
  ofold f (l1 ++ l2) s = obind (ofold f l1 s) (ofold f l2).
Proof.
  revert s. induction l1 as [|a l1 IH]; intros s; simpl; [done|].
  destruct (f s a); simpl; [apply IH|done].
Qed.

Lemma ofold_concat {A S} (f : S → A → outcome S) ll s :
  ofold f (concat ll) s = ofold (λ s l, ofold f l s) ll s.
Proof.
  revert s. induction ll as [|l ll IH]; intros s; simpl; [done|].
  rewrite ofold_app. destruct (ofold f l s); simpl; [apply IH|done].
Qed.

Lemma ofold_ext {A S} (f g : S → A → outcome S) l s :
  (∀ s a, f s a = g s a) → ofold f l s = ofold g l s.
Proof.
  intros H. revert s. induction l as [|a l IH]; intros s; simpl; [done|].
  rewrite H. destruct (g s a); simpl; [apply IH|done].
Qed.

Lemma enumerate_fmap {A B} (g : A → B) l s :
  enumerate (g <$> l) s = (λ ia : Z * A, (ia.1, g ia.2)) <$> enumerate l s.
Proof.
  revert s. induction l as [|a l IH]; intros s; simpl; [done|]. by rewrite IH.
Qed.

Lemma write_rows_writes data headers ws :
  write_rows data headers ws = ofold write_one (all_writes data headers) ws.
Proof.
  unfold write_rows, all_writes.
  assert (Hd : ∀ start w,
             ofold (λ ws0 (rr : Z * list pyval),
                      ofold (λ ws' (cv : Z * pyval), cell_set rr.1 cv.1 cv.2 ws')
                        (enumerate rr.2 1) ws0) (enumerate data start) w
             = ofold write_one (data_writes data start) w).
  { intros start w. unfold data_writes. rewrite ofold_concat, ofold_fmap.
    apply ofold_ext. intros s [r row]. unfold row_writes. simpl.
    by rewrite ofold_fmap. }
  destruct (truthy_list headers).
  - rewrite ofold_app. unfold row_writes at 1. rewrite enumerate_fmap.
    rewrite <- list_fmap_compose, ofold_fmap. unfold compose, write_one at 1. simpl.
    destruct (ofold _ (enumerate (default [] headers) 1) ws); simpl; [apply Hd|done].
  - simpl. apply Hd.
Qed.

Lemma cell_set_spec r c v ws ws' :
  cell_set r c v ws = Return ws' →
  valid_coord (r, c)
  ∧ (is_None v = false → ∃ cl, set_value v (cell_at ws (r, c)) = Return cl)
  ∧ ws' = put_cell (r, c) (cell_after v (cell_at ws (r, c))) ws.
Proof.
  unfold cell_set. destruct (cell r c ws) as [w|] eqn:Hc; simpl; [|done].
  apply cell_Return in Hc as [Hv ->]. unfold cell_after, bound.
  destruct (is_None v).
  - intros [= <-]. split_and!; [done|done|]. done.
  - rewrite cell_at_touched.
    destruct (set_value v (cell_at ws (r, c))) as [cl|]; simpl; [|done].
    intros [= <-]. split_and!; [done|by eauto|].
    unfold put_cell. simpl. f_equal. by rewrite insert_insert_eq.
Qed.

Lemma writes_spec writes ws ws' :
  ofold write_one writes ws = Return ws' → NoDup writes.*1 →
  title ws' = title ws ∧ _charts ws' = _charts ws
  ∧ (∀ k v, (k, v) ∈ writes →
       valid_coord k
       ∧ (is_None v = false → ∃ cl, set_value v (cell_at ws k) = Return cl))
  ∧ (∀ k, _cells ws' !! k
          = match (list_to_map writes : gmap coord pyval) !! k with
            | Some v => Some (cell_after v (cell_at ws k))
            | None => _cells ws !! k
            end).
Proof.
  revert ws. induction writes as [|[k0 v0] writes IH]; intros ws; simpl.
  - intros [= <-] _. split_and!; [done|done| |done]. by intros k v ?%elem_of_nil.
  - unfold write_one at 1. simpl.
    destruct (cell_set k0.1 k0.2 v0 ws) as [ws1|] eqn:Hc; simpl; [|done].
    replace (k0.1, k0.2) with k0 in * by by destruct k0.
    apply cell_set_spec in Hc as (Hv & Hset & ->).
    replace (k0.1, k0.2) with k0 in * by by destruct k0.
    intros H Hnd. apply NoDup_cons in Hnd as [Hk0 Hnd].
    apply IH in H as (Ht & Hch & Hval & Hl); [|done].
    assert (Hother : ∀ k, k ≠ k0 →
               cell_at (put_cell k0 (cell_after v0 (cell_at ws k0)) ws) k = cell_at ws k).
    { intros k Hk. unfold cell_at, put_cell. simpl. by rewrite lookup_insert_ne. }
    split_and!; [done|done| |].
    + intros k v [[= -> ->]|Hin]%elem_of_cons; [done|].
      destruct (Hval k v Hin) as [Hvk Hs]. split; [done|].
      rewrite Hother in Hs; [done|]. intros ->. apply Hk0.
      apply list_elem_of_fmap. by exists (k0, v).
    + intros k. rewrite Hl. destruct (decide (k = k0)) as [->|Hne].
      * rewrite lookup_insert_eq.
        rewrite (not_elem_of_list_to_map_1 (M := gmap coord) writes k0 Hk0).
        simpl. by rewrite lookup_insert_eq.
      * rewrite lookup_insert_ne by done. rewrite Hother by done.
        simpl. by rewrite lookup_insert_ne.
Qed.

Lemma elem_of_enumerate {A} (l : list A) s i a :
  (i, a) ∈ enumerate l s ↔ s ≤ i ∧ l !! Z.to_nat (i - s) = Some a.
Proof.
  revert s. induction l as [|a0 l IH]; intros s; simpl.
  - split; [by intros ?%elem_of_nil|]. by intros [_ ?].
  - rewrite elem_of_cons, IH. split.
    + intros [[= -> ->]|[Hle Hl]].
      * split; [lia|]. by replace (s - s) with 0 by lia.
      * split; [lia|]. replace (i - s) with (Z.succ (i - (s + 1))) by lia.
        rewrite Z2Nat.inj_succ by lia. done.
    + intros [Hle Hl]. destruct (decide (i = s)) as [->|Hne].
      * left. replace (s - s) with 0 in Hl by lia. simpl in Hl. congruence.
      * right. split; [lia|]. replace (i - s) with (Z.succ (i - (s + 1))) in Hl by lia.
        rewrite Z2Nat.inj_succ in Hl by lia. done.
Qed.

Lemma elem_of_row_writes r row s k v :
  (k, v) ∈ row_writes r row s ↔ k.1 = r ∧ s ≤ k.2 ∧ row !! Z.to_nat (k.2 - s) = Some v.
Proof.
  unfold row_writes. rewrite list_elem_of_fmap. split.
  - intros ([i a] & [= -> ->] & Hin). apply elem_of_enumerate in Hin. simpl. tauto.
  - intros (<- & Hle & Hl). exists (k.2, v). split; [by destruct k|].
    by apply elem_of_enumerate.
Qed.

Lemma elem_of_data_writes data s k v :
  (k, v) ∈ data_writes data s
  ↔ s ≤ k.1 ∧ ∃ row, data !! Z.to_nat (k.1 - s) = Some row
                     ∧ 1 ≤ k.2 ∧ row !! Z.to_nat (k.2 - 1) = Some v.
Proof.
  unfold data_writes. rewrite elem_of_concat. split.
  - intros (l & Hin & Hl). apply list_elem_of_fmap in Hl as ([r row] & -> & Hr).
    apply elem_of_enumerate in Hr as [Hle Hr]. simpl in Hin.
    apply elem_of_row_writes in Hin as (<- & H1 & H2). split; [done|]. by exists row.
  - intros (Hle & row & Hr & H1 & H2). exists (row_writes k.1 row 1). split.
    + by apply elem_of_row_writes.
    + apply list_elem_of_fmap. exists (k.1, row). split; [done|].
      by apply elem_of_enumerate.
Qed.

Lemma NoDup_enumerate {A} (l : list A) s : NoDup (enumerate l s).*1.
Proof.
  revert s. induction l as [|a l IH]; intros s; simpl; [constructor|].
  constructor; [|apply IH]. intros Hin.
  apply list_elem_of_fmap in Hin as ([i b] & Hi & Hin). simpl in Hi. subst i.
  apply elem_of_enumerate in Hin. lia.
Qed.

Lemma NoDup_row_writes r row s : NoDup (row_writes r row s).*1.
Proof.
  unfold row_writes. rewrite <- list_fmap_compose.
  rewrite (list_fmap_ext _ ((λ i, (r, i)) ∘ fst) (enumerate row s)) by done.
  rewrite list_fmap_compose. apply NoDup_fmap_2; [|apply NoDup_enumerate].
  by intros i j [= ->].
Qed.

Lemma NoDup_data_writes data s : NoDup (data_writes data s).*1.
Proof.
  revert s. induction data as [|row data IH]; intros s; [constructor|].
  unfold data_writes. simpl. rewrite fmap_app. apply NoDup_app. split_and!.
  - apply NoDup_row_writes.
  - intros k Hk Hk'.
    apply list_elem_of_fmap in Hk as ([k1 v1] & -> & Hk).
    apply list_elem_of_fmap in Hk' as ([k2 v2] & Heq & Hk'). simpl in Heq. subst k2.
    apply elem_of_row_writes in Hk as (Hr & _).
    change (concat _) with (data_writes data (s + 1)) in Hk'.
    apply elem_of_data_writes in Hk' as (Hr' & _). lia.
  - apply (IH (s + 1)).
Qed.

Lemma NoDup_all_writes data headers : NoDup (all_writes data headers).*1.
Proof.
  unfold all_writes. destruct (truthy_list headers); [|apply NoDup_data_writes].
  rewrite fmap_app. apply NoDup_app. split_and!.
  - apply NoDup_row_writes.
  - intros k Hk Hk'.
    apply list_elem_of_fmap in Hk as ([k1 v1] & -> & Hk).
    apply list_elem_of_fmap in Hk' as ([k2 v2] & Heq & Hk'). simpl in Heq. subst k2.
    apply elem_of_row_writes in Hk as (Hr & _).
    apply elem_of_data_writes in Hk' as (Hr' & _). lia.
  - apply NoDup_data_writes.
Qed.

Lemma nth1_Some {A} (l : list A) i a :
  nth1 l i = Some a ↔ 1 ≤ i ∧ l !! Z.to_nat (i - 1) = Some a.
Proof.
  unfold nth1. destruct (i <? 1) eqn:E.
  - apply Z.ltb_lt in E. split; [done|]. intros [? _]. lia.
  - apply Z.ltb_ge in E. tauto.
Qed.

Lemma elem_of_all_writes data headers k v :
  (k, v) ∈ all_writes data headers ↔ written_at data headers k = Some v.
Proof.
  unfold all_writes, written_at. destruct (truthy_list headers).
  - rewrite elem_of_app, elem_of_row_writes, elem_of_data_writes.
    destruct (k.1 =? 1) eqn:E.
    + apply Z.eqb_eq in E. split.
      * intros [(_ & H1 & Hl)|[? _]]; [|lia].
        rewrite list_lookup_fmap in Hl.
        destruct (nth1 (default [] headers) k.2) as [h|] eqn:Hn.
        -- apply nth1_Some in Hn as [_ Hn]. rewrite Hn in Hl. done.
        -- assert (Hs : ∃ h, nth1 (default [] headers) k.2 = Some h).
           { destruct (default [] headers !! Z.to_nat (k.2 - 1)) as [h|] eqn:Eh; [|done].
             exists h. by apply nth1_Some. }
           destruct Hs as [h Hs]. congruence.
      * intros Hn. left. destruct (nth1 _ k.2) as [h|] eqn:Hh; [|done].
        apply nth1_Some in Hh as [? Hh]. split_and!; [done|done|].
        rewrite list_lookup_fmap, Hh. done.
    + apply Z.eqb_neq in E. split.
      * intros [(? & _)|(Hle & row & Hr & H1 & Hl)]; [lia|].
        assert (Hn : nth1 data (k.1 - 1) = Some row).
        { apply nth1_Some. split; [lia|]. by replace (k.1 - 1 - 1) with (k.1 - 2) by lia. }
        rewrite Hn. simpl. by apply nth1_Some.
      * intros Hn. right.
        destruct (nth1 data (k.1 - 1)) as [row|] eqn:Hr; [|done]. simpl in Hn.
        apply nth1_Some in Hr as [? Hr]. apply nth1_Some in Hn as [? Hn].
        split; [lia|]. exists row. split_and!; [|done|done].
        by replace (k.1 - 2) with (k.1 - 1 - 1) by lia.
  - rewrite elem_of_data_writes. split.
    + intros (Hle & row & Hr & H1 & Hl).
      assert (Hn : nth1 data k.1 = Some row) by by apply nth1_Some.
      rewrite Hn. simpl. by apply nth1_Some.
    + intros Hn. destruct (nth1 data k.1) as [row|] eqn:Hr; [|done]. simpl in Hn.
      apply nth1_Some in Hr as [? Hr]. apply nth1_Some in Hn as [? Hn].
      split; [done|]. by exists row.
Qed.

Lemma all_writes_lookup data headers k :
  (list_to_map (all_writes data headers) : gmap coord pyval) !! k
  = written_at data headers k.
Proof.
  pose proof (NoDup_all_writes data headers) as Hnd.
  destruct (written_at data headers k) as [v|] eqn:E.
  - apply elem_of_list_to_map_1; [done|]. by apply elem_of_all_writes.
  - apply not_elem_of_list_to_map_1. intros Hin.
    apply list_elem_of_fmap in Hin as ([k' v] & -> & Hin).
    apply elem_of_all_writes in Hin. simpl in E. congruence.
Qed.

(** What the two writing loops leave on a sheet. *)
Lemma write_rows_spec data headers ws ws' :
  write_rows data headers ws = Return ws' →
  title ws' = title ws ∧ _charts ws' = _charts ws
  ∧ (∀ k v, written_at data headers k = Some v →
       valid_coord k
       ∧ (is_None v = false → ∃ cl, set_value v (cell_at ws k) = Return cl))
  ∧ (∀ k, _cells ws' !! k
          = match written_at data headers k with
            | Some v => Some (cell_after v (cell_at ws k))
            | None => _cells ws !! k
            end).
Proof.
  rewrite write_rows_writes. intros H.
  apply writes_spec in H as (Ht & Hc & Hv & Hl); [|apply NoDup_all_writes].
  split_and!; [done|done| |].
  - intros k v Hk. apply Hv. by apply elem_of_all_writes.
  - intros k. rewrite Hl. by rewrite all_writes_lookup.
Qed.

Lemma filter_none {A} (P : coord * A → Prop) `{∀ x, Decision (P x)} (m : gmap coord A) :
  (∀ k a, m !! k = Some a → ¬ P (k, a)) → filter P m = ∅.
Proof.
  intros H1. apply map_eq. intros k. rewrite lookup_empty.
  apply map_lookup_filter_None. destruct (m !! k) as [a|] eqn:E; [|by left].
  right. intros a' [= <-]. by apply H1.
Qed.

Lemma filter_all {A} (P : coord * A → Prop) `{∀ x, Decision (P x)} (m : gmap coord A) :
  (∀ k a, m !! k = Some a → P (k, a)) → filter P m = m.
Proof.
  intros H1. apply map_eq. intros k. rewrite map_lookup_filter.
  destruct (m !! k) as [a|] eqn:E; simpl; [|done].
  rewrite option_guard_True; [done|]. by apply H1.
Qed.

(** Deleting the rows from 1 to the last one empties a sheet whose rows
    start at 1. *)
Lemma delete_rows_all ws :
  (∀ k, is_Some (_cells ws !! k) → 1 ≤ k.1) →
  delete_rows 1 (max_row ws) ws = Return (mkWorksheet (title ws) ∅ (_charts ws)).
Proof.
  intros Hw. pose proof (max_row_ge_1 ws Hw) as Hmr.
  unfold delete_rows, _move_cells.
  assert (Hnone : ∀ k c, _cells ws !! k = Some c →
            ¬ Is_true ((1 + max_row ws =? 0) || (1 + max_row ws <=? k.1))).
  { intros k c Hk. pose proof (max_row_ge ws k (mk_is_Some _ _ Hk)) as Hge.
    destruct (1 + max_row ws =? 0) eqn:E1; [lia|].
    destruct (1 + max_row ws <=? k.1) eqn:E2; [lia|]. simpl. tauto. }
  rewrite (filter_none _ (_cells ws)).
  2:{ intros k c Hk. simpl. by apply (Hnone k c). }
  rewrite (filter_all _ (_cells ws)).
  2:{ intros k c Hk. simpl. apply negb_True. by apply (Hnone k c). }
  rewrite map_to_list_empty. simpl.
  assert (Hoff : (- max_row ws =? 0) = false) by lia. rewrite Hoff.
  unfold kmap. rewrite map_to_list_empty. simpl.
  rewrite (left_id_L ∅ (∪)). f_equal. f_equal.
  apply filter_none. intros k c Hk. simpl. intros Hn. apply negb_True in Hn. apply Hn.
  set (ws1 := mkWorksheet (title ws) (_cells ws) (_charts ws)).
  assert (H1 : min_column ws1 ≤ k.2) by (apply min_column_le; by eexists).
  assert (H2 : k.2 ≤ max_column ws1) by (apply max_column_ge; by eexists).
  pose proof (max_row_ge ws k (mk_is_Some _ _ Hk)) as Hge.
  specialize (Hw k (mk_is_Some _ _ Hk)).
  rewrite !andb_True, !Is_true_true, !Z.leb_le. lia.
Qed.

Section Writing.
Variable avoid_duplicate_name : list string → string → string.

Lemma write_excel_file_inv p data sn headers d rec d' :
  write_excel_file avoid_duplicate_name p data sn headers d = (Return rec, d') →
  succeeded rec →
  ∃ wb wb' i ws name ws',
    data ≠ []
    ∧ match d !! p with
      | Some c => file_format p ∈ SUPPORTED_FORMATS ∧ ∃ sw, c = Encoded sw ∧ wb = decode false sw
      | None => wb = if truthy_str sn then mkWorkbook [] 0 else new_Workbook
      end
    ∧ target_sheet avoid_duplicate_name sn wb = Return (wb', i, ws, name)
    ∧ write_rows data headers ws = Return ws'
    ∧ d' = <[p := Encoded (encode (update_sheet i ws' wb'))]> d
    ∧ dict_get "sheet_name" rec = Some (PStr name).
Proof.
  unfold write_excel_file. intros H Hs. apply try_except_succeeded in H; [|done].
  destruct data as [|row data]; [done|].
  apply bind_Return in H as (ex & d1 & Hex & H). apply exists_Return in Hex as [-> ->].
  apply bind_Return in H as (wb & d1 & Hwb & H).
  apply bind_Return in H as ([[[wb' i] ws] name] & d2 & Ht & H).
  apply lift_Return in Ht as [Ht ->].
  apply bind_Return in H as (ws' & d3 & Hw & H). apply lift_Return in Hw as [Hw ->].
  apply bind_Return in H as (u & d4 & Hsv & H). apply save_Return in Hsv as ->.
  apply ret_Return in H as [-> ->].
  exists wb, wb', i, ws, name, ws'. split; [done|].
  case_bool_decide as Hex.
  - apply load_Return in Hwb as (-> & Hf & sw & Hd' & ->). rewrite Hd'.
    split_and!; try done. by eexists.
  - destruct (d !! p) as [c|] eqn:Hd; [by destruct Hex|].
    destruct (truthy_str sn) eqn:E; simpl in Hwb.
    + apply ret_Return in Hwb as [-> ->]. split_and!; done.
    + apply ret_Return in Hwb as [-> ->]. split_and!; done.
Qed.

Lemma saved_new_cell : saved new_cell = new_cell.
Proof. reflexivity. Qed.

Lemma set_value_kept v c cl :
  kept_value v = true → set_value v c = Return cl → value cl = v.
Proof.
  destruct v; simpl; try done; try by intros _ [= <-].
  intros Hk. destruct (check_string s) as [s'|] eqn:Hs; simpl; [|done].
  apply check_string_Return in Hs as ->. rewrite (stake_kept _ Hk). by intros [= <-].
Qed.

Lemma saved_cell_after v cl0 :
  (is_None v = false → ∃ cl, set_value v new_cell = Return cl) →
  cl0 = saved (cell_after v new_cell) →
  style cl0 = style new_cell ∧ (kept_value v = true → value cl0 = v).
Proof.
  intros Hset ->. unfold cell_after, bound. destruct (is_None v) eqn:E.
  - rewrite saved_new_cell. split; [done|]. by destruct v.
  - destruct (Hset eq_refl) as [cl Hcl]. rewrite Hcl.
    assert (Hs : saved cl = cl).
    { eapply (saved_set_value v (plain_cell PNone)). exact Hcl. }
    rewrite Hs. split; [by eapply style_set_value|].
    intros Hk. by eapply set_value_kept.
Qed.

Lemma loaded_rows_from_one d p sw i ws :
  coords_from_one d → d !! p = Some (Encoded sw) →
  _sheets (decode false sw) !! i = Some ws →
  ∀ k, is_Some (_cells ws !! k) → 1 ≤ k.1.
Proof.
  intros Hone Hd Hi k Hk. unfold decode in Hi. simpl in Hi.
  rewrite list_lookup_fmap in Hi. destruct (s_sheets sw !! i) as [sws|] eqn:E; [|done].
  injection Hi as <-. apply load_worksheet_keys in Hk.
  edestruct Hone as [? _]; [exact Hd| |exact Hk|done]. by eapply list_elem_of_lookup_2.
Qed.

(** A read of a cell that a write has bound to a value that a cell
    keeps. *)
Lemma read_cell_after v c :
  kept_value v = true → (is_None v = false → ∃ cl, set_value v c = Return cl) →
  v = PNone
  ∨ value (if written (cell_after v c) then load_cell true (store_cell (cell_after v c))
           else new_cell) = v.
Proof.
  intros Hk Hset. destruct (is_None v) eqn:E; [left; by destruct v|right].
  unfold cell_after, bound. rewrite E. destruct (Hset eq_refl) as [cl Hcl]. rewrite Hcl.
  by eapply value_set_value.
Qed.


Lemma wb_getitem_unique wb i ws :
  NoDup (sheetnames wb) → _sheets wb !! i = Some ws →
  wb_getitem (title ws) wb = Some (i, ws).
Proof.
  intros Hnd Hi. unfold wb_getitem. apply list_find_Some. split_and!; [done|done|].
  intros j w Hj Hlt Heq. unfold sheetnames in Hnd.
  assert (Hij : j = i).
  { eapply NoDup_lookup; [exact Hnd| |].
    - by rewrite list_lookup_fmap, Hj.
    - by rewrite list_lookup_fmap, Hi, Heq. }
  lia.
Qed.


End Writing.

Lemma nth1_cons {A} (a : A) l i : i ≠ 1 → nth1 (a :: l) i = nth1 l (i - 1).
Proof.
  intros Hi. unfold nth1. destruct (i <? 1) eqn:E1.
  - apply Z.ltb_lt in E1. destruct (i - 1 <? 1) eqn:E2; [done|]. apply Z.ltb_ge in E2. lia.
  - apply Z.ltb_ge in E1. destruct (i - 1 <? 1) eqn:E2; [apply Z.ltb_lt in E2; lia|].
    replace (i - 1) with (Z.succ (i - 1 - 1)) at 1 by lia.
    rewrite Z2Nat.inj_succ by lia. done.
Qed.

Lemma written_at_rows data headers k :
  written_at data headers k
  = nth1 (sheet_rows data headers) k.1 ≫= λ row, nth1 row k.2.
Proof.
  unfold written_at, sheet_rows. destruct (truthy_list headers); [|done].
  destruct (k.1 =? 1) eqn:E.
  - apply Z.eqb_eq in E. rewrite E. unfold nth1 at 2. simpl.
    unfold nth1. destruct (k.2 <? 1); [done|]. by rewrite list_lookup_fmap.
  - apply Z.eqb_neq in E. by rewrite nth1_cons.
Qed.

Lemma seqZ_fmap_eq {A} (f : Z → A) (l : list A) s :
  (∀ j a, l !! j = Some a → f (s + Z.of_nat j) = a) →
  f <$> seqZ s (Z.of_nat (length l)) = l.
Proof.
  revert s. induction l as [|a l IH]; intros s H; [done|].
  simpl length. rewrite Nat2Z.inj_succ, seqZ_cons by lia.
  rewrite fmap_cons. f_equal.
  - rewrite <- (H 0%nat a eq_refl). f_equal. lia.
  - replace (Z.pred (Z.succ (Z.of_nat (length l)))) with (Z.of_nat (length l)) by lia.
    apply IH. intros j b Hj. rewrite <- (H (S j) b Hj). f_equal. lia.
Qed.

Lemma zrange_fmap_eq {A} (f : Z → A) (l : list A) :
  (∀ j a, l !! j = Some a → f (1 + Z.of_nat j) = a) →
  f <$> zrange 1 (Z.of_nat (length l)) = l.
Proof.
  intros H. unfold zrange.
  replace (Z.of_nat (length l) + 1 - 1) with (Z.of_nat (length l)) by lia.
  by apply seqZ_fmap_eq.
Qed.

Lemma filter_true {A} (p : A → bool) (l : list A) :
  (∀ x, x ∈ l → p x = true) → List.filter p l = l.
Proof.
  induction l as [|a l IH]; intros H; simpl; [done|].
  rewrite (H a) by left. f_equal. apply IH. intros x Hx. apply H. by right.
Qed.

Section Grid.
Variables (data : list (list pyval)) (headers : option (list string)).
Variables (ws0 ws' : Worksheet) (n : nat).
Hypothesis Hempty : _cells ws0 = ∅.
Hypothesis Hwrite : write_rows data headers ws0 = Return ws'.
Hypothesis Hrows : Forall (full_row n) (sheet_rows data headers).
Hypothesis Hn : 1 ≤ Z.of_nat n ≤ 18278.
Hypothesis Hdata : sheet_rows data headers ≠ [].

Let M : Z := Z.of_nat (length (sheet_rows data headers)).
Let ws_l : Worksheet := load_worksheet true (store_worksheet ws').

Lemma grid_entry k v :
  written_at data headers k = Some v
  ↔ ∃ row, sheet_rows data headers !! Z.to_nat (k.1 - 1) = Some row
           ∧ row !! Z.to_nat (k.2 - 1) = Some v ∧ 1 ≤ k.1 ∧ 1 ≤ k.2.
Proof.
  rewrite written_at_rows. split.
  - destruct (nth1 _ k.1) as [row|] eqn:Hr; [|done]. simpl. intros Hv.
    apply nth1_Some in Hr as [? Hr]. apply nth1_Some in Hv as [? Hv]. by exists row.
  - intros (row & Hr & Hv & H1 & H2).
    assert (Hr' : nth1 (sheet_rows data headers) k.1 = Some row) by by apply nth1_Some.
    rewrite Hr'. simpl. by apply nth1_Some.
Qed.

Lemma grid_inside k v :
  written_at data headers k = Some v →
  (1 ≤ k.1 ≤ M) ∧ (1 ≤ k.2 ≤ Z.of_nat n) ∧ kept_value v = true ∧ v ≠ PNone.
Proof.
  intros (row & Hr & Hv & H1 & H2)%grid_entry.
  pose proof (lookup_lt_Some _ _ _ Hr) as Hlt.
  pose proof (proj1 (Forall_forall _ _) Hrows) as Hrows'.
  destruct (Hrows' row) as [Hlen Hk]; [by eapply list_elem_of_lookup_2|].
  pose proof (lookup_lt_Some _ _ _ Hv) as Hlt2.
  rewrite Forall_forall in Hk. destruct (Hk v) as [? ?]; [by eapply list_elem_of_lookup_2|].
  unfold M. split_and!; try done; lia.
Qed.

Lemma grid_covered k :
  1 ≤ k.1 ≤ M → 1 ≤ k.2 ≤ Z.of_nat n → ∃ v, written_at data headers k = Some v.
Proof.
  intros H1 H2. unfold M in H1.
  destruct (lookup_lt_is_Some_2 (sheet_rows data headers) (Z.to_nat (k.1 - 1)))
    as [row Hr]; [lia|].
  pose proof (proj1 (Forall_forall _ _) Hrows) as Hrows'.
  destruct (Hrows' row) as [Hlen Hk]; [by eapply list_elem_of_lookup_2|].
  destruct (lookup_lt_is_Some_2 row (Z.to_nat (k.2 - 1))) as [v Hv]; [lia|].
  exists v. apply grid_entry. exists row. split_and!; try done; lia.
Qed.

Lemma grid_cell k v :
  written_at data headers k = Some v →
  valid_coord k
  ∧ ∃ cl, _cells ws' !! k = Some cl ∧ written cl = true
          ∧ value (load_cell true (store_cell cl)) = v.
Proof.
  intros Hk. destruct (grid_inside k v Hk) as (_ & _ & Hkv & HnN).
  destruct (write_rows_spec _ _ _ _ Hwrite) as (_ & _ & Hval & Hl).
  destruct (Hval k v Hk) as [Hvc Hset]. split; [done|].
  assert (Hnone : is_None v = false) by by destruct v.
  destruct (Hset Hnone) as [cl Hcl].
  exists cl. rewrite Hl, Hk. unfold cell_after, bound. rewrite Hnone, Hcl.
  assert (Hw : written cl = true).
  { unfold written. rewrite (set_value_kept _ _ _ Hkv Hcl). by rewrite Hnone. }
  split_and!; [done|done|].
  pose proof (value_set_value _ _ _ Hkv Hcl) as Hv. by rewrite Hw in Hv.
Qed.

Lemma grid_lookup k :
  _cells ws_l !! k
  = match written_at data headers k with
    | Some v => (λ cl, load_cell true (store_cell cl)) <$> _cells ws' !! k
    | None => None
    end.
Proof.
  unfold ws_l, load_worksheet. cbn [_cells]. rewrite lookup_fmap, lookup_stored.
  destruct (written_at data headers k) as [v|] eqn:Hk.
  - destruct (grid_cell k v Hk) as (_ & cl & -> & -> & _). done.
  - destruct (write_rows_spec _ _ _ _ Hwrite) as (_ & _ & _ & Hl).
    rewrite Hl, Hk, Hempty. done.
Qed.

Lemma grid_value k v :
  written_at data headers k = Some v → value (cell_at ws_l k) = v.
Proof.
  intros Hk. unfold cell_at. rewrite grid_lookup, Hk.
  destruct (grid_cell k v Hk) as (_ & cl & -> & _ & Hv). done.
Qed.

Lemma grid_keys k :
  is_Some (_cells ws_l !! k) ↔ (1 ≤ k.1 ≤ M) ∧ (1 ≤ k.2 ≤ Z.of_nat n).
Proof.
  rewrite grid_lookup. split.
  - destruct (written_at data headers k) as [v|] eqn:Hk; [|by intros [? ?]].
    intros _. destruct (grid_inside k v Hk) as (? & ? & _). done.
  - intros [H1 H2]. destruct (grid_covered k H1 H2) as [v Hk]. rewrite Hk.
    destruct (grid_cell k v Hk) as (_ & cl & -> & _). by eexists.
Qed.

Lemma grid_M : 1 ≤ M.
Proof. unfold M. destruct (sheet_rows data headers); [done|]. simpl length. lia. Qed.

Lemma grid_within_limits : within_limits ws_l.
Proof.
  intros k Hk. pose proof Hk as Hk'. apply grid_keys in Hk as [H1 H2].
  destruct (grid_covered k H1 H2) as [v Hv].
  destruct (grid_cell k v Hv) as [[? ?] _]. lia.
Qed.

Lemma grid_max_row : max_row ws_l = M.
Proof.
  pose proof grid_M. apply Z.le_antisymm.
  - apply max_row_le; [done|]. intros k Hk. apply grid_keys in Hk. lia.
  - apply (max_row_ge ws_l (M, 1)). apply grid_keys. simpl. lia.
Qed.

Lemma grid_max_column : max_column ws_l = Z.of_nat n.
Proof.
  pose proof grid_M. apply Z.le_antisymm.
  - apply max_column_le; [lia|]. intros k Hk. apply grid_keys in Hk. lia.
  - apply (max_column_ge ws_l (1, Z.of_nat n)). apply grid_keys. simpl. lia.
Qed.

Lemma grid_row j row :
  sheet_rows data headers !! j = Some row → row_values ws_l (1 + Z.of_nat j) = row.
Proof.
  intros Hr. unfold row_values. rewrite grid_max_column.
  pose proof (proj1 (Forall_forall _ _) Hrows) as Hrows'.
  destruct (Hrows' row) as [Hlen _]; [by eapply list_elem_of_lookup_2|].
  rewrite <- Hlen. apply zrange_fmap_eq. intros i v Hv.
  apply grid_value. apply grid_entry. exists row. simpl.
  replace (1 + Z.of_nat j - 1) with (Z.of_nat j) by lia.
  replace (1 + Z.of_nat i - 1) with (Z.of_nat i) by lia.
  rewrite !Nat2Z.id. split_and!; try done; lia.
Qed.

Lemma grid_rows_read :
  row_values ws_l
    <$> List.filter (λ r, any_not_None (row_values ws_l r)) (zrange 1 (max_row ws_l))
  = sheet_rows data headers.
Proof.
  rewrite grid_max_row. rewrite filter_true.
  - unfold M. apply zrange_fmap_eq. intros j row Hr. by apply grid_row.
  - intros r Hr. apply elem_of_zrange in Hr.
    apply any_not_None_row; [apply grid_within_limits|].
    destruct (grid_covered (r, 1)) as [v Hv]; [simpl; lia|simpl; lia|].
    destruct (grid_inside _ _ Hv) as (_ & _ & _ & HnN).
    destruct (grid_cell _ _ Hv) as (_ & cl & Hcl & _ & Hval).
    exists 1, (load_cell true (store_cell cl)). split.
    + rewrite grid_lookup, Hv, Hcl. done.
    + by rewrite Hval.
Qed.

End Grid.

Lemma read_rows_run p sn d sw ws name :
  d !! p = Some (Encoded sw) → file_format p ∈ SUPPORTED_FORMATS →
  select_sheet sn (decode true sw) = Return (ws, name) →
  within_limits ws →
  ∃ rec, read_excel_file p sn None d = (Return rec, d) ∧ succeeded rec
         ∧ dict_get "data" rec
           = Some (PList (PList <$> (row_values ws
                    <$> List.filter (λ r, any_not_None (row_values ws r))
                          (zrange 1 (max_row ws)))))
         ∧ dict_get "sheet_name" rec = Some (PStr name).
Proof.
  intros Hd Hf Hs Hw.
  destruct (read_data_all None ws eq_refl Hw) as (ws' & Hrd & Hw').
  pose proof (max_column_bounds ws' Hw') as Hmc.
  destruct (get_column_letter (max_column ws')) as [letter|e] eqn:Hl.
  2:{ unfold get_column_letter in Hl.
      destruct (1 <=? max_column ws') eqn:E1; [|lia].
      destruct (max_column ws' <=? 18278) eqn:E2; [|lia]. done. }
  eexists. split_and!.
  - eapply read_excel_file_run; [done|done|done|exact Hrd|].
    unfold read_range. simpl. rewrite Hl. reflexivity.
  - reflexivity.
  - reflexivity.
  - reflexivity.
Qed.

(** A sequence of writes succeeds when every coordinate is valid and every
    value is accepted by a cell. *)
Lemma writes_run writes ws :
  (∀ k v, (k, v) ∈ writes →
     valid_coord k ∧ (is_None v = false → ∀ c, ∃ cl, set_value v c = Return cl)) →
  ∃ ws', ofold write_one writes ws = Return ws'.
Proof.
  revert ws. induction writes as [|[k0 v0] writes IH]; intros ws H; simpl; [by eexists|].
  destruct (H k0 v0) as [Hv Hs]; [left|].
  assert (Hc : ∃ ws1, write_one ws (k0, v0) = Return ws1).
  { unfold write_one, cell_set. simpl.
    destruct (cell k0.1 k0.2 ws) as [w|] eqn:Hcell.
    - cbn [obind]. destruct (is_None v0) eqn:E; [by eexists|].
      destruct (Hs eq_refl (cell_at w (k0.1, k0.2))) as [cl ->]. cbn [obind]. by eexists.
    - exfalso. assert (Hx : ∃ w, cell k0.1 k0.2 ws = Return w).
      { eexists. apply cell_Return. split; [by destruct k0|done]. }
      destruct Hx as [w Hw]. congruence. }
  destruct Hc as [ws1 ->]. cbn [obind]. apply IH. intros k v Hin. apply H. by right.
Qed.

Lemma write_rows_run data headers ws n :
  Forall (full_row n) (sheet_rows data headers) → 1 ≤ Z.of_nat n ≤ 18278 →
  len (sheet_rows data headers) ≤ 1048576 →
  ∃ ws', write_rows data headers ws = Return ws'.
Proof.
  intros Hrows Hn Hlen. rewrite write_rows_writes. apply writes_run. intros k v Hin.
  apply elem_of_all_writes in Hin.
  destruct (grid_inside data headers n Hrows Hn k v Hin) as (Hr & Hc & Hk & _).
  split.
  - unfold valid_coord. unfold len in Hlen. lia.
  - intros _ c. by apply set_value_kept_run.
Qed.

Section RoundTrip.
Variable avoid_duplicate_name : list string → string → string.

Lemma write_new_file_inv p data sn headers d rec d' :
  write_excel_file avoid_duplicate_name p data sn headers d = (Return rec, d') →
  succeeded rec → d !! p = None →
  ∃ t ws',
    write_rows data headers (mkWorksheet t ∅ []) = Return ws'
    ∧ t = (if truthy_str sn then avoid_duplicate_name [] (default "" sn) else "Sheet")
    ∧ d' = <[p := Encoded (mkStoredWorkbook [store_worksheet ws'] 0)]> d.
Proof.
  intros H Hs Hd.
  apply write_excel_file_inv in H
    as (wb & wb' & i & ws0 & name & ws' & _ & Hwb & Ht & Hw & -> & _); [|done].
  rewrite Hd in Hwb. subst wb. unfold target_sheet in Ht.
  destruct (truthy_str sn) eqn:E.
  - rewrite bool_decide_false in Ht by by intros ?%elem_of_nil.
    unfold create_sheet in Ht.
    assert (Hne : String.eqb (default "" sn) "" = false).
    { destruct sn as [s|]; [|done]. simpl in *. by apply negb_true_iff in E. }
    rewrite Hne in Ht. destruct (sany _ _); [done|]. simpl in Ht.
    injection Ht as <- <- <- <-. eexists _, ws'. split_and!; [exact Hw|done|done].
  - simpl in Ht. injection Ht as <- <- <- <-. eexists _, ws'. split_and!; [exact Hw|done|done].
Qed.

(** After a successful write to a file that did not exist, a read returns
    the rows as they were written. *)
Lemma read_after_write p data sn headers d rec d' n :
  write_excel_file avoid_duplicate_name p data sn headers d = (Return rec, d') →
  succeeded rec → d !! p = None → file_format p ∈ SUPPORTED_FORMATS →
  1 ≤ Z.of_nat n ≤ 18278 →
  Forall (full_row n) (sheet_rows data headers) →
  (∃ rec2, read_excel_file p None None d' = (Return rec2, d') ∧ succeeded rec2
           ∧ dict_get "data" rec2 = Some (PList (PList <$> sheet_rows data headers)))
  ∧ (∀ s, sn = Some s → s ≠ "" → avoid_duplicate_name [] s = s →
       ∃ rec2, read_excel_file p (Some s) None d' = (Return rec2, d') ∧ succeeded rec2
               ∧ dict_get "data" rec2 = Some (PList (PList <$> sheet_rows data headers))).
Proof.
  intros H Hs Hd Hf Hn Hrows.
  assert (Hdata : sheet_rows data headers ≠ []).
  { apply write_excel_file_inv in H as (? & ? & ? & ? & ? & ? & Hne & _); [|done].
    unfold sheet_rows. by destruct (truthy_list headers). }
  apply write_new_file_inv in H as (t & ws' & Hw & Ht & ->); [|done|done].
  set (sw' := mkStoredWorkbook [store_worksheet ws'] 0).
  set (ws_l := load_worksheet true (store_worksheet ws')).
  assert (Hlim : within_limits ws_l).
  { eapply (grid_within_limits data headers (mkWorksheet t ∅ [])); done. }
  assert (Hread : row_values ws_l
            <$> List.filter (λ r, any_not_None (row_values ws_l r)) (zrange 1 (max_row ws_l))
            = sheet_rows data headers).
  { eapply (grid_rows_read data headers (mkWorksheet t ∅ [])); done. }
  split.
  - destruct (read_rows_run p None (<[p := Encoded sw']> d) sw' ws_l (title ws_l))
      as (rec2 & Hrun & Hsucc & Hdat & _); [by rewrite lookup_insert_eq|done|done|done|].
    exists rec2. split_and!; [done|done|]. by rewrite Hdat, Hread.
  - intros s -> Hne Hadn.
    assert (Htr : truthy_str (Some s) = true) by by destruct s.
    rewrite Htr in Ht. simpl in Ht. rewrite Hadn in Ht. subst t.
    destruct (write_rows_spec _ _ _ _ Hw) as (Hti & _).  simpl in Hti.
    destruct (read_rows_run p (Some s) (<[p := Encoded sw']> d) sw' ws_l s)
      as (rec2 & Hrun & Hsucc & Hdat & _); [by rewrite lookup_insert_eq|done| |done|].
    { apply (select_sheet_stored true sw' s 0%nat (store_worksheet ws')); [done|].
      unfold sw'. simpl. rewrite decide_True; [done|]. done. }
    exists rec2. split_and!; [done|done|]. by rewrite Hdat, Hread.
Qed.

(** A sheet that was empty, after a write of rows of one length within
    the grid: the writer accepts it. *)
Lemma check_written_sheet data headers t ws' n :
  write_rows data headers (mkWorksheet t ∅ []) = Return ws' →
  Forall (full_row n) (sheet_rows data headers) → 1 ≤ Z.of_nat n ≤ 18278 →
  check_worksheet ws' = Return tt.
Proof.
  intros Hw Hrows Hn. apply check_worksheet_Return.
  apply write_rows_spec in Hw as (_ & Hch & _ & Hl). split.
  - intros k [x Hx]. rewrite Hl in Hx.
    destruct (written_at data headers k) as [v|] eqn:E.
    + destruct (grid_inside data headers n Hrows Hn k v E) as (_ & Hc & _). lia.
    + simpl in Hx. by rewrite lookup_empty in Hx.
  - unfold anchors_accepted. rewrite Hch. by constructor.
Qed.

(** The run of [write_excel_file] on a path that does not exist. *)
Lemma write_new_file_run p data sn headers d ws' row rows n :
  d !! p = None → data = row :: rows →
  (truthy_str sn = true → sany invalid_title_char (default "" sn) = false) →
  Forall (full_row n) (sheet_rows data headers) → 1 ≤ Z.of_nat n ≤ 18278 →
  write_rows data headers
    (mkWorksheet (if truthy_str sn then avoid_duplicate_name [] (default "" sn)
                  else "Sheet") ∅ []) = Return ws' →
  write_excel_file avoid_duplicate_name p data sn headers d
  = (Return [("success", PBool true);
             ("file_path", PStr p);
             ("sheet_name", PStr (if truthy_str sn then default "" sn else "Sheet"));
             ("rows_written", PInt (len data));
             ("columns_written", PInt (len row));
             ("headers_added", PBool (truthy_list headers))],
     <[p := Encoded (mkStoredWorkbook [store_worksheet ws'] 0)]> d).
Proof.
  intros Hd -> Hti Hrows Hn Hw.
  pose proof (check_written_sheet _ _ _ _ _ Hw Hrows Hn) as Hc.
  unfold write_excel_file, try_except, bind, os_path_exists.
  rewrite (exists_missing _ _ Hd). destruct (truthy_str sn) eqn:E.
  - rewrite bool_decide_true by (apply (bool_decide_unpack _); by vm_compute).
    cbn [andb]. change (wb_getitem "Sheet" new_Workbook)
      with (Some (0%nat, mkWorksheet "Sheet" ∅ [])).
    cbn beta iota. unfold ret at 1. unfold lift at 1. unfold target_sheet. rewrite E.
    rewrite bool_decide_false by by intros ?%elem_of_nil.
    unfold create_sheet.
    assert (Hne : String.eqb (default "" sn) "" = false).
    { destruct sn as [s|]; [|done]. simpl in *. by apply negb_true_iff in E. }
    rewrite Hne, (Hti eq_refl). cbn [obind]. cbn beta iota.
    unfold lift. change (sheetnames (remove_sheet 0 new_Workbook)) with (@nil string).
    rewrite Hw. rewrite save_run; [reflexivity|].
    apply check_workbook_Return. simpl. by apply Forall_singleton.
  - cbn [andb]. unfold ret at 1. unfold lift at 1. unfold target_sheet. rewrite E.
    change (active new_Workbook) with (Some (0%nat, mkWorksheet "Sheet" ∅ [])).
    cbn beta iota. unfold lift. change (title (mkWorksheet "Sheet" ∅ [])) with "Sheet".
    rewrite Hw. rewrite save_run; [reflexivity|].
    apply check_workbook_Return. simpl. by apply Forall_singleton.
Qed.


End RoundTrip.

(** ** Reading a range, an empty sheet and the report of the sheets *)

Lemma length_zrange lo hi : lo ≤ hi + 1 → len (zrange lo hi) = hi + 1 - lo.
Proof. intros H. unfold len, zrange. rewrite length_seqZ. lia. Qed.

(** X20: a read with a two-corner range written start-before-end returns
    every cell of the rectangle, row by row, empty rows and empty cells
    included; it reports the range as given, [rows] as the number of rows
    of the rectangle and [columns] as the number of its columns. *)
Theorem read_range_returns_rectangle p s key d sws c1 r1 c2 r2 :
  file_format p ∈ SUPPORTED_FORMATS →
  stored_sheet d p s = Some sws → s ≠ "" →
  range_boundaries key = Return (Some c1, Some r1, Some c2, Some r2) →
  contains_char ":" key = true →
  1 ≤ r1 ≤ r2 → r2 ≤ 1048576 → c1 ≤ c2 →
  read_excel_file p (Some s) (Some key) d
  = (Return [("success", PBool true);
             ("data", PList (PList <$> row_major (load_worksheet true sws) (r1, r2, c1, c2)));
             ("sheet_name", PStr s);
             ("range", PStr key);
             ("rows", PInt (r2 - r1 + 1));
             ("columns", PInt (c2 - c1 + 1))], d).
Proof.
  intros Hf Hs Hne Hb Hc Hr Hr2 Hcc.
  apply stored_sheet_Some in Hs as (sw & i & Hd & Hfind).
  destruct (range_boundaries_cols _ _ _ _ _ Hb) as [H1 H2].
  specialize (H1 c1 eq_refl). specialize (H2 c2 eq_refl).
  assert (HR : rect_of (Some c1, Some r1, Some c2, Some r2)
                 (max_row (load_worksheet true sws)) (max_column (load_worksheet true sws))
               = (r1, r2, c1, c2)).
  { unfold rect_of. rewrite !or_default_nonzero by lia. done. }
  destruct (read_data_two_corner key (load_worksheet true sws) c1 r1 c2 r2 Hb Hc)
    as [ws' Hrd].
  { rewrite HR. intros k Hin. apply in_rect_spec in Hin. unfold valid_coord. lia. }
  rewrite HR in Hrd.
  assert (Hrows : len (row_major (load_worksheet true sws) (r1, r2, c1, c2)) = r2 - r1 + 1).
  { unfold row_major, len. rewrite length_fmap. fold (len (zrange r1 r2)).
    rewrite length_zrange by lia. lia. }
  assert (Hcols : match row_major (load_worksheet true sws) (r1, r2, c1, c2) with
                  | [] => 0
                  | row :: _ => len row
                  end = c2 - c1 + 1).
  { unfold row_major. destruct (zrange r1 r2) as [|r rs] eqn:E.
    { assert (Hin : r1 ∈ zrange r1 r2) by (apply elem_of_zrange; lia).
      rewrite E in Hin. by apply elem_of_nil in Hin. }
    simpl. unfold len. rewrite length_fmap. fold (len (zrange c1 c2)).
    rewrite length_zrange by lia. lia. }
  erewrite read_excel_file_run; [|done|done| |exact Hrd|].
  2:{ eapply select_sheet_stored; [|done]. by destruct s. }
  2:{ unfold read_range. by rewrite (truthy_contains _ _ Hc). }
  by rewrite Hrows, Hcols.
Qed.

Lemma max_row_empty ws : _cells ws = ∅ → max_row ws = 1 ∧ max_column ws = 1.
Proof. intros H. unfold max_row, max_column. rewrite H, map_to_list_empty. done. Qed.

(** X21: a read without a range of a sheet without cells succeeds with
    no data: [data] is the empty list, [rows] and [columns] are 0, and the
    range it reports is "A1:A1". *)
Theorem read_of_empty_sheet p sn d sw ws name :
  d !! p = Some (Encoded sw) → file_format p ∈ SUPPORTED_FORMATS →
  select_sheet sn (decode true sw) = Return (ws, name) →
  _cells ws = ∅ →
  read_excel_file p sn None d
  = (Return [("success", PBool true);
             ("data", PList []);
             ("sheet_name", PStr name);
             ("range", PStr "A1:A1");
             ("rows", PInt 0);
             ("columns", PInt 0)], d).
Proof.
  intros Hd Hf Hs He. destruct (max_row_empty ws He) as [Hmr Hmc].
  destruct (iter_rows_run None None None None ws) as (ws' & Hit & Hfe).
  { intros k Hk. apply in_rect_spec in Hk. simpl in Hk. unfold valid_coord. lia. }
  rewrite Hmr, Hmc in Hit, Hfe. simpl in Hit, Hfe.
  destruct Hfe as (_ & _ & _ & Hl).
  assert (Hkeys : ∀ k, is_Some (_cells ws' !! k) ↔ k = (1, 1)).
  { intros k. rewrite Hl, He, lookup_empty.
    destruct (in_rect (1, 1, 1, 1) k) eqn:E.
    - assert (Hin : in_rect (1, 1, 1, 1) k) by by rewrite E.
      apply in_rect_spec in Hin. split; [intros _|by eauto]. destruct k; simpl in *.
      f_equal; lia.
    - split; [by intros [? ?]|]. intros ->. by vm_compute in E. }
  assert (Hmr' : max_row ws' = 1).
  { apply Z.le_antisymm.
    - apply max_row_le; [lia|]. intros k Hk. apply Hkeys in Hk. by subst.
    - apply (max_row_ge ws' (1, 1)). by apply Hkeys. }
  assert (Hmc' : max_column ws' = 1).
  { apply Z.le_antisymm.
    - apply max_column_le; [lia|]. intros k Hk. apply Hkeys in Hk. by subst.
    - apply (max_column_ge ws' (1, 1)). by apply Hkeys. }
  erewrite read_excel_file_run; [|done|done|done| |].
  2:{ unfold read_data. cbn [truthy_str]. rewrite Hit. cbn [obind].
      change (values_of ws' <$> coords_by_row 1 1 1 1) with [values_of ws' [(1, 1)]].
      assert (Hv : values_of ws' [(1, 1)] = [PNone]).
      { unfold values_of. simpl. unfold cell_at at 1. rewrite Hl. simpl.
        unfold cell_at. by rewrite He, lookup_empty. }
      rewrite Hv. reflexivity. }
  2:{ unfold read_range. simpl. by rewrite Hmr', Hmc'. }
  reflexivity.
Qed.

Lemma ofold_collect {A B} (f : A → outcome B) (g : A → B) (l : list A) (acc : list B) :
  (∀ x, x ∈ l → f x = Return (g x)) →
  ofold (λ acc x, do y <- f x; Return (acc ++ [y])%list) l acc
  = Return (acc ++ (g <$> l))%list.
Proof.
  revert acc. induction l as [|x l IH]; intros acc H; simpl.
  - by rewrite app_nil_r.
  - rewrite (H x) by left. simpl. rewrite IH by (intros y Hy; apply H; by right).
    by rewrite <- app_assoc.
Qed.

(** X23: on a workbook that loads, with distinct sheet names and columns
    within the limit, [get_worksheet_info] succeeds and reports every
    sheet, in the order of the workbook: its name, its last row and column
    (1 and 1 for a sheet without cells), the letter of that column, and
    whether it is the active sheet; [total_worksheets] is the number of
    sheets. *)
Theorem get_worksheet_info_lists_every_sheet p d sw :
  d !! p = Some (Encoded sw) → file_format p ∈ SUPPORTED_FORMATS →
  NoDup (s_title <$> s_sheets sw) → (s_active sw < length (s_sheets sw))%nat →
  (∀ sws k, sws ∈ s_sheets sw → is_Some (s_cells sws !! k) → 1 ≤ k.2 ≤ 18278) →
  ∃ infos,
    get_worksheet_info p d
    = (Return [("success", PBool true);
               ("file_path", PStr p);
               ("total_worksheets", PInt (len (s_sheets sw)));
               ("worksheets", PList infos)], d)
    ∧ length infos = length (s_sheets sw)
    ∧ ∀ i sws, s_sheets sw !! i = Some sws → infos !! i = Some (sheet_report sw i sws).
Proof.
  intros Hd Hf Hnd Hact Hlim.
  set (wb := decode true sw).
  set (g := λ name, match wb_getitem name wb with
                    | Some (i, ws) =>
                        PDict [("name", PStr name);
                               ("max_row", PInt (max_row ws));
                               ("max_column", PInt (max_column ws));
                               ("max_column_letter",
                                PStr (column_letters 3 (max_column ws) EmptyString));
                               ("is_active", PBool (bool_decide (Some i = fst <$> active wb)))]
                    | None => PNone
                    end).
  assert (Hsheet : ∀ i sws, s_sheets sw !! i = Some sws →
            wb_getitem (s_title sws) wb = Some (i, load_worksheet true sws)
            ∧ 1 ≤ max_column (load_worksheet true sws) ≤ 18278).
  { intros i sws Hi. split.
    - apply (wb_getitem_unique wb i (load_worksheet true sws)).
      + unfold wb. by rewrite sheetnames_decode.
      + unfold wb, decode. simpl. by rewrite list_lookup_fmap, Hi.
    - split.
      + apply max_column_ge_1. intros k Hk. apply load_worksheet_keys in Hk.
        edestruct Hlim as [? _]; [by eapply list_elem_of_lookup_2|exact Hk|done].
      + apply max_column_le; [lia|]. intros k Hk. apply load_worksheet_keys in Hk.
        edestruct Hlim as [_ ?]; [by eapply list_elem_of_lookup_2|exact Hk|done]. }
  assert (Hinfo : ∀ name, name ∈ sheetnames wb → sheet_info wb name = Return (g name)).
  { intros name Hin. unfold wb in Hin. rewrite sheetnames_decode in Hin.
    apply list_elem_of_fmap in Hin as (sws & -> & Hin).
    apply list_elem_of_lookup in Hin as [i Hi].
    destruct (Hsheet i sws Hi) as [Hg Hmc]. unfold sheet_info, g. rewrite Hg.
    unfold get_column_letter.
    destruct (1 <=? max_column _) eqn:E1; [|lia].
    destruct (max_column _ <=? 18278) eqn:E2; [|lia]. done. }
  exists (g <$> sheetnames wb). split_and!.
  - unfold get_worksheet_info, try_except, bind, os_path_exists.
    rewrite (exists_present _ _ _ Hd). cbn [negb]. rewrite (load_run _ _ _ _ Hd Hf).
    fold wb. unfold lift. rewrite (ofold_collect _ g _ [] Hinfo). cbn beta iota.
    unfold ret. do 5 f_equal. do 2 f_equal. unfold len. rewrite app_nil_l.
    unfold wb. rewrite sheetnames_decode. by rewrite !length_fmap.
  - unfold wb. rewrite sheetnames_decode. by rewrite !length_fmap.
  - intros i sws Hi. unfold wb at 1. rewrite sheetnames_decode.
    rewrite !list_lookup_fmap, Hi. simpl. f_equal.
    destruct (Hsheet i sws Hi) as [Hg _]. unfold g. rewrite Hg. unfold sheet_report.
    do 6 f_equal. do 2 f_equal. unfold active, wb, decode. simpl.
    destruct (lookup_lt_is_Some_2 (s_sheets sw) (s_active sw) Hact) as [a Ha].
    rewrite list_lookup_fmap, Ha. simpl.
    apply bool_decide_ext. split; [by intros [= ->]|by intros ->].
Qed.

Lemma zrange_cons lo hi : lo ≤ hi → zrange lo hi = lo :: zrange (lo + 1) hi.
Proof.
  intros H. unfold zrange. rewrite seqZ_cons by lia. f_equal. f_equal. lia.
Qed.

Lemma range_boundaries_truthy key b :
  range_boundaries key = Return b → b ≠ (None, None, None, None) →
  truthy_str (Some key) = true.
Proof. destruct key; [|done]. intros H Hb. vm_compute in H. congruence. Qed.

Lemma read_data_single key ws :
  single_reference key → within_limits ws →
  read_data (Some key) ws = Raise (Exn TypeError "'Cell' object is not iterable").
Proof.
  intros Hk Hw. pose proof (max_row_bounds ws Hw) as Hmr.
  pose proof (max_column_bounds ws Hw) as Hmc.
  unfold read_data. destruct Hk as [c r mc mr Hc Hb Hr|c Hb|r Hb Hr];
    rewrite (range_boundaries_truthy _ _ Hb) by done; change (default "" (Some key)) with key;
    unfold ws_getitem; rewrite Hb; cbn [obind];
    destruct (range_boundaries_cols _ _ _ _ _ Hb) as [H1 H2].
  - specialize (H1 c eq_refl). rewrite (or_default_nonzero c 0) by lia.
    assert (E : (c =? 0) = false) by lia. rewrite E. cbn [andb]. rewrite Hc. cbn [negb].
    unfold _get_cell. assert (Hv : (0 <? r) && (r <? 1048577) = true) by lia.
    rewrite Hv. reflexivity.
  - specialize (H1 c eq_refl). rewrite (or_default_nonzero c 0) by lia.
    assert (E : (c =? 0) = false) by lia. rewrite E. cbn [andb].
    unfold iter_cols. rewrite (or_default_nonzero c) by lia.
    rewrite (or_default_nonzero c) by lia. cbn [or_default].
    edestruct (touch_rect (coords_by_col c 1 c (max_row ws)) 1 (max_row ws) c c ws)
      as (ws' & -> & _).
    { intros k. rewrite elem_of_coords_by_col, in_rect_spec. done. }
    { intros k Hk. apply in_rect_spec in Hk. unfold valid_coord. lia. }
    cbn [obind]. rewrite bool_decide_true by done.
    unfold coords_by_col. rewrite zrange_one. cbn [fmap list_fmap].
    rewrite (zrange_cons 1 (max_row ws)) by lia. reflexivity.
  - assert (E : (or_default (Some r) 0 =? 0) = false).
    { rewrite or_default_nonzero by lia. lia. }
    rewrite E. rewrite andb_false_r. cbn [andb].
    unfold iter_rows.
    assert (HR : or_default (Some (max_column ws)) (max_column ws) = max_column ws).
    { unfold or_default. by destruct (max_column ws =? 0). }
    rewrite HR. rewrite !(or_default_nonzero r) by lia. cbn [or_default].
    edestruct (touch_rect (coords_by_row 1 r (max_column ws) r) r r 1 (max_column ws) ws)
      as (ws' & -> & _).
    { intros k. rewrite elem_of_coords_by_row, in_rect_spec. done. }
    { intros k Hk. apply in_rect_spec in Hk. unfold valid_coord. lia. }
    cbn [obind]. rewrite bool_decide_true by done.
    unfold coords_by_row. rewrite zrange_one. cbn [fmap list_fmap].
    rewrite (zrange_cons 1 (max_column ws)) by lia. reflexivity.
Qed.

(** X22: a read with a range that names one cell ("A1"), one column ("A",
    "A:A") or one row ("3", "3:3") fails with the error "'Cell' object is
    not iterable": the library answers such a reference with a cell or a
    flat tuple of cells, and the read iterates over each of its items. *)
Theorem read_of_single_reference_fails p s key d sws :
  file_format p ∈ SUPPORTED_FORMATS →
  stored_sheet d p s = Some sws → s ≠ "" →
  within_limits (load_worksheet true sws) →
  single_reference key →
  read_excel_file p (Some s) (Some key) d
  = (Return [("success", PBool false);
             ("error", PStr "'Cell' object is not iterable");
             ("data", PList [])], d).
Proof.
  intros Hf Hs Hne Hw Hk.
  apply stored_sheet_Some in Hs as (sw & i & Hd & Hfind).
  unfold read_excel_file, try_except, bind, os_path_exists.
  rewrite (exists_present _ _ _ Hd). cbn [negb]. rewrite (load_run _ _ _ _ Hd Hf).
  unfold lift. erewrite select_sheet_stored; [|by destruct s|done]. cbn beta iota.
  rewrite read_data_single by done. reflexivity.
Qed.

(** ** References, titles and arguments that are refused *)

Lemma ws_setitem_invalid key v ws e :
  range_boundaries key = Raise e → ws_setitem key v ws = Raise e.
Proof. intros H. unfold ws_setitem, ws_getitem. by rewrite H. Qed.

Lemma span_sall p s a b : span p s = (a, b) → sall p a = true.
Proof.
  revert a b. induction s as [|c s IH]; intros a b; simpl.
  - by intros [= <- <-].
  - destruct (p c) eqn:Ec.
    + destruct (span p s) as [a' b']. intros [= <- <-]. simpl.
      rewrite Ec. simpl. by eapply IH.
    + by intros [= <- <-].
Qed.

Lemma upper_alpha s : sall is_alpha s = true → sall is_upper (upper s) = true.
Proof.
  induction s as [|c s IH]; simpl; [done|].
  intros [Hc Hs]%andb_true_iff. apply andb_true_iff. split; [|by apply IH].
  unfold upper_char. destruct (is_lower c) eqn:El.
  - unfold is_lower, code in El. unfold is_upper, code.
    apply andb_true_iff in El as [H1%Z.leb_le H2%Z.leb_le].
    assert (Hb : (N_of_ascii c - 32 < 256)%N) by lia.
    rewrite (N_ascii_embedding _ Hb).
    apply andb_true_iff. split; apply Z.leb_le; lia.
  - unfold is_alpha in Hc. rewrite El in Hc. by rewrite orb_false_r in Hc.
Qed.

Lemma slen_upper s : slen (upper s) = slen s.
Proof. unfold slen, upper. f_equal. induction s; simpl; congruence. Qed.

Lemma corner_letters k t b rest :
  corner k = Some (Some t, b, rest) → ∃ n, column_index_from_string t = Return n.
Proof.
  unfold corner.
  destruct (span is_alpha (opt_dollar k)) as [letters s1] eqn:Hsp.
  destruct (3 <? slen letters) eqn:E3; [done|].
  destruct (span is_digit (opt_dollar s1)) as [digits s2].
  unfold group. destruct (String.eqb letters "") eqn:Ee; [done|].
  intros [= <- <- <-]. apply span_sall in Hsp.
  unfold column_index_from_string. rewrite (upper_alpha _ Hsp), slen_upper. simpl.
  assert (H1 : (1 <=? slen letters) = true).
  { destruct letters; [done|]. apply Z.leb_le. unfold slen. simpl. lia. }
  rewrite H1. simpl. apply Z.ltb_ge in E3.
  assert (H3 : (slen letters <=? 3) = true) by lia. rewrite H3. by eexists.
Qed.

Lemma absolute_re_cols key g1 g2 sep g3 g4 t :
  absolute_re key = Some (g1, g2, sep, g3, g4) →
  g1 = Some t ∨ g3 = Some t → ∃ n, column_index_from_string t = Return n.
Proof.
  unfold absolute_re.
  destruct (corner key) as [[[a b] rest]|] eqn:Hc1; [|done].
  intros Ha Hs.
  assert (Hnosep : (if at_end rest then Some (a, b, false, @None string, @None string)
                    else None) = Some (g1, g2, sep, g3, g4) →
                   ∃ n, column_index_from_string t = Return n).
  { destruct (at_end rest); [|done]. intros [= <- <- <- <- <-].
    destruct Hs as [->|Hs]; [|done]. by eapply corner_letters. }
  destruct rest as [|ch rest']; [by apply Hnosep|].
  destruct (Ascii.eqb ch ":") eqn:Ech.
  - apply Ascii.eqb_eq in Ech. subst ch.
    destruct (corner rest') as [[[a2 b2] rest2]|] eqn:Hc2; [|done].
    destruct (at_end rest2); [|done]. injection Ha as <- <- <- <- <-.
    destruct Hs as [->| ->]; by eapply corner_letters.
  - apply Hnosep. revert Ha. apply Ascii.eqb_neq in Ech.
    destruct ch as [[] [] [] [] [] [] [] []]; done.
Qed.

Lemma range_boundaries_msg key e :
  range_boundaries key = Raise e →
  str_exn e = key ++ " is not a valid coordinate or range".
Proof.
  unfold range_boundaries.
  destruct (absolute_re key) as [[[[[g1 g2] sep] g3] g4]|] eqn:Ha; [|by intros [= <-]].
  destruct (sep && _); [by intros [= <-]|].
  destruct g1 as [s1|]; simpl.
  - destruct (absolute_re_cols _ _ _ _ _ _ s1 Ha (or_introl eq_refl)) as [n1 ->]. simpl.
    destruct g3 as [s3|]; simpl; [|done].
    destruct (absolute_re_cols _ _ _ _ _ _ s3 Ha (or_intror eq_refl)) as [n3 ->]. done.
  - destruct g3 as [s3|]; simpl; [|done].
    destruct (absolute_re_cols _ _ _ _ _ _ s3 Ha (or_intror eq_refl)) as [n3 ->]. done.
Qed.

Lemma select_sheet_found b sw s :
  s ≠ "" → s ∈ s_title <$> s_sheets sw →
  ∃ ws, select_sheet (Some s) (decode b sw) = Return (ws, s).
Proof.
  intros Hne Hin. unfold select_sheet.
  assert (Ht : truthy_str (Some s) = true) by by destruct s.
  rewrite Ht. change (default "" (Some s)) with s.
  destruct (require_sheet_found s (decode b sw)) as (i & ws & Hr).
  { by rewrite sheetnames_decode. }
  apply require_sheet_Return in Hr. rewrite Hr.
  rewrite bool_decide_true by by rewrite sheetnames_decode. by eexists.
Qed.

(** X7: on a workbook that loads and has the sheet, a reference that the
    grammar of references refuses makes [update_cell], [apply_formula] and
    a read fail with the error "<reference> is not a valid coordinate or
    range", and leaves the disk as it was. *)
Theorem invalid_reference_is_reported p s key d sw :
  d !! p = Some (Encoded sw) → file_format p ∈ SUPPORTED_FORMATS →
  s ∈ s_title <$> s_sheets sw →
  (∀ b, range_boundaries key ≠ Return b) →
  (∀ v, update_cell p s key v d
        = (Return (failure_record (key ++ " is not a valid coordinate or range")), d))
  ∧ (∀ f, apply_formula p s key f d
          = (Return (failure_record (key ++ " is not a valid coordinate or range")), d))
  ∧ (s ≠ "" →
     read_excel_file p (Some s) (Some key) d
     = (Return [("success", PBool false);
                ("error", PStr (key ++ " is not a valid coordinate or range"));
                ("data", PList [])], d)).
Proof.
  intros Hd Hf Hs Hb.
  destruct (range_boundaries key) as [b|e] eqn:He; [by destruct (Hb b)|].
  pose proof (range_boundaries_msg _ _ He) as Hmsg.
  destruct (require_sheet_found s (decode false sw)) as (i & ws & Hreq).
  { by rewrite sheetnames_decode. }
  split_and!.
  - intros v. unfold update_cell, try_except, bind, os_path_exists.
    rewrite (exists_present _ _ _ Hd). cbn [negb]. rewrite (load_run _ _ _ _ Hd Hf).
    unfold lift. rewrite Hreq. cbn beta iota.
    rewrite (ws_setitem_invalid _ _ _ _ He). unfold failure, ret, failure_record.
    by rewrite Hmsg.
  - intros f. unfold apply_formula, try_except, bind, os_path_exists.
    rewrite (exists_present _ _ _ Hd). cbn [negb]. rewrite (load_run _ _ _ _ Hd Hf).
    unfold lift. rewrite Hreq. cbn beta iota.
    rewrite (ws_setitem_invalid _ _ _ _ He). unfold failure, ret, failure_record.
    by rewrite Hmsg.
  - intros Hne. destruct (select_sheet_found true sw s Hne Hs) as [wsr Hsel].
    assert (Hk : truthy_str (Some key) = true).
    { destruct key; [by vm_compute in He|done]. }
    unfold read_excel_file, try_except, bind, os_path_exists.
    rewrite (exists_present _ _ _ Hd). cbn [negb]. rewrite (load_run _ _ _ _ Hd Hf).
    unfold lift. rewrite Hsel. cbn beta iota.
    unfold read_data. rewrite Hk. change (default "" (Some key)) with key.
    unfold ws_getitem. rewrite He. cbn [obind]. unfold ret. by rewrite Hmsg.
Qed.

(** X6: [update_cell] and [apply_formula] accept a reference to one cell
    only: with a reference that holds ":" or whose row is not between 1
    and 1048576 they fail, whatever the disk holds, and leave it as it
    was. *)
Theorem cell_reference_outside_one_cell_is_refused p s key d :
  contains_char ":" key = true
  ∨ (∃ c r mc mr, range_boundaries key = Return (Some c, Some r, mc, mr)
                  ∧ ¬ (1 ≤ r ≤ 1048576)) →
  (∀ v, ∃ rec, update_cell p s key v d = (Return rec, d) ∧ failed rec)
  ∧ (∀ f, ∃ rec, apply_formula p s key f d = (Return rec, d) ∧ failed rec).
Proof.
  intros Hk.
  assert (Hno : ∀ v ws ws', ws_setitem key v ws ≠ Return ws').
  { intros v ws ws' Hset.
    apply ws_setitem_Return in Hset as (Hn & r & c & mc & mr & cl & Hb & Hv & _).
    destruct Hk as [Hk|(c' & r' & mc' & mr' & Hb' & Hr)]; [congruence|].
    rewrite Hb in Hb'. injection Hb' as <- <- <- <-.
    unfold valid_row in Hv. apply Hr. lia. }
  split.
  - intros v. destruct (update_cell_cases p s key v d)
      as (r & d' & H & [[Hf ->]|(sw & i & ws & ws' & _ & _ & _ & Hset & _)]); [by eauto|].
    by apply Hno in Hset.
  - intros f. destruct (apply_formula_cases p s key f d)
      as (r & d' & H & [[Hf ->]|(sw & i & ws & ws' & _ & _ & _ & Hset & _)]); [by eauto|].
    by apply Hno in Hset.
Qed.

Section MoreWrites.
Variable avoid_duplicate_name : list string → string → string.
Variable chart_series : string → outcome (list string).

(** X15: a new sheet whose name holds one of the characters \ * ? : / [ ]
    is refused: [add_worksheet], and a write that would create the sheet,
    fail with the error "Invalid character <c> found in sheet title", for
    the first such character, and leave the disk as it was. *)
Theorem invalid_sheet_title_is_refused p s d sw :
  d !! p = Some (Encoded sw) → file_format p ∈ SUPPORTED_FORMATS →
  s ∉ s_title <$> s_sheets sw → sany invalid_title_char s = true →
  add_worksheet avoid_duplicate_name p s d
  = (Return (failure_record ("Invalid character " ++ first_char invalid_title_char s
                             ++ " found in sheet title")), d)
  ∧ (∀ row data headers,
       write_excel_file avoid_duplicate_name p (row :: data) (Some s) headers d
       = (Return (failure_record ("Invalid character " ++ first_char invalid_title_char s
                                  ++ " found in sheet title")), d)).
Proof.
  intros Hd Hf Hs Hinv.
  assert (Hne : String.eqb s "" = false) by by destruct s.
  assert (Ht : truthy_str (Some s) = true) by by destruct s.
  split.
  - unfold add_worksheet, try_except, bind, os_path_exists.
    rewrite (exists_present _ _ _ Hd). cbn [negb]. rewrite (load_run _ _ _ _ Hd Hf).
    rewrite bool_decide_false by by rewrite sheetnames_decode.
    unfold lift, create_sheet. rewrite Hne, Hinv. reflexivity.
  - intros row data headers. unfold write_excel_file, try_except, bind, os_path_exists.
    rewrite (exists_present _ _ _ Hd). rewrite (load_run _ _ _ _ Hd Hf).
    unfold lift, target_sheet. rewrite Ht. change (default "" (Some s)) with s.
    rewrite bool_decide_false by by rewrite sheetnames_decode.
    unfold create_sheet. rewrite Hne, Hinv. reflexivity.
Qed.


(** X2: two arguments are checked before the workbook is opened: a write
    without rows fails with "No data provided to write" and creates no
    file, and [create_chart] on a path that exists fails with "Unsupported
    chart type: <type>" for a type other than line, bar, pie and scatter,
    whatever the file holds. *)
Theorem arguments_are_checked_before_loading p d :
  (∀ sn headers,
     write_excel_file avoid_duplicate_name p [] sn headers d
     = (Return (failure_record "No data provided to write"), d))
  ∧ (∀ s key t ti po, is_Some (d !! p) → t ∉ chart_types →
       create_chart chart_series p s key t ti po d
       = (Return (failure_record ("Unsupported chart type: " ++ t)), d)).
Proof.
  split; [done|]. intros s key t ti po [x Hd] Ht.
  unfold create_chart, try_except, bind, os_path_exists.
  rewrite (exists_present _ _ _ Hd). cbn [negb].
  rewrite bool_decide_false by done. reflexivity.
Qed.

End MoreWrites.

(** ** The further properties on the examples *)

Lemma missing_file_is_reported_witness :
  ∃ r, call avoid_duplicate_name whole_range_series (ReadExcelFile "none.xlsx" None None) book_disk
       = (Return r, book_disk)
       ∧ dict_get "success" r = Some (PBool false)
       ∧ dict_get "error" r = Some (PStr "File not found: none.xlsx").
Proof.
  apply (missing_file_is_reported avoid_duplicate_name whole_range_series
           (ReadExcelFile "none.xlsx" None None) book_disk); [by vm_compute|reflexivity].
Defined.

Lemma supported_book : file_format "book.xlsx" ∈ SUPPORTED_FORMATS.
Proof. apply (bool_decide_unpack _). by vm_compute. Qed.

Lemma book_disk_lookup : book_disk !! "book.xlsx" = Some (Encoded (mkStoredWorkbook [sheet_S] 0)).
Proof. by vm_compute. Qed.

Lemma sheet_S_within_limits : within_limits (load_worksheet true sheet_S).
Proof.
  intros k [x Hk]. unfold load_worksheet in Hk. cbn [_cells] in Hk.
  rewrite lookup_fmap in Hk. destruct (s_cells sheet_S !! k) as [y|] eqn:E; [|done].
  unfold sheet_S in E. cbn [s_cells] in E.
  apply elem_of_list_to_map_2, list_elem_of_In in E. simpl in E.
  destruct E as [E|[E|[E|[E|[E|[E|[]]]]]]]; injection E as <- _; simpl; lia.
Qed.

Lemma book_in_grid : file_in_grid (mkStoredWorkbook [sheet_S] 0).
Proof.
  intros sws k Hin Hk. apply list_elem_of_singleton in Hin. subst sws.
  destruct (sheet_S_within_limits k) as [_ ?]; [|done].
  by apply load_worksheet_keys.
Qed.

Lemma missing_sheet_is_reported_witness :
  update_cell "book.xlsx" "T" "A1" (PInt 1) book_disk
  = (Return (failure_record "Worksheet 'T' not found"), book_disk).
Proof.
  destruct (missing_sheet_is_reported whole_range_series "book.xlsx" "T" book_disk
              (mkStoredWorkbook [sheet_S] 0)) as (_ & H & _);
    [exact book_disk_lookup|exact supported_book
    |apply (bool_decide_unpack _); by vm_compute|exact (H "A1" (PInt 1))].
Defined.

Lemma unsupported_extension_is_refused_witness :
  file_format "book.xls" ∈ supported_formats
  ∧ success_of (write_excel_file avoid_duplicate_name "book.xls" [[PInt 1]] None None ∅)
  = Some (PBool true)
  ∧ ∃ r, call avoid_duplicate_name whole_range_series (ReadExcelFile "book.xls" None None) xls_disk
         = (Return r, xls_disk) ∧ failed r.
Proof.
  split; [apply (bool_decide_unpack _); by vm_compute|].
  split; [by vm_compute|].
  apply (unsupported_extension_is_refused avoid_duplicate_name whole_range_series
           (ReadExcelFile "book.xls" None None) xls_disk).
  - apply (bool_decide_unpack _). by vm_compute.
  - apply (bool_decide_unpack _). by vm_compute.
Defined.

Lemma cell_reference_outside_one_cell_is_refused_witness :
  ∃ rec, update_cell "book.xlsx" "S" "A1:B2" (PInt 1) book_disk = (Return rec, book_disk)
         ∧ failed rec.
Proof.
  destruct (cell_reference_outside_one_cell_is_refused "book.xlsx" "S" "A1:B2" book_disk)
    as [H _]; [by left|exact (H (PInt 1))].
Defined.

Lemma invalid_reference_is_reported_witness :
  update_cell "book.xlsx" "S" "A1:B" (PInt 1) book_disk
  = (Return (failure_record "A1:B is not a valid coordinate or range"), book_disk).
Proof.
  destruct (invalid_reference_is_reported "book.xlsx" "S" "A1:B" book_disk
              (mkStoredWorkbook [sheet_S] 0)) as (H & _);
    [exact book_disk_lookup|exact supported_book
    |apply (bool_decide_unpack _); by vm_compute
    |intros b Hb; by vm_compute in Hb|exact (H (PInt 1))].
Defined.

Lemma after_update_run :
  update_cell "book.xlsx" "S" "B2" (PInt 9) book_disk
  = (Return after_update.1, after_update.2).
Proof. by vm_compute. Qed.




Lemma after_bold_run :
  format_cells "book.xlsx" "S" "A1:A1" bold_only book_disk
  = (Return after_bold.1, after_bold.2).
Proof. by vm_compute. Qed.


Lemma format_cells_rejects_bad_colour_witness :
  format_cells "book.xlsx" "S" "A1:C1" yellow_header book_disk
  = (Return (failure_record "Colors must be aRGB hex values"), book_disk).
Proof.
  apply (format_cells_rejects_bad_colour "book.xlsx" "S" "A1:C1" yellow_header book_disk
           (mkStoredWorkbook [sheet_S] 0) "yellow");
    [exact book_disk_lookup|exact supported_book
    |apply (bool_decide_unpack _); by vm_compute|by right|done
    |intros x Hx; by vm_compute in Hx].
Defined.

Lemma after_chart_run :
  create_chart whole_range_series "book.xlsx" "S" "A1:B2" "line" (Some "Totals") None
    book_disk
  = (Return after_chart.1, after_chart.2).
Proof. by vm_compute. Qed.



Lemma invalid_sheet_title_is_refused_witness :
  add_worksheet avoid_duplicate_name "book.xlsx" "a/b" book_disk
  = (Return (failure_record "Invalid character / found in sheet title"), book_disk).
Proof.
  apply (invalid_sheet_title_is_refused avoid_duplicate_name "book.xlsx" "a/b" book_disk
           (mkStoredWorkbook [sheet_S] 0));
    [exact book_disk_lookup|exact supported_book
    |apply (bool_decide_unpack _); by vm_compute|reflexivity].
Defined.

Lemma verify_write_run :
  write_excel_file avoid_duplicate_name "verification_test.xlsx" verify_rows
    (Some "Test") (Some ["Test"; "Data"]) ∅
  = (Return verify_write.1, verify_write.2).
Proof. by vm_compute. Qed.



Lemma after_named_write_run :
  write_excel_file avoid_duplicate_name "book.xlsx" [[PInt 9]] (Some "S") None book_disk
  = (Return after_named_write.1, after_named_write.2).
Proof. by vm_compute. Qed.


Lemma after_unnamed_write_run :
  write_excel_file avoid_duplicate_name "book.xlsx" [[PInt 9]] None None book_disk
  = (Return after_unnamed_write.1, after_unnamed_write.2).
Proof. by vm_compute. Qed.


Lemma stored_sheet_S : stored_sheet book_disk "book.xlsx" "S" = Some sheet_S.
Proof. by vm_compute. Qed.

Lemma read_range_returns_rectangle_witness :
  read_excel_file "book.xlsx" (Some "S") (Some "A1:B2") book_disk
  = (Return [("success", PBool true);
             ("data", PList (PList <$> row_major (load_worksheet true sheet_S) (1, 2, 1, 2)));
             ("sheet_name", PStr "S");
             ("range", PStr "A1:B2");
             ("rows", PInt (2 - 1 + 1));
             ("columns", PInt (2 - 1 + 1))], book_disk).
Proof.
  apply (read_range_returns_rectangle "book.xlsx" "S" "A1:B2" book_disk sheet_S 1 1 2 2);
    [exact supported_book|exact stored_sheet_S|done|by vm_compute|done|lia|lia|lia].
Defined.

Lemma read_of_empty_sheet_witness :
  read_excel_file "empty.xlsx" None None empty_book
  = (Return [("success", PBool true);
             ("data", PList []);
             ("sheet_name", PStr "Sheet");
             ("range", PStr "A1:A1");
             ("rows", PInt 0);
             ("columns", PInt 0)], empty_book).
Proof.
  apply (read_of_empty_sheet "empty.xlsx" None empty_book
           (mkStoredWorkbook [mkStoredWorksheet "Sheet" ∅ []] 0)
           (load_worksheet true (mkStoredWorksheet "Sheet" ∅ [])) "Sheet");
    [by vm_compute|apply (bool_decide_unpack _); by vm_compute|reflexivity|].
  unfold load_worksheet. cbn [_cells s_cells]. apply fmap_empty.
Defined.

Lemma read_of_single_reference_fails_witness :
  read_excel_file "book.xlsx" (Some "S") (Some "A1") book_disk
  = (Return [("success", PBool false);
             ("error", PStr "'Cell' object is not iterable");
             ("data", PList [])], book_disk).
Proof.
  apply (read_of_single_reference_fails "book.xlsx" "S" "A1" book_disk sheet_S);
    [exact supported_book|exact stored_sheet_S|done|exact sheet_S_within_limits|].
  apply (single_cell "A1" 1 1 (Some 1) (Some 1)); [reflexivity|by vm_compute|lia].
Defined.

Lemma get_worksheet_info_lists_every_sheet_witness :
  ∃ infos,
    get_worksheet_info "book.xlsx" book_disk
    = (Return [("success", PBool true);
               ("file_path", PStr "book.xlsx");
               ("total_worksheets", PInt 1);
               ("worksheets", PList infos)], book_disk)
    ∧ infos !! 0%nat = Some (sheet_report (mkStoredWorkbook [sheet_S] 0) 0 sheet_S).
Proof.
  destruct (get_worksheet_info_lists_every_sheet "book.xlsx" book_disk
              (mkStoredWorkbook [sheet_S] 0)) as (infos & H1 & _ & H3);
    [exact book_disk_lookup|exact supported_book
    |apply (bool_decide_unpack _); by vm_compute|simpl; lia| |].
  - intros sws k Hin Hk. apply list_elem_of_singleton in Hin. subst sws.
    destruct (sheet_S_within_limits k) as [_ ?]; [|done].
    by apply load_worksheet_keys.
  - exists infos. split; [exact H1|]. by apply H3.
Defined.
(** ** A failure and the disk *)

Lemma readonly_bind {A B} (m : M A) (k : A → M B) :
  readonly m → (∀ a, readonly (k a)) → readonly (bind m k).
Proof.
  intros Hm Hk d. unfold bind. specialize (Hm d).
  destruct (m d) as [[a|e] d1]; simpl in Hm; subst d1; [apply Hk|done].
Qed.

Lemma readonly_try_except {A} (body : M A) (handler : exn → M A) :
  readonly body → (∀ e, readonly (handler e)) → readonly (try_except body handler).
Proof.
  intros Hb Hh d. unfold try_except. specialize (Hb d).
  destruct (body d) as [[a|e] d1]; simpl in Hb; subst d1; [done|apply Hh].
Qed.

Ltac solve_reads :=
  repeat first
    [ apply readonly_ret | apply readonly_raise | apply readonly_lift
    | apply readonly_exists | apply readonly_load
    | apply readonly_bind; [|intros ?]
    | match goal with
      | |- readonly (match ?x with _ => _ end) => destruct x
      | |- readonly (if ?b then _ else _) => destruct b
      end ].

Lemma read_excel_file_readonly p s r : readonly (read_excel_file p s r).
Proof.
  unfold read_excel_file. apply readonly_try_except; [|intros e; apply readonly_ret].
  solve_reads.
Qed.

Lemma get_worksheet_info_readonly p : readonly (get_worksheet_info p).
Proof.
  unfold get_worksheet_info, failure.
  apply readonly_try_except; [|intros e; apply readonly_ret]. solve_reads.
Qed.

(** What the writer has accepted lies in the grid. *)
Lemma encode_in_grid wb : check_workbook wb = Return tt → file_in_grid (encode wb).
Proof.
  intros Hc sws k Hin Hk. unfold encode in Hin. cbn [s_sheets] in Hin.
  apply list_elem_of_fmap in Hin as (ws & -> & Hws).
  apply list_elem_of_lookup in Hws as [i Hi].
  pose proof (check_workbook_lookup _ _ _ Hc Hi) as Hw.
  apply check_worksheet_Return in Hw as [Hg _]. apply Hg.
  rewrite lookup_stored in Hk. destruct (_cells ws !! k) as [c|]; [by eexists|].
  by destruct Hk.
Qed.

Lemma disk_in_grid_saved d p wb :
  disk_in_grid d → check_workbook wb = Return tt →
  disk_in_grid (<[p := Encoded (encode wb)]> d).
Proof.
  intros Hd Hc q sw. destruct (decide (q = p)) as [->|Hne].
  - rewrite lookup_insert_eq. intros [= <-]. by apply encode_in_grid.
  - rewrite lookup_insert_ne by done. apply Hd.
Qed.

Lemma disk_in_grid_corrupt d p : disk_in_grid d → disk_in_grid (<[p := Corrupt]> d).
Proof.
  intros Hd q sw. destruct (decide (q = p)) as [->|Hne].
  - by rewrite lookup_insert_eq.
  - rewrite lookup_insert_ne by done. apply Hd.
Qed.

Lemma or_default_cases x y : or_default x y = y ∨ x = Some (or_default x y).
Proof.
  unfold or_default. destruct x as [n|]; [|by left]. destruct (n =? 0); [by left|by right].
Qed.

(** A sheet of a file in the grid stays in the grid under [ws[key] = v]
    and under the formatting loop: a reference names no column past
    "ZZZ". *)
Lemma ws_setitem_checked key v ws ws2 :
  ws_setitem key v ws = Return ws2 → check_worksheet ws = Return tt →
  check_worksheet ws2 = Return tt.
Proof.
  intros Hset Hc.
  apply ws_setitem_Return in Hset as (_ & r & c & mc & mr & cl & Hb & _ & _ & ->).
  destruct (range_boundaries_cols _ _ _ _ _ Hb) as [H1 _].
  destruct (range_boundaries_cols_le _ _ _ _ _ Hb) as [H2 _].
  specialize (H1 c eq_refl). specialize (H2 c eq_refl).
  eapply check_worksheet_cells; [exact Hc|done|].
  intros k Hs. unfold put_cell in Hs. simpl in Hs.
  destruct (decide (k = (r, c))) as [->|Hne]; [right; simpl; lia|].
  rewrite lookup_insert_ne in Hs by done. by left.
Qed.

Lemma format_range_checked key fo fi o ws ws2 :
  format_range key fo fi o ws = Return ws2 → check_worksheet ws = Return tt →
  check_worksheet ws2 = Return tt.
Proof.
  intros Hfmt Hc.
  destruct (format_range_spec _ _ _ _ _ _ Hfmt) as (b & Hb & _ & Hch & Hv & Hl).
  eapply check_worksheet_cells; [exact Hc|done|].
  intros k Hs. rewrite Hl in Hs.
  destruct (in_rect _ k) eqn:E; [right|by left].
  destruct (Hv k) as [_ Hk1]; [by rewrite E|]. split; [done|].
  destruct b as [[[a b1] c] e]. unfold rect_of, in_rect in E.
  apply andb_true_iff in E as [_ E%Z.leb_le].
  destruct (range_boundaries_cols_le _ _ _ _ _ Hb) as [_ H2].
  apply check_worksheet_Return in Hc as [Hg _].
  destruct (or_default_cases c (max_column ws)) as [Hor|Hor].
  - rewrite Hor in E. etrans; [exact E|].
    apply max_column_le; [lia|]. intros k' Hk'. by apply Hg.
  - etrans; [exact E|]. by apply H2.
Qed.

Section Failure.
Variable avoid_duplicate_name : list string → string → string.
Variable chart_series : string → outcome (list string).

Lemma create_sheet_checked s wb wb2 i ws :
  create_sheet avoid_duplicate_name s wb = Return (wb2, i, ws) →
  check_workbook wb = Return tt → check_workbook wb2 = Return tt.
Proof.
  unfold create_sheet. destruct (sany _ _); [done|]. intros [= <- _ _] Hc.
  apply check_workbook_Return. simpl. apply Forall_app. split.
  - by apply check_workbook_Return.
  - apply Forall_singleton, check_worksheet_Return. split.
    + intros k [x Hx]. simpl in Hx. by rewrite lookup_empty in Hx.
    + by constructor.
Qed.

(** The workbook that one of the careful operations saves is accepted by
    the writer, on a disk in the grid. *)
Lemma update_checked (d : disk) p sw s i ws ws2 :
  disk_in_grid d → d !! p = Some (Encoded sw) →
  require_sheet s (decode false sw) = Return (i, ws) →
  (check_worksheet ws = Return tt → check_worksheet ws2 = Return tt) →
  check_workbook (update_sheet i ws2 (decode false sw)) = Return tt.
Proof.
  intros Hg Hd Hreq Hws.
  pose proof (check_workbook_loaded false sw (Hg p sw Hd)) as Hwb.
  apply check_workbook_update; [done|]. apply Hws.
  apply require_sheet_Return, wb_getitem_title in Hreq as [_ Hi].
  by eapply check_workbook_lookup.
Qed.

Lemma careful_failure_keeps_disk op d r d' :
  saves_unchecked op = false → disk_in_grid d →
  call avoid_duplicate_name chart_series op d = (Return r, d') →
  dict_get "success" r = Some (PBool false) → d' = d.
Proof.
  intros Hop Hg H Hfail.
  assert (Hns : ¬ succeeded r) by (unfold succeeded; congruence).
  destruct op; simpl in H; try done.
  - pose proof (read_excel_file_readonly file_path sheet_name cell_range d) as Hr.
    by rewrite H in Hr.
  - pose proof (get_worksheet_info_readonly file_path d) as Hr. by rewrite H in Hr.
  - destruct (add_worksheet_cases avoid_duplicate_name file_path sheet_name d)
      as (r0 & d0 & Hrun & [[_ ->]|(sw & wb2 & i & ws & Hd & _ & _ & Hcr & Hc)]);
      rewrite H in Hrun; injection Hrun as <- <-; [done|].
    destruct Hc as [(Hs & _)|(_ & [e He] & _)]; [done|].
    rewrite (create_sheet_checked _ _ _ _ _ Hcr) in He; [done|].
    apply check_workbook_loaded. by eapply Hg.
  - destruct (update_cell_cases file_path sheet_name cell_ value_ d)
      as (r0 & d0 & Hrun & [[_ ->]|(sw & i & ws & ws2 & Hd & _ & Hreq & Hset & Hc)]);
      rewrite H in Hrun; injection Hrun as <- <-; [done|].
    destruct Hc as [(Hs & _)|(_ & [e He] & _)]; [done|].
    rewrite (update_checked d file_path sw sheet_name i ws ws2) in He; try done.
    by eapply ws_setitem_checked.
  - destruct (apply_formula_cases file_path sheet_name cell_ formula d)
      as (r0 & d0 & Hrun & [[_ ->]|(sw & i & ws & ws2 & Hd & _ & Hreq & Hset & Hc)]);
      rewrite H in Hrun; injection Hrun as <- <-; [done|].
    destruct Hc as [(Hs & _)|(_ & [e He] & _)]; [done|].
    rewrite (update_checked d file_path sw sheet_name i ws ws2) in He; try done.
    by eapply ws_setitem_checked.
  - destruct (format_cells_cases file_path sheet_name cell_range format_options_ d)
      as (r0 & d0 & Hrun
          & [[_ ->]|(sw & i & ws & fo & fi & ws2 & Hd & _ & Hreq & _ & _ & Hfmt & Hc)]);
      rewrite H in Hrun; injection Hrun as <- <-; [done|].
    destruct Hc as [(Hs & _)|(_ & [e He] & _)]; [done|].
    rewrite (update_checked d file_path sw sheet_name i ws ws2) in He; try done.
    by eapply format_range_checked.
Qed.

(** Every operation keeps the disk in the grid: what it saves, the writer
    has accepted. *)
Lemma call_keeps_grid op d :
  disk_in_grid d → disk_in_grid (call avoid_duplicate_name chart_series op d).2.
Proof.
  intros Hg. destruct op; simpl.
  - by rewrite read_excel_file_readonly.
  - destruct (write_excel_file_cases avoid_duplicate_name file_path data sheet_name headers d)
      as (r0 & d0 & -> & [[_ ->]|(wb & wb2 & i & ws & name & ws2 & _ & _ & _ & _ & Hc)]);
      [done|].
    destruct Hc as [(_ & Hc & ->)|(_ & _ & ->)];
      [by apply disk_in_grid_saved|by apply disk_in_grid_corrupt].
  - by rewrite get_worksheet_info_readonly.
  - destruct (add_worksheet_cases avoid_duplicate_name file_path sheet_name d)
      as (r0 & d0 & -> & [[_ ->]|(sw & wb2 & i & ws & _ & _ & _ & _ & Hc)]); [done|].
    destruct Hc as [(_ & Hc & ->)|(_ & _ & ->)];
      [by apply disk_in_grid_saved|by apply disk_in_grid_corrupt].
  - destruct (update_cell_cases file_path sheet_name cell_ value_ d)
      as (r0 & d0 & -> & [[_ ->]|(sw & i & ws & ws2 & _ & _ & _ & _ & Hc)]); [done|].
    destruct Hc as [(_ & Hc & ->)|(_ & _ & ->)];
      [by apply disk_in_grid_saved|by apply disk_in_grid_corrupt].
  - destruct (apply_formula_cases file_path sheet_name cell_ formula d)
      as (r0 & d0 & -> & [[_ ->]|(sw & i & ws & ws2 & _ & _ & _ & _ & Hc)]); [done|].
    destruct Hc as [(_ & Hc & ->)|(_ & _ & ->)];
      [by apply disk_in_grid_saved|by apply disk_in_grid_corrupt].
  - destruct (format_cells_cases file_path sheet_name cell_range format_options_ d)
      as (r0 & d0 & ->
          & [[_ ->]|(sw & i & ws & fo & fi & ws2 & _ & _ & _ & _ & _ & _ & Hc)]); [done|].
    destruct Hc as [(_ & Hc & ->)|(_ & _ & ->)];
      [by apply disk_in_grid_saved|by apply disk_in_grid_corrupt].
  - destruct (create_chart_cases chart_series file_path sheet_name data_range chart_type_
                title_ position d)
      as (r0 & d0 & -> & [[_ ->]|(sw & i & ws & ser & _ & _ & _ & _ & _ & Hc)]); [done|].
    destruct Hc as [(_ & Hc & ->)|(_ & _ & ->)];
      [by apply disk_in_grid_saved|by apply disk_in_grid_corrupt].
Qed.


End Failure.

Lemma disk_in_grid_book_disk : disk_in_grid book_disk.
Proof.
  intros p sw Hp. unfold book_disk in Hp. apply lookup_singleton_Some in Hp as [_ Hp].
  injection Hp as <-. exact book_in_grid.
Qed.


